(** * amazon_parser.py: classifiers, unit normalizers and the specification
      assembler, as a shallow embedding.

    Python values are modelled as follows.
    - [str] is [string]; the model covers ASCII text (code points below 128):
      a character above 127 is neither a digit, a letter nor white space,
      and the properties that depend on the classes of characters or on
      their case are stated for ASCII text.
    - [Optional[str]] is [option string]; Python's truth test on it is
      [truthy].
    - [float] is an IEEE 754 binary64 number, [spec_float] at precision 53.
    - a [dict] built by a literal (the assembled specification, a conflict,
      the result of [asdict]) is an insertion-ordered association list
      inside [pyval]; the technical-detail map is a [gmap string string].
    - an exception is the [Raised] case of [outcome]. *)

From stdpp Require Import gmap strings.
From Stdlib Require Import ZArith Lia Ascii String List.
From Stdlib Require Import Floats.SpecFloat.
Import ListNotations.

Local Open Scope string_scope.

(** ** Characters and strings *)

Module PyStr.

Definition code (c : ascii) : nat := nat_of_ascii c.

Definition between (lo hi : nat) (c : ascii) : bool :=
  Nat.leb lo (code c) && Nat.leb (code c) hi.

(** [c.isdigit()] and the class [\d], on ASCII. *)
Definition is_digit (c : ascii) : bool := between 48 57 c.

(** [c.isspace()] and the class [\s], on ASCII: tab, line feed, vertical
    tab, form feed, carriage return, the four separators 0x1c-0x1f and the
    space. *)
Definition is_space (c : ascii) : bool :=
  between 9 13 c || between 28 32 c.

Definition is_upper (c : ascii) : bool := between 65 90 c.
Definition is_lower (c : ascii) : bool := between 97 122 c.

Definition lower_char (c : ascii) : ascii :=
  if is_upper c then ascii_of_nat (code c + 32) else c.

Definition upper_char (c : ascii) : ascii :=
  if is_lower c then ascii_of_nat (code c - 32) else c.

Fixpoint map_chars (f : ascii -> ascii) (s : string) : string :=
  match s with
  | EmptyString => EmptyString
  | String c s' => String (f c) (map_chars f s')
  end.

(** [s.lower()], [s.upper()], on ASCII: the letters a to z and A to Z
    are mapped, every other character is left as it is. *)
Definition lower (s : string) : string := map_chars lower_char s.
Definition upper (s : string) : string := map_chars upper_char s.

Fixpoint lstrip (s : string) : string :=
  match s with
  | EmptyString => EmptyString
  | String c s' => if is_space c then lstrip s' else s
  end.

Fixpoint rstrip (s : string) : string :=
  match s with
  | EmptyString => EmptyString
  | String c s' =>
      match rstrip s' with
      | EmptyString => if is_space c then EmptyString else String c EmptyString
      | r => String c r
      end
  end.

(** [s.strip()] *)
Definition strip (s : string) : string := rstrip (lstrip s).

Fixpoint starts_with (p s : string) : bool :=
  match p, s with
  | EmptyString, _ => true
  | String a p', String b s' => if Ascii.eqb a b then starts_with p' s' else false
  | String _ _, EmptyString => false
  end.

(** [sub in s] *)
Fixpoint contains (sub s : string) : bool :=
  starts_with sub s ||
  match s with
  | EmptyString => false
  | String _ s' => contains sub s'
  end.

(** [s[:n]] *)
Fixpoint take (n : nat) (s : string) : string :=
  match n, s with
  | S n', String c s' => String c (take n' s')
  | _, _ => EmptyString
  end.

(** [x in xs] for a list of strings [xs] *)
Definition mem (x : string) (xs : list string) : bool :=
  existsb (String.eqb x) xs.

(** [bool(x)] for [x : Optional[str]]: [None] and the empty string are
    false. *)
Definition truthy (x : option string) : bool :=
  match x with
  | None => false
  | Some EmptyString => false
  | Some (String _ _) => true
  end.

(** [str(x)] for [x : Optional[str]]. *)
Definition str (x : option string) : string :=
  match x with
  | None => "None"
  | Some s => s
  end.

(** [a != b] on [Optional[str]]. *)
Definition neq (a b : option string) : bool :=
  match a, b with
  | None, None => false
  | Some x, Some y => negb (String.eqb x y)
  | _, _ => true
  end.

End PyStr.

(** ** Regular expressions

    The fragment of Python's [re] syntax that the source's patterns use.
    Every quantifier other than [?] is applied to a single character class
    in the source ([\s*], [\d+], [\d{2}], [\d{3,4}], ...), which is what
    [Rep] covers; all quantifiers are greedy.  [(?:r)] is [r] itself. *)

Module Re.

Inductive cclass : Type :=
| Digit                       (* \d *)
| Space                       (* \s *)
| OneOf (cs : list ascii).    (* [...] *)

Inductive regex : Type :=
| Empty
| Lit (c : ascii)
| Class (cl : cclass)
| Seq (r1 r2 : regex)
| Alt (r1 r2 : regex)
| Opt (r : regex)                                 (* r? *)
| Rep (cl : cclass) (lo : nat) (hi : option nat)  (* cl{lo,hi}; cl* ; cl+ *)
| Group (i : nat) (r : regex)                     (* i-th capturing group, from 1 *)
| Eos.                                            (* $ *)

(** The literal string [s] as a regex. *)
Fixpoint word (s : string) : regex :=
  match s with
  | EmptyString => Empty
  | String c EmptyString => Lit c
  | String c s' => Seq (Lit c) (word s')
  end.

Fixpoint seq (rs : list regex) : regex :=
  match rs with
  | [] => Empty
  | [r] => r
  | r :: rs' => Seq r (seq rs')
  end.

Fixpoint alt (rs : list regex) : regex :=
  match rs with
  | [] => Empty
  | [r] => r
  | r :: rs' => Alt r (alt rs')
  end.

Definition star (cl : cclass) : regex := Rep cl 0 None.
Definition plus (cl : cclass) : regex := Rep cl 1 None.
Definition times (cl : cclass) (n : nat) : regex := Rep cl n (Some n).
Definition range (cl : cclass) (lo hi : nat) : regex := Rep cl lo (Some hi).

Definition in_class (cl : cclass) (c : ascii) : bool :=
  match cl with
  | Digit => PyStr.is_digit c
  | Space => PyStr.is_space c
  | OneOf cs => existsb (Ascii.eqb c) cs
  end.

(** Matching one character; [ic] is the flag [re.IGNORECASE], on ASCII:
    a letter matches itself in its other case, and nothing else. *)
Definition lit_matches (ic : bool) (l c : ascii) : bool :=
  if ic then Ascii.eqb (PyStr.lower_char l) (PyStr.lower_char c)
  else Ascii.eqb l c.

Definition class_matches (ic : bool) (cl : cclass) (c : ascii) : bool :=
  in_class cl c ||
  (ic && (in_class cl (PyStr.lower_char c) || in_class cl (PyStr.upper_char c))).

(** The groups of a match: entry [i - 1] is group [i], [None] when the
    group did not take part in the match. *)
Definition captures : Type := list (option string).

Fixpoint set_group (i : nat) (v : string) (caps : captures) : captures :=
  match i, caps with
  | _, [] => []
  | O, _ :: rest => Some v :: rest
  | S i', x :: rest => x :: set_group i' v rest
  end.

Section Matcher.
Variable ic : bool.
Context {A : Type}.

(** Greedy repetition of a character class: take as many characters as
    allowed, and give back one at a time while the rest of the pattern
    fails. *)
Fixpoint rep (cl : cclass) (lo : nat) (hi : option nat) (s : string)
         (k : string -> option A) : option A :=
  let stop := match lo with O => k s | S _ => None end in
  match s with
  | String c s' =>
      if class_matches ic cl c && negb (bool_decide (hi = Some O)) then
        match rep cl (Nat.pred lo) (Nat.pred <$> hi) s' k with
        | Some a => Some a
        | None => stop
        end
      else stop
  | EmptyString => stop
  end.

(** Backtracking matcher in continuation-passing style: [m r s caps k]
    matches [r] at the start of [s] and passes the rest of the input and
    the groups to [k]; when [k] fails the next way of matching [r] is
    tried, in the priority order of [re]. *)
Fixpoint m (r : regex) (s : string) (caps : captures)
         (k : string -> captures -> option A) : option A :=
  match r with
  | Empty => k s caps
  | Lit l =>
      match s with
      | String c s' => if lit_matches ic l c then k s' caps else None
      | EmptyString => None
      end
  | Class cl =>
      match s with
      | String c s' => if class_matches ic cl c then k s' caps else None
      | EmptyString => None
      end
  | Seq r1 r2 => m r1 s caps (fun s' caps' => m r2 s' caps' k)
  | Alt r1 r2 =>
      match m r1 s caps k with
      | Some a => Some a
      | None => m r2 s caps k
      end
  | Opt r1 =>
      match m r1 s caps k with
      | Some a => Some a
      | None => k s caps
      end
  | Rep cl lo hi => rep cl lo hi s (fun s' => k s' caps)
  | Group i r1 =>
      m r1 s caps (fun s' caps' =>
        k s' (set_group (Nat.pred i)
                (PyStr.take (String.length s - String.length s') s) caps'))
  | Eos =>
      match s with
      | EmptyString => k s caps
      | String c EmptyString =>
          if Ascii.eqb c "010"%char then k s caps else None
      | _ => None
      end
  end.
End Matcher.

(** A compiled pattern: the regex and its number of groups. *)
Record pattern : Type := Pattern { body : regex; ngroups : nat }.

Definition no_groups (n : nat) : captures := repeat None n.

(** [re.match(p, s, flags).groups()], [None] when there is no match. *)
Definition match_ (ic : bool) (p : pattern) (s : string) : option captures :=
  m ic (body p) s (no_groups (ngroups p)) (fun _ caps => Some caps).

(** [re.search(p, s, flags).groups()]: the match at the first position
    that has one. *)
Fixpoint search (ic : bool) (p : pattern) (s : string) : option captures :=
  match match_ ic p s with
  | Some caps => Some caps
  | None =>
      match s with
      | EmptyString => None
      | String _ s' => search ic p s'
      end
  end.

End Re.

(** ** Component records (the dataclasses [GPUInfo], [CPUInfo],
       [ProcessingStats]) *)

Module GPUInfo.
Record t : Type := Make {
  brand : option string;
  series : option string;
  model : option string;
  variant : option string;
  source : option string;
  confidence : option string
}.

(** [GPUInfo()] *)
Definition default : t := Make None None None None None None.

Definition set_brand (v : option string) (g : t) : t :=
  Make v (series g) (model g) (variant g) (source g) (confidence g).
Definition set_series (v : option string) (g : t) : t :=
  Make (brand g) v (model g) (variant g) (source g) (confidence g).
Definition set_model (v : option string) (g : t) : t :=
  Make (brand g) (series g) v (variant g) (source g) (confidence g).
Definition set_variant (v : option string) (g : t) : t :=
  Make (brand g) (series g) (model g) v (source g) (confidence g).
End GPUInfo.

Module CPUInfo.
Record t : Type := Make {
  brand : option string;
  series : option string;
  generation : option string;
  model : option string;
  variant : option string;
  source : option string;
  confidence : option string
}.

(** [CPUInfo()] *)
Definition default : t := Make None None None None None None None.

Definition set_brand (v : option string) (c : t) : t :=
  Make v (series c) (generation c) (model c) (variant c) (source c) (confidence c).
Definition set_series (v : option string) (c : t) : t :=
  Make (brand c) v (generation c) (model c) (variant c) (source c) (confidence c).
Definition set_generation (v : option string) (c : t) : t :=
  Make (brand c) (series c) v (model c) (variant c) (source c) (confidence c).
Definition set_model (v : option string) (c : t) : t :=
  Make (brand c) (series c) (generation c) v (variant c) (source c) (confidence c).
Definition set_variant (v : option string) (c : t) : t :=
  Make (brand c) (series c) (generation c) (model c) v (source c) (confidence c).
End CPUInfo.

Record ProcessingStats : Type := {
  total_documents : Z;
  successful_processing : Z;
  failed_processing : Z;
  inserted_documents : Z;
  gpu_conflicts : Z;
  cpu_conflicts : Z
}.

(** ** SpecificationParser *)

Module SpecificationParser.
Import Re.

Definition chars (s : string) : list ascii := list_ascii_of_string s.
Definition words (ws : list string) : regex := alt (word <$> ws).
Definition ws : regex := star Space.

(** [self.nvidia_patterns] *)
Definition nvidia_patterns : list pattern := [
  (* (nvidia|geforce)\s*(rtx|gtx)\s*(40|30|20|16|10)(\d{2})\s*(ti|super)? *)
  Pattern (seq [Group 1 (words ["nvidia"; "geforce"]); ws;
                Group 2 (words ["rtx"; "gtx"]); ws;
                Group 3 (words ["40"; "30"; "20"; "16"; "10"]);
                Group 4 (times Digit 2); ws;
                Opt (Group 5 (words ["ti"; "super"]))]) 5;
  (* (nvidia|geforce|rtx|gtx)\s*(rtx|gtx)?\s*(40|30|20|16|10)(\d{2})\s*(ti|super)? *)
  Pattern (seq [Group 1 (words ["nvidia"; "geforce"; "rtx"; "gtx"]); ws;
                Opt (Group 2 (words ["rtx"; "gtx"])); ws;
                Group 3 (words ["40"; "30"; "20"; "16"; "10"]);
                Group 4 (times Digit 2); ws;
                Opt (Group 5 (words ["ti"; "super"]))]) 5
].

(** [self.amd_gpu_patterns] *)
Definition amd_gpu_patterns : list pattern := [
  (* amd\s*(radeon)?\s*(rx)\s*(7|6|5|4)(\d{3})\s*(xt)? *)
  Pattern (seq [word "amd"; ws; Opt (Group 1 (word "radeon")); ws;
                Group 2 (word "rx"); ws;
                Group 3 (words ["7"; "6"; "5"; "4"]);
                Group 4 (times Digit 3); ws;
                Opt (Group 5 (word "xt"))]) 5;
  (* (radeon|amd)?\s*(rx)?\s*(7|6|5|4)(\d{3})\s*(xt)? *)
  Pattern (seq [Opt (Group 1 (words ["radeon"; "amd"])); ws;
                Opt (Group 2 (word "rx")); ws;
                Group 3 (words ["7"; "6"; "5"; "4"]);
                Group 4 (times Digit 3); ws;
                Opt (Group 5 (word "xt"))]) 5
].

(** [self.intel_gpu_patterns] *)
Definition intel_gpu_patterns : list pattern := [
  (* (intel)?\s*arc\s*[ab]?(3|5|7)(\d{2}) *)
  Pattern (seq [Opt (Group 1 (word "intel")); ws; word "arc"; ws;
                Opt (Class (OneOf (chars "ab")));
                Group 2 (words ["3"; "5"; "7"]);
                Group 3 (times Digit 2)]) 3;
  (* (intel)?\s*arc\s*(a|b)?(\d{3}) *)
  Pattern (seq [Opt (Group 1 (word "intel")); ws; word "arc"; ws;
                Opt (Group 2 (words ["a"; "b"]));
                Group 3 (times Digit 3)]) 3;
  (* (intel)?\s*iris\s*(xe(\s*max)?|pro|plus)? *)
  Pattern (seq [Opt (Group 1 (word "intel")); ws; word "iris"; ws;
                Opt (Group 2 (alt [Seq (word "xe") (Opt (Group 3 (Seq ws (word "max"))));
                                   word "pro"; word "plus"]))]) 3;
  (* (intel)?\s*iris\s*xe\s*graphics *)
  Pattern (seq [Opt (Group 1 (word "intel")); ws; word "iris"; ws;
                word "xe"; ws; word "graphics"]) 1;
  (* (intel)?\s*(uhd|hd)\s*graphics\s*(\d{3,4})? *)
  Pattern (seq [Opt (Group 1 (word "intel")); ws;
                Group 2 (words ["uhd"; "hd"]); ws; word "graphics"; ws;
                Opt (Group 3 (range Digit 3 4))]) 3
].

(** [self.intel_cpu_patterns] *)
Definition intel_cpu_patterns : list pattern := [
  (* (intel)?\s*(core)?\s*(ultra|i[3579])\s*-?\s*(\d{1,2})(\d{3})[HKF]?[HKF]?\s*(h|u|hx|k)? *)
  Pattern (seq [Opt (Group 1 (word "intel")); ws; Opt (Group 2 (word "core")); ws;
                Group 3 (Alt (word "ultra") (Seq (Lit "i") (Class (OneOf (chars "3579")))));
                ws; Opt (Lit "-"); ws;
                Group 4 (range Digit 1 2); Group 5 (times Digit 3);
                Opt (Class (OneOf (chars "HKF"))); Opt (Class (OneOf (chars "HKF")));
                ws; Opt (Group 6 (words ["h"; "u"; "hx"; "k"]))]) 6;
  (* (intel)?\s*(core)?\s*(i[3579])\s*-?\s*(\d{1,2})th\s*gen *)
  Pattern (seq [Opt (Group 1 (word "intel")); ws; Opt (Group 2 (word "core")); ws;
                Group 3 (Seq (Lit "i") (Class (OneOf (chars "3579"))));
                ws; Opt (Lit "-"); ws;
                Group 4 (range Digit 1 2); word "th"; ws; word "gen"]) 4
].

(** [self.amd_cpu_patterns] *)
Definition amd_cpu_patterns : list pattern := [
  (* (amd)?\s*(ryzen)\s*([3579])\s*(\d{4})[HUX]?\s*(h|u|hx)? *)
  Pattern (seq [Opt (Group 1 (word "amd")); ws; Group 2 (word "ryzen"); ws;
                Group 3 (Class (OneOf (chars "3579"))); ws;
                Group 4 (times Digit 4);
                Opt (Class (OneOf (chars "HUX"))); ws;
                Opt (Group 5 (words ["h"; "u"; "hx"]))]) 5;
  (* (amd)?\s*(ryzen)\s*([3579])\s*-?\s*(\d{4,5})[HUX]?\s*(h|u|hx)? *)
  Pattern (seq [Opt (Group 1 (word "amd")); ws; Group 2 (word "ryzen"); ws;
                Group 3 (Class (OneOf (chars "3579"))); ws; Opt (Lit "-"); ws;
                Group 4 (range Digit 4 5);
                Opt (Class (OneOf (chars "HUX"))); ws;
                Opt (Group 5 (words ["h"; "u"; "hx"]))]) 5
].

(** The patterns written inline in the two classifiers. *)
Definition two_digits_end : pattern := Pattern (Seq (times Digit 2) Eos) 0.     (* \d{2}$ *)
Definition three_digits_end : pattern := Pattern (Seq (times Digit 3) Eos) 0.   (* \d{3}$ *)
Definition digits_1_2 : pattern := Pattern (range Digit 1 2) 0.                 (* \d{1,2} *)
Definition digits_3_4 : pattern := Pattern (range Digit 3 4) 0.                 (* \d{3,4} *)
Definition digits_4_5 : pattern := Pattern (range Digit 4 5) 0.                 (* \d{4,5} *)
Definition arc_model : pattern :=                                               (* (a|b)?(\d{3}) *)
  Pattern (Seq (Opt (Group 1 (words ["a"; "b"]))) (Group 2 (times Digit 3))) 2.
Definition hd_model : pattern := Pattern (Group 1 (range Digit 3 4)) 1.         (* (\d{3,4}) *)

(** [next((g for g in groups if test(g)), default)] *)
Definition next_group (test : option string -> bool) (groups : captures)
           (default : option string) : option string :=
  match find test groups with
  | Some g => g
  | None => default
  end.

(** [g in xs] for a group [g], which may be [None]. *)
Definition group_in (xs : list string) (g : option string) : bool :=
  match g with
  | Some s => PyStr.mem s xs
  | None => false
  end.

(** [re.match(p, str(g))] as a truth value. *)
Definition group_matches (p : pattern) (g : option string) : bool :=
  bool_decide (is_Some (match_ false p (PyStr.str g))).

(** The loop [for pattern in patterns: match = re.search(pattern, text,
    re.IGNORECASE); if match: ...; return]: the groups of the first pattern
    that matches. *)
Fixpoint first_match (patterns : list pattern) (text : string) : option captures :=
  match patterns with
  | [] => None
  | p :: rest =>
      match search true p text with
      | Some groups => Some groups
      | None => first_match rest text
      end
  end.

(** The provenance pair of a fresh record: [source] and [confidence]. *)
Definition source_tag (is_technical_detail : bool) : string :=
  if is_technical_detail then "technical_detail" else "title".
Definition confidence_tag (is_technical_detail : bool) : string :=
  if is_technical_detail then "high" else "low".

(** *** parse_gpu_from_text *)

(** Body of the NVIDIA loop once a pattern has matched. *)
Definition nvidia_gpu (text : string) (groups : captures) (gpu_info : GPUInfo.t) : GPUInfo.t :=
  let gpu_info := GPUInfo.set_brand (Some "NVIDIA") gpu_info in
  let gpu_info :=
    if PyStr.contains "rtx" text then GPUInfo.set_series (Some "RTX") gpu_info
    else if PyStr.contains "gtx" text then GPUInfo.set_series (Some "GTX") gpu_info
    else gpu_info in
  let series_num := next_group (group_in ["40"; "30"; "20"; "16"; "10"]) groups (Some "") in
  let model_num := next_group (group_matches two_digits_end) groups (Some "") in
  let gpu_info :=
    if PyStr.truthy series_num && PyStr.truthy model_num
    then GPUInfo.set_model (Some (PyStr.str series_num +:+ PyStr.str model_num)) gpu_info
    else gpu_info in
  if PyStr.contains "ti" text then GPUInfo.set_variant (Some "Ti") gpu_info
  else if PyStr.contains "super" text then GPUInfo.set_variant (Some "SUPER") gpu_info
  else gpu_info.

(** Body of the Intel loop once a pattern has matched. *)
Definition intel_gpu (text : string) (gpu_info : GPUInfo.t) : GPUInfo.t :=
  let gpu_info := GPUInfo.set_brand (Some "Intel") gpu_info in
  if PyStr.contains "arc" text then
    let gpu_info := GPUInfo.set_series (Some "Arc") gpu_info in
    match search false arc_model text with
    | Some arc_match =>
        let prefix := nth 0 arc_match None in
        let number := nth 1 arc_match None in
        if PyStr.truthy prefix
        then GPUInfo.set_model (Some (PyStr.upper (PyStr.str prefix) +:+ PyStr.str number)) gpu_info
        else GPUInfo.set_model number gpu_info
    | None => gpu_info
    end
  else if PyStr.contains "iris" text then
    let gpu_info := GPUInfo.set_series (Some "Iris") gpu_info in
    if PyStr.contains "xe max" text then GPUInfo.set_variant (Some "Xe MAX") gpu_info
    else if PyStr.contains "xe" text then GPUInfo.set_variant (Some "Xe") gpu_info
    else if PyStr.contains "pro" text then GPUInfo.set_variant (Some "Pro") gpu_info
    else if PyStr.contains "plus" text then GPUInfo.set_variant (Some "Plus") gpu_info
    else gpu_info
  else if PyStr.contains "uhd" text || PyStr.contains "hd" text then
    let gpu_info :=
      GPUInfo.set_series (Some (if PyStr.contains "uhd" text then "UHD" else "HD")) gpu_info in
    match search false hd_model text with
    | Some model_match => GPUInfo.set_model (nth 0 model_match None) gpu_info
    | None => gpu_info
    end
  else gpu_info.

(** Body of the AMD loop once a pattern has matched. *)
Definition amd_gpu (text : string) (groups : captures) (gpu_info : GPUInfo.t) : GPUInfo.t :=
  let gpu_info := GPUInfo.set_brand (Some "AMD") gpu_info in
  let gpu_info := GPUInfo.set_series (Some "RX") gpu_info in
  let series_num := next_group (group_in ["7"; "6"; "5"; "4"]) groups (Some "") in
  let model_num := next_group (group_matches three_digits_end) groups (Some "") in
  let gpu_info :=
    if PyStr.truthy series_num && PyStr.truthy model_num
    then GPUInfo.set_model (Some (PyStr.str series_num +:+ PyStr.str model_num)) gpu_info
    else gpu_info in
  if PyStr.contains "xt" text then GPUInfo.set_variant (Some "XT") gpu_info
  else gpu_info.

Definition parse_gpu_from_text (text : option string) (is_technical_detail : bool) : GPUInfo.t :=
  if negb (PyStr.truthy text) then GPUInfo.default
  else
    let text := PyStr.strip (PyStr.lower (PyStr.str text)) in
    let gpu_info :=
      GPUInfo.Make None None None None
        (Some (source_tag is_technical_detail))
        (Some (confidence_tag is_technical_detail)) in
    (* Try NVIDIA patterns first *)
    match first_match nvidia_patterns text with
    | Some groups => nvidia_gpu text groups gpu_info
    | None =>
        (* Try Intel patterns before AMD *)
        match first_match intel_gpu_patterns text with
        | Some _ => intel_gpu text gpu_info
        | None =>
            (* Try AMD patterns last *)
            match first_match amd_gpu_patterns text with
            | Some groups => amd_gpu text groups gpu_info
            | None => gpu_info
            end
        end
    end.

(** *** parse_cpu_from_text *)

(** Body of the Intel loop once a pattern has matched. *)
Definition intel_cpu (groups : captures) (cpu_info : CPUInfo.t) : CPUInfo.t :=
  let cpu_info := CPUInfo.set_brand (Some "Intel") cpu_info in
  let series := next_group (group_in ["ultra"; "i3"; "i5"; "i7"; "i9"]) groups (Some "") in
  let cpu_info :=
    CPUInfo.set_series
      (if PyStr.truthy series then Some (PyStr.upper (PyStr.str series)) else None) cpu_info in
  let gen := next_group (group_matches digits_1_2) groups (Some "") in
  let cpu_info :=
    if PyStr.truthy gen
    then CPUInfo.set_generation (Some (PyStr.str gen +:+ "th Gen")) cpu_info
    else cpu_info in
  let model := next_group (group_matches digits_3_4) groups (Some "") in
  let cpu_info :=
    if PyStr.truthy model then CPUInfo.set_model model cpu_info else cpu_info in
  let variant := next_group (group_in ["h"; "u"; "hx"; "k"]) groups None in
  if PyStr.truthy variant
  then CPUInfo.set_variant (Some (PyStr.upper (PyStr.str variant))) cpu_info
  else cpu_info.

(** Body of the AMD loop once a pattern has matched. *)
Definition amd_cpu (text : string) (groups : captures) (cpu_info : CPUInfo.t) : CPUInfo.t :=
  let cpu_info := CPUInfo.set_brand (Some "AMD") cpu_info in
  let cpu_info :=
    if PyStr.contains "ryzen" text then
      let ryzen_num := next_group (group_in ["3"; "5"; "7"; "9"]) groups (Some "") in
      CPUInfo.set_series (Some ("Ryzen " +:+ PyStr.str ryzen_num)) cpu_info
    else cpu_info in
  let model := next_group (group_matches digits_4_5) groups (Some "") in
  let cpu_info :=
    if PyStr.truthy model then
      let cpu_info := CPUInfo.set_model model cpu_info in
      let gen_num := PyStr.take 1 (PyStr.str model) in     (* model[0] *)
      CPUInfo.set_generation (Some ("Gen " +:+ gen_num)) cpu_info
    else cpu_info in
  let variant := next_group (group_in ["h"; "u"; "hx"]) groups None in
  if PyStr.truthy variant
  then CPUInfo.set_variant (Some (PyStr.upper (PyStr.str variant))) cpu_info
  else cpu_info.

Definition parse_cpu_from_text (text : option string) (is_technical_detail : bool) : CPUInfo.t :=
  if negb (PyStr.truthy text) then CPUInfo.default
  else
    let text := PyStr.strip (PyStr.lower (PyStr.str text)) in
    let cpu_info :=
      CPUInfo.Make None None None None None
        (Some (source_tag is_technical_detail))
        (Some (confidence_tag is_technical_detail)) in
    (* Try Intel patterns first *)
    match first_match intel_cpu_patterns text with
    | Some groups => intel_cpu groups cpu_info
    | None =>
        (* Try AMD patterns *)
        match first_match amd_cpu_patterns text with
        | Some groups => amd_cpu text groups cpu_info
        | None => cpu_info
        end
    end.

End SpecificationParser.


(** ** Exceptions *)

Inductive exn : Type := ValueError | TypeError.

Inductive outcome (A : Type) : Type :=
| Returned (a : A)
| Raised (e : exn).
Arguments Returned {A} a.
Arguments Raised {A} e.

#[global] Instance outcome_ret : MRet outcome := fun A a => Returned a.
#[global] Instance outcome_bind : MBind outcome := fun A B f x =>
  match x with
  | Returned a => f a
  | Raised e => Raised e
  end.

(** [try: body / except Exception as e: handler] *)
Definition try_except {A : Type} (body : outcome A) (handler : exn -> outcome A) : outcome A :=
  match body with
  | Returned a => Returned a
  | Raised e => handler e
  end.

(** ** Numbers: [float] and [int] *)

Module PyFloat.

Definition prec : Z := 53.
Definition emax : Z := 1024.

(** [float(n)] for an integer [n], rounded to nearest even. *)
Definition of_Z (n : Z) : spec_float := binary_normalize prec emax n 0 false.

(** [x / y] and [x * y] on floats. *)
Definition div (x y : spec_float) : spec_float := SFdiv prec emax x y.
Definition mul (x y : spec_float) : spec_float := SFmul prec emax x y.

Definition digit_value (c : ascii) : N := N.of_nat (PyStr.code c - 48).

(** The digits of [s] read in base ten after [acc], [None] unless [s] is
    made of digits only. *)
Fixpoint digits (acc : N) (s : string) : option N :=
  match s with
  | EmptyString => Some acc
  | String c s' =>
      if PyStr.is_digit c then digits (acc * 10 + digit_value c) s' else None
  end.

(** Splits [s] at its first full stop. *)
Fixpoint split_dot (s : string) : string * option string :=
  match s with
  | EmptyString => (EmptyString, None)
  | String c s' =>
      if Ascii.eqb c "."%char then (EmptyString, Some s')
      else let '(a, b) := split_dot s' in (String c a, b)
  end.

(** The decimal literal [s], of the shape [digits] or [digits.digits], as
    a numerator and a number of decimals: the value is
    [numerator / 10 ^ decimals]. *)
Definition decimal (s : string) : option (N * nat) :=
  match split_dot s with
  | (EmptyString, _) => None
  | (ip, None) => n ← digits 0 ip; Some (n, O)
  | (_, Some EmptyString) => None
  | (ip, Some fp) => n ← digits 0 ip; n' ← digits n fp; Some (n', String.length fp)
  end.

Definition pow10 (k : nat) : positive := Nat.iter k (Pos.mul 10) 1%positive.

(** The binary64 number nearest to [n / 10 ^ k] (ties to even; infinity
    on overflow). *)
Definition nearest (n : N) (k : nat) : spec_float :=
  match n with
  | N0 => S754_zero false
  | Npos p => SFdiv prec emax (S754_finite false p 0) (S754_finite false (pow10 k) 0)
  end.

(** [float(x)] for the arguments the normalizers pass: a string of the
    shape [digits] or [digits.digits] is converted with correct rounding;
    [None] raises [TypeError].  Python's [float] reads further notations
    (signs, exponents, surrounding white space); the model takes every
    other string as an invalid literal. *)
Definition float (x : option string) : outcome spec_float :=
  match x with
  | None => Raised TypeError
  | Some s =>
      match decimal s with
      | Some (n, k) => Returned (nearest n k)
      | None => Raised ValueError
      end
  end.

(** The limit on the number of digits of a string that [int] converts,
    [sys.int_info.default_max_str_digits]. *)
Definition max_str_digits : nat := 4300.

(** [int(x)], under the same restriction: a string of digits.  A string of
    more than 4300 digits is refused with [ValueError], like a string that
    is not a number. *)
Definition int (x : option string) : outcome Z :=
  match x with
  | None => Raised TypeError
  | Some EmptyString => Raised ValueError
  | Some s =>
      if Nat.ltb max_str_digits (String.length s) then Raised ValueError
      else
        match digits 0 s with
        | Some n => Returned (Z.of_N n)
        | None => Raised ValueError
        end
  end.

End PyFloat.

(** ** Python values held by the assembled specification *)

#[warnings="-register-all"]
Inductive pyval : Type :=
| VNone
| VStr (s : string)
| VFloat (f : spec_float)
| VInt (n : Z)
| VList (l : list pyval)
| VDict (d : list (string * pyval)).

(** A [dict] with string keys, in insertion order. *)
Abbreviation pydict := (list (string * pyval)).

Module PyDict.

(** [d.get(k)] as an option: [None] when the key is not in [d]. *)
Fixpoint lookup (k : string) (d : pydict) : option pyval :=
  match d with
  | [] => None
  | (k', v) :: rest => if String.eqb k k' then Some v else lookup k rest
  end.

(** [k in d] *)
Definition has_key (k : string) (d : pydict) : bool :=
  bool_decide (is_Some (lookup k d)).

(** [d[k] = v]: replaces the value of a key already there, otherwise adds
    the key last. *)
Fixpoint set (k : string) (v : pyval) (d : pydict) : pydict :=
  match d with
  | [] => [(k, v)]
  | (k', v') :: rest =>
      if String.eqb k k' then (k', v) :: rest else (k', v') :: set k v rest
  end.

End PyDict.

Definition of_opt_str (x : option string) : pyval :=
  match x with
  | None => VNone
  | Some s => VStr s
  end.

Definition of_opt_float (x : option spec_float) : pyval :=
  match x with
  | None => VNone
  | Some f => VFloat f
  end.

Definition of_opt_int (x : option Z) : pyval :=
  match x with
  | None => VNone
  | Some n => VInt n
  end.

(** [dataclasses.asdict]: one key per field, in the order of declaration. *)
Definition asdict_gpu (g : GPUInfo.t) : pydict := [
  ("brand", of_opt_str (GPUInfo.brand g));
  ("series", of_opt_str (GPUInfo.series g));
  ("model", of_opt_str (GPUInfo.model g));
  ("variant", of_opt_str (GPUInfo.variant g));
  ("source", of_opt_str (GPUInfo.source g));
  ("confidence", of_opt_str (GPUInfo.confidence g))
].

Definition asdict_cpu (c : CPUInfo.t) : pydict := [
  ("brand", of_opt_str (CPUInfo.brand c));
  ("series", of_opt_str (CPUInfo.series c));
  ("generation", of_opt_str (CPUInfo.generation c));
  ("model", of_opt_str (CPUInfo.model c));
  ("variant", of_opt_str (CPUInfo.variant c));
  ("source", of_opt_str (CPUInfo.source c));
  ("confidence", of_opt_str (CPUInfo.confidence c))
].

(** ** AmazonParser *)

Module AmazonParser.
Import Re SpecificationParser.

(** (\d+(?:\.\d+)?) *)
Definition number : regex :=
  Seq (plus Digit) (Opt (Seq (Lit ".") (plus Digit))).

(** (\d+(?:\.\d+)?)\s*(GB|MB|TB)? *)
Definition ram_pattern : pattern :=
  Pattern (seq [Group 1 number; star Space;
                Opt (Group 2 (alt [word "GB"; word "MB"; word "TB"]))]) 2.

(** (\d+(?:\.\d+)?)\s*(?:inches|Q)?, where Q is the double quote
    character, code 34 *)
Definition display_pattern : pattern :=
  Pattern (seq [Group 1 number; star Space;
                Opt (Alt (word "inches") (Lit "034"))]) 1.

(** (\d+(?:\.\d+)?)\s*(?:hours|hrs?)? *)
Definition battery_pattern : pattern :=
  Pattern (seq [Group 1 number; star Space;
                Opt (Alt (word "hours") (Seq (word "hr") (Opt (Lit "s"))))]) 1.

(** (\d+(?:\.\d+)?)\s*(kg|g|kilograms|grams)? *)
Definition weight_pattern : pattern :=
  Pattern (seq [Group 1 number; star Space;
                Opt (Group 2 (alt [word "kg"; word "g"; word "kilograms"; word "grams"]))]) 2.

(** (\d+) *)
Definition port_pattern : pattern := Pattern (Group 1 (plus Digit)) 1.

(** In each normalizer the value of the [try] block is [Some v] for
    [return v] and [None] when control leaves the block without
    returning; the statement after the block is [return None], and the
    handler only logs. *)

Definition normalize_ram_size (ram_size : option string) : outcome (option spec_float) :=
  if negb (PyStr.truthy ram_size) then Returned None
  else
    try_except
      (match search true ram_pattern (PyStr.str ram_size) with
       | Some groups =>
           let size := nth 0 groups None in
           let unit := nth 1 groups None in
           size ← PyFloat.float size;
           let size :=
             if PyStr.truthy unit then
               let unit := PyStr.upper (PyStr.str unit) in
               if String.eqb unit "MB" then PyFloat.div size (PyFloat.of_Z 1024)
               else if String.eqb unit "TB" then PyFloat.mul size (PyFloat.of_Z 1024)
               else size
             else size in
           Returned (Some size)
       | None => Returned None
       end)
      (fun _ => Returned None).

Definition normalize_display_size (display_size : option string) : outcome (option spec_float) :=
  if negb (PyStr.truthy display_size) then Returned None
  else
    try_except
      (match search true display_pattern (PyStr.str display_size) with
       | Some groups => v ← PyFloat.float (nth 0 groups None); Returned (Some v)
       | None => Returned None
       end)
      (fun _ => Returned None).

Definition normalize_battery_life (battery_life : option string) : outcome (option spec_float) :=
  if negb (PyStr.truthy battery_life) then Returned None
  else
    try_except
      (match search true battery_pattern (PyStr.str battery_life) with
       | Some groups => v ← PyFloat.float (nth 0 groups None); Returned (Some v)
       | None => Returned None
       end)
      (fun _ => Returned None).

Definition normalize_weight (weight : option string) : outcome (option spec_float) :=
  if negb (PyStr.truthy weight) then Returned None
  else
    try_except
      (match search true weight_pattern (PyStr.str weight) with
       | Some groups =>
           let value := nth 0 groups None in
           let unit := nth 1 groups None in
           value ← PyFloat.float value;
           let value :=
             if PyStr.truthy unit && PyStr.mem (PyStr.lower (PyStr.str unit)) ["g"; "grams"]
             then PyFloat.div value (PyFloat.of_Z 1000)
             else value in
           Returned (Some value)
       | None => Returned None
       end)
      (fun _ => Returned None).

Definition normalize_port_count (port_count : option string) : outcome (option Z) :=
  if negb (PyStr.truthy port_count) then Returned None
  else
    try_except
      (match search false port_pattern (PyStr.str port_count) with
       | Some groups => n ← PyFloat.int (nth 0 groups None); Returned (Some n)
       | None => Returned None
       end)
      (fun _ => Returned None).

(** *** standardize_specs *)

(** The dict appended to [conflicts] for one component. *)
Definition conflict (component : string) (tech_brand title_brand : option string) : pyval :=
  VDict [
    ("component", VStr component);
    ("field", VStr "brand");
    ("tech_value", of_opt_str tech_brand);
    ("title_value", of_opt_str title_brand);
    ("resolution", VStr ("Used technical detail value: " +:+ PyStr.str tech_brand))
  ].

(** [self.stats.gpu_conflicts += 1], [self.stats.cpu_conflicts += 1] *)
Definition count_gpu_conflict (st : ProcessingStats) : ProcessingStats :=
  {| total_documents := total_documents st;
     successful_processing := successful_processing st;
     failed_processing := failed_processing st;
     inserted_documents := inserted_documents st;
     gpu_conflicts := gpu_conflicts st + 1;
     cpu_conflicts := cpu_conflicts st |}.

Definition count_cpu_conflict (st : ProcessingStats) : ProcessingStats :=
  {| total_documents := total_documents st;
     successful_processing := successful_processing st;
     failed_processing := failed_processing st;
     inserted_documents := inserted_documents st;
     gpu_conflicts := gpu_conflicts st;
     cpu_conflicts := cpu_conflicts st + 1 |}.

(** The condition of both [if] statements that record a conflict:
    [tech.brand and title.brand and tech.brand != title.brand]. *)
Definition brands_differ (tech_brand title_brand : option string) : bool :=
  PyStr.truthy tech_brand && PyStr.truthy title_brand && PyStr.neq tech_brand title_brand.

(** [self.stats] is threaded through: the function takes the counters and
    returns them next to the specification. *)
Definition standardize_specs (stats : ProcessingStats)
           (tech_details : gmap string string) (title : option string)
  : outcome (pydict * ProcessingStats) :=
  let tech_gpu :=
    parse_gpu_from_text (Some (default "" (tech_details !! "Graphics Card Description"))) true in
  let title_gpu := parse_gpu_from_text title false in
  let tech_cpu :=
    parse_cpu_from_text (Some (default "" (tech_details !! "Processor Type"))) true in
  let title_cpu := parse_cpu_from_text title false in
  let conflicts : list pyval := [] in
  (* Validate GPU information *)
  let final_gpu :=
    asdict_gpu (if PyStr.truthy (GPUInfo.brand tech_gpu) then tech_gpu else title_gpu) in
  let '(conflicts, stats) :=
    if brands_differ (GPUInfo.brand tech_gpu) (GPUInfo.brand title_gpu)
    then (app conflicts [conflict "GPU" (GPUInfo.brand tech_gpu) (GPUInfo.brand title_gpu)],
          count_gpu_conflict stats)
    else (conflicts, stats) in
  (* Validate CPU information *)
  let final_cpu :=
    asdict_cpu (if PyStr.truthy (CPUInfo.brand tech_cpu) then tech_cpu else title_cpu) in
  let '(conflicts, stats) :=
    if brands_differ (CPUInfo.brand tech_cpu) (CPUInfo.brand title_cpu)
    then (app conflicts [conflict "CPU" (CPUInfo.brand tech_cpu) (CPUInfo.brand title_cpu)],
          count_cpu_conflict stats)
    else (conflicts, stats) in
  (* Create standardized specifications *)
  ram_size ← normalize_ram_size (tech_details !! "RAM Size");
  display_size ← normalize_display_size (tech_details !! "Standing screen display size");
  battery_life ← normalize_battery_life (tech_details !! "Average Battery Life (in hours)");
  weight ← normalize_weight (tech_details !! "Item Weight");
  usb2_ports ← normalize_port_count (tech_details !! "Number of USB 2.0 Ports");
  usb3_ports ← normalize_port_count (tech_details !! "Number of USB 3.0 Ports");
  let specs : pydict := [
    ("brand", of_opt_str (tech_details !! "Brand"));
    ("model", of_opt_str (tech_details !! "Item model number"));
    ("series", of_opt_str (tech_details !! "Series"));
    ("processor", VDict final_cpu);
    ("graphics", VDict final_gpu);
    ("memory", VDict [
      ("ram_size", of_opt_float ram_size);
      ("technology", of_opt_str (tech_details !! "Memory Technology"));
      ("max_supported", of_opt_str (tech_details !! "Maximum Memory Supported"))]);
    ("storage", VDict [
      ("size", of_opt_str (tech_details !! "Hard Drive Size"));
      ("type", of_opt_str (tech_details !! "Hard Disk Description"));
      ("interface", of_opt_str (tech_details !! "Hard Drive Interface"))]);
    ("display", VDict [
      ("size", of_opt_float display_size);
      ("resolution", of_opt_str (tech_details !! "Screen Resolution"))]);
    ("operating_system", of_opt_str (tech_details !! "Operating System"));
    ("battery", VDict [
      ("life", of_opt_float battery_life);
      ("cells", of_opt_str (tech_details !! "Number of Lithium Ion Cells"));
      ("energy_content", of_opt_str (tech_details !! "Lithium Battery Energy Content"))]);
    ("physical", VDict [
      ("dimensions", of_opt_str (tech_details !! "Product Dimensions"));
      ("weight", of_opt_float weight);
      ("color", of_opt_str (tech_details !! "Colour"))]);
    ("connectivity", VDict [
      ("type", of_opt_str (tech_details !! "Connectivity Type"));
      ("usb2_ports", of_opt_int usb2_ports);
      ("usb3_ports", of_opt_int usb3_ports)]);
    ("included_components", of_opt_str (tech_details !! "Included Components"))
  ] in
  let specs :=
    match conflicts with
    | [] => specs
    | _ :: _ => PyDict.set "specification_conflicts" (VList conflicts) specs
    end in
  Returned (specs, stats).

End AmazonParser.

(** ** Notions used to state the properties *)

Import SpecificationParser AmazonParser.

(** [ProcessingStats()] *)
Definition fresh_stats : ProcessingStats :=
  {| total_documents := 0; successful_processing := 0; failed_processing := 0;
     inserted_documents := 0; gpu_conflicts := 0; cpu_conflicts := 0 |}.

(** A brand conflict between the two sources of one component: both brands
    are present and they are different strings. *)
Definition brand_conflict (tech_brand title_brand : option string) : bool :=
  match tech_brand, title_brand with
  | Some a, Some b => negb (String.eqb a b)
  | _, _ => false
  end.

(** The conflict list of an assembled specification: the list under the key
    [specification_conflicts], empty when the key is missing. *)
Definition conflicts_of (specs : pydict) : list pyval :=
  match PyDict.lookup "specification_conflicts" specs with
  | Some (VList l) => l
  | _ => []
  end.

(** The four classifications made by [standardize_specs] and the two
    conflicts it looks for. *)
Section Classifications.
Variables (tech_details : gmap string string) (title : option string).

Definition tech_gpu_of : GPUInfo.t :=
  parse_gpu_from_text (Some (default "" (tech_details !! "Graphics Card Description"))) true.
Definition title_gpu_of : GPUInfo.t := parse_gpu_from_text title false.
Definition tech_cpu_of : CPUInfo.t :=
  parse_cpu_from_text (Some (default "" (tech_details !! "Processor Type"))) true.
Definition title_cpu_of : CPUInfo.t := parse_cpu_from_text title false.

Definition gpu_conflict_of : bool :=
  brand_conflict (GPUInfo.brand tech_gpu_of) (GPUInfo.brand title_gpu_of).
Definition cpu_conflict_of : bool :=
  brand_conflict (CPUInfo.brand tech_cpu_of) (CPUInfo.brand title_cpu_of).
End Classifications.

(** *** What a match is

    [matches ic r s caps s' caps'] says that [r] matches a prefix of [s],
    leaving [s'], and turns the groups [caps] into [caps'].  It describes
    every way of matching [r]; the matcher [Re.m] explores these ways in the
    priority order of [re]. *)
Module ReSpec.
Import Re.

Fixpoint all_in (ic : bool) (cl : cclass) (p : string) : bool :=
  match p with
  | EmptyString => true
  | String c p' => class_matches ic cl c && all_in ic cl p'
  end.

Definition within (n : nat) (hi : option nat) : Prop :=
  match hi with
  | Some h => n <= h
  | None => True
  end.

Inductive matches (ic : bool) : regex -> string -> captures -> string -> captures -> Prop :=
| M_Empty s caps :
    matches ic Empty s caps s caps
| M_Lit l c s caps :
    lit_matches ic l c = true ->
    matches ic (Lit l) (String c s) caps s caps
| M_Class cl c s caps :
    class_matches ic cl c = true ->
    matches ic (Class cl) (String c s) caps s caps
| M_Seq r1 r2 s caps s1 caps1 s2 caps2 :
    matches ic r1 s caps s1 caps1 ->
    matches ic r2 s1 caps1 s2 caps2 ->
    matches ic (Seq r1 r2) s caps s2 caps2
| M_Alt_l r1 r2 s caps s' caps' :
    matches ic r1 s caps s' caps' ->
    matches ic (Alt r1 r2) s caps s' caps'
| M_Alt_r r1 r2 s caps s' caps' :
    matches ic r2 s caps s' caps' ->
    matches ic (Alt r1 r2) s caps s' caps'
| M_Opt_some r s caps s' caps' :
    matches ic r s caps s' caps' ->
    matches ic (Opt r) s caps s' caps'
| M_Opt_none r s caps :
    matches ic (Opt r) s caps s caps
| M_Rep cl lo hi p s' caps :
    all_in ic cl p = true ->
    lo <= String.length p ->
    within (String.length p) hi ->
    matches ic (Rep cl lo hi) (p +:+ s') caps s' caps
| M_Group i r s caps s' caps' :
    matches ic r s caps s' caps' ->
    matches ic (Group i r) s caps s'
      (set_group (Nat.pred i) (PyStr.take (String.length s - String.length s') s) caps')
| M_Eos_end caps :
    matches ic Eos EmptyString caps EmptyString caps
| M_Eos_newline caps :
    matches ic Eos (String "010" EmptyString) caps (String "010" EmptyString) caps.

(** [s'] is what is left of [s] after the prefix [p]. *)
Definition consumed (s s' p : string) : Prop := s = p +:+ s'.

End ReSpec.

(** [s] holds a digit. *)
Fixpoint has_digit (s : string) : bool :=
  match s with
  | EmptyString => false
  | String c s' => PyStr.is_digit c || has_digit s'
  end.

(** A string is trimmed on the left when it is empty or starts with a
    character that is not white space. *)
Definition left_trimmed (s : string) : Prop :=
  match s with
  | EmptyString => True
  | String c _ => PyStr.is_space c = false
  end.

(** *** Scanning a text without a regex

    The functions below read a number and a unit off a text by plain
    scanning; the normalizers are compared with them further down. *)

(** The longest prefix of [s] whose characters satisfy [P], and the rest. *)
Fixpoint span (P : ascii -> bool) (s : string) : string * string :=
  match s with
  | EmptyString => (EmptyString, EmptyString)
  | String c s' =>
      if P c then let '(d, r) := span P s' in (String c d, r)
      else (EmptyString, s)
  end.

(** [s[n:]] *)
Fixpoint drop (n : nat) (s : string) : string :=
  match n, s with
  | S n', String _ s' => drop n' s'
  | _, _ => s
  end.

(** The result of [f] at the first position of [s], from the left, where it
    has one. *)
Fixpoint scan {A : Type} (f : string -> option A) (s : string) : option A :=
  match f s with
  | Some a => Some a
  | None =>
      match s with
      | EmptyString => None
      | String _ s' => scan f s'
      end
  end.

(** The digits at the start of [s], at least one, and what follows them. *)
Definition digits_prefix (s : string) : option (string * string) :=
  match span PyStr.is_digit s with
  | (EmptyString, _) => None
  | (d, r) => Some (d, r)
  end.

(** The number at the start of [s] and what follows it: digits, and then a
    full stop and digits when both are there. *)
Definition number_prefix (s : string) : option (string * string) :=
  match digits_prefix s with
  | None => None
  | Some (ip, r) =>
      match r with
      | String c r1 =>
          if Ascii.eqb c "." then
            match digits_prefix r1 with
            | Some (fp, r2) => Some (ip +:+ String "." fp, r2)
            | None => Some (ip, r)
            end
          else Some (ip, r)
      | EmptyString => Some (ip, r)
      end
  end.

(** The first number of a text, and the first run of digits, each with what
    follows it. *)
Definition first_number (s : string) : option (string * string) := scan number_prefix s.
Definition first_digits (s : string) : option (string * string) := scan digits_prefix s.

(** [s] starts with the word [w], letters compared without regard to
    case. *)
Fixpoint ci_starts_with (w s : string) : bool :=
  match w, s with
  | EmptyString, _ => true
  | String a w', String b s' =>
      Ascii.eqb (PyStr.lower_char a) (PyStr.lower_char b) && ci_starts_with w' s'
  | String _ _, EmptyString => false
  end.

(** The unit that [s] starts with: the first word of [units], in their
    order, that [s] starts with, in the spelling of [s]. *)
Definition unit_at (units : list string) (s : string) : option string :=
  match find (fun w => ci_starts_with w s) units with
  | Some w => Some (PyStr.take (String.length w) s)
  | None => None
  end.

(** [s.isascii()]: every character of [s] is below 128.  On such a text
    the character classes, the case mappings and the comparison without
    regard to case are those of Python; the properties that depend on them
    are stated for ASCII text. *)
Fixpoint is_ascii (s : string) : bool :=
  match s with
  | EmptyString => true
  | String c s' => Nat.ltb (PyStr.code c) 128 && is_ascii s'
  end.

(** The float written by a decimal literal. *)
Definition decimal_float (d : string) : spec_float :=
  match PyFloat.decimal d with
  | Some (n, k) => PyFloat.nearest n k
  | None => S754_nan
  end.

(** The integer written by a string of digits. *)
Definition digits_value (d : string) : Z :=
  match PyFloat.digits 0 d with
  | Some n => Z.of_N n
  | None => 0
  end.

(** The keys of a dict value. *)
Definition keys_of (v : option pyval) : list string :=
  match v with
  | Some (VDict d) => d.*1
  | _ => []
  end.

(** [d[k1][k2]] as an option. *)
Definition lookup2 (k1 k2 : string) (d : pydict) : option pyval :=
  match PyDict.lookup k1 d with
  | Some (VDict d') => PyDict.lookup k2 d'
  | _ => None
  end.

(** [v[k]] for a value [v] that is a dict. *)
Definition field (k : string) (v : pyval) : option pyval :=
  match v with
  | VDict d => PyDict.lookup k d
  | _ => None
  end.

(** [v] is the conflict record of [component] for the brands [a], of the
    technical details, and [b], of the title: a dict with the five keys
    below, in this order, and with these values. *)
Definition conflict_record (component a b : string) (v : pyval) : Prop :=
  keys_of (Some v) = ["component"; "field"; "tech_value"; "title_value"; "resolution"] /\
  field "component" v = Some (VStr component) /\
  field "field" v = Some (VStr "brand") /\
  field "tech_value" v = Some (VStr a) /\
  field "title_value" v = Some (VStr b) /\
  field "resolution" v = Some (VStr ("Used technical detail value: " +:+ a)).

(** The records appended for one component: one conflict record when both
    brands are present and differ as strings, and none otherwise. *)
Definition conflict_part (component : string) (tech_brand title_brand : option string)
           (part : list pyval) : Prop :=
  match tech_brand, title_brand with
  | Some a, Some b =>
      if String.eqb a b then part = []
      else exists r, part = [r] /\ conflict_record component a b r
  | _, _ => part = []
  end.

(** A text that is absent or ASCII. *)
Definition ascii_text (x : option string) : bool :=
  match x with
  | Some s => is_ascii s
  | None => true
  end.

(** The string [v] is the word [w], letter for letter, under the flag
    [ic]. *)
Fixpoint lit_word (ic : bool) (w v : string) : bool :=
  match w, v with
  | EmptyString, EmptyString => true
  | String a w', String b v' => Re.lit_matches ic a b && lit_word ic w' v'
  | _, _ => false
  end.

(** A group that cannot be taken for a number: it is unset, empty, or
    starts with a character that is not a digit. *)
Definition no_digit_head (g : option string) : bool :=
  match g with
  | Some (String c _) => negb (PyStr.is_digit c)
  | _ => true
  end.

(** [s] has no upper-case letter, as every text has after [lower()]. *)
Fixpoint no_upper (s : string) : bool :=
  match s with
  | EmptyString => true
  | String c s' => negb (PyStr.is_upper c) && no_upper s'
  end.

(** [r] has no capturing group. *)
Fixpoint group_free (r : Re.regex) : bool :=
  match r with
  | Re.Seq r1 r2 | Re.Alt r1 r2 => group_free r1 && group_free r2
  | Re.Opt r1 => group_free r1
  | Re.Group _ _ => false
  | _ => true
  end.

(** [s] is made of digits only. *)
Fixpoint digits_only (s : string) : bool :=
  match s with
  | EmptyString => true
  | String c s' => PyStr.is_digit c && digits_only s'
  end.

(** [r] has a capturing group whose number is [S j]. *)
Fixpoint has_group (j : nat) (r : Re.regex) : bool :=
  match r with
  | Re.Seq r1 r2 | Re.Alt r1 r2 => has_group j r1 || has_group j r2
  | Re.Opt r1 => has_group j r1
  | Re.Group i r1 => Nat.eqb (Nat.pred i) j || has_group j r1
  | _ => false
  end.

(** [r] matches at every position, by matching nothing if need be. *)
Fixpoint never_fails (r : Re.regex) : bool :=
  match r with
  | Re.Empty | Re.Opt _ | Re.Rep _ O _ => true
  | Re.Seq r1 r2 => never_fails r1 && never_fails r2
  | Re.Group _ r1 => never_fails r1
  | _ => false
  end.

(** A size [x] with the unit [unit], in gigabytes: a value in MB is divided
    by 1024, a value in TB is multiplied by 1024, and a value in GB or
    without a unit is left as it is.  The unit is read without regard to
    case. *)
Definition gigabytes (unit : option string) (x : spec_float) : spec_float :=
  match unit with
  | None => x
  | Some u =>
      if String.eqb (PyStr.upper u) "MB" then PyFloat.div x (PyFloat.of_Z 1024)
      else if String.eqb (PyStr.upper u) "TB" then PyFloat.mul x (PyFloat.of_Z 1024)
      else x
  end.

(** What the normalizers compute, by scanning.

    - a size in gigabytes: the first number of the text, scaled by the unit
      GB, MB or TB that follows it, white space skipped;
    - a plain number (display size, battery life): the first number of the
      text, whatever follows it;
    - a weight in kilograms: the first number of the text, divided by 1000
      when the first character after it that is not white space is a g;
    - a count: the first run of digits of the text, as long as it has no
      more digits than [int] converts. *)
Definition ram_size_of (s : string) : option spec_float :=
  match first_number s with
  | Some (d, r) =>
      Some (gigabytes (unit_at ["GB"; "MB"; "TB"] (PyStr.lstrip r)) (decimal_float d))
  | None => None
  end.

Definition number_of (s : string) : option spec_float :=
  match first_number s with
  | Some (d, _) => Some (decimal_float d)
  | None => None
  end.

Definition weight_of (s : string) : option spec_float :=
  match first_number s with
  | Some (d, r) =>
      Some (if ci_starts_with "g" (PyStr.lstrip r)
            then PyFloat.div (decimal_float d) (PyFloat.of_Z 1000)
            else decimal_float d)
  | None => None
  end.

Definition count_of (s : string) : option Z :=
  match first_digits s with
  | Some (d, _) =>
      if Nat.ltb PyFloat.max_str_digits (String.length d) then None
      else Some (digits_value d)
  | None => None
  end.

(** * Properties *)

(** ** The classifiers: provenance and brand *)

(** Each branch body is a chain of field updates under tests on the text;
    [branch_cases] splits on every test. *)
Ltac branch_cases := intros; cbv zeta; repeat case_match; reflexivity.

Section GpuBranches.
Variables (text : string) (groups : Re.captures) (g : GPUInfo.t).

Lemma nvidia_gpu_brand : GPUInfo.brand (nvidia_gpu text groups g) = Some "NVIDIA".
Proof. unfold nvidia_gpu. branch_cases. Qed.

Lemma nvidia_gpu_source : GPUInfo.source (nvidia_gpu text groups g) = GPUInfo.source g.
Proof. unfold nvidia_gpu. branch_cases. Qed.

Lemma nvidia_gpu_confidence :
  GPUInfo.confidence (nvidia_gpu text groups g) = GPUInfo.confidence g.
Proof. unfold nvidia_gpu. branch_cases. Qed.

Lemma intel_gpu_brand : GPUInfo.brand (intel_gpu text g) = Some "Intel".
Proof. unfold intel_gpu. branch_cases. Qed.

Lemma intel_gpu_source : GPUInfo.source (intel_gpu text g) = GPUInfo.source g.
Proof. unfold intel_gpu. branch_cases. Qed.

Lemma intel_gpu_confidence : GPUInfo.confidence (intel_gpu text g) = GPUInfo.confidence g.
Proof. unfold intel_gpu. branch_cases. Qed.

Lemma amd_gpu_brand : GPUInfo.brand (amd_gpu text groups g) = Some "AMD".
Proof. unfold amd_gpu. branch_cases. Qed.

Lemma amd_gpu_source : GPUInfo.source (amd_gpu text groups g) = GPUInfo.source g.
Proof. unfold amd_gpu. branch_cases. Qed.

Lemma amd_gpu_confidence :
  GPUInfo.confidence (amd_gpu text groups g) = GPUInfo.confidence g.
Proof. unfold amd_gpu. branch_cases. Qed.
End GpuBranches.

Section CpuBranches.
Variables (text : string) (groups : Re.captures) (c : CPUInfo.t).

Lemma intel_cpu_brand : CPUInfo.brand (intel_cpu groups c) = Some "Intel".
Proof. unfold intel_cpu. branch_cases. Qed.

Lemma intel_cpu_source : CPUInfo.source (intel_cpu groups c) = CPUInfo.source c.
Proof. unfold intel_cpu. branch_cases. Qed.

Lemma intel_cpu_confidence : CPUInfo.confidence (intel_cpu groups c) = CPUInfo.confidence c.
Proof. unfold intel_cpu. branch_cases. Qed.

Lemma amd_cpu_brand : CPUInfo.brand (amd_cpu text groups c) = Some "AMD".
Proof. unfold amd_cpu. branch_cases. Qed.

Lemma amd_cpu_source : CPUInfo.source (amd_cpu text groups c) = CPUInfo.source c.
Proof. unfold amd_cpu. branch_cases. Qed.

Lemma amd_cpu_confidence :
  CPUInfo.confidence (amd_cpu text groups c) = CPUInfo.confidence c.
Proof. unfold amd_cpu. branch_cases. Qed.
End CpuBranches.

Create Rewrite HintDb branches.
#[local] Hint Rewrite
  nvidia_gpu_brand nvidia_gpu_source nvidia_gpu_confidence
  intel_gpu_brand intel_gpu_source intel_gpu_confidence
  amd_gpu_brand amd_gpu_source amd_gpu_confidence
  intel_cpu_brand intel_cpu_source intel_cpu_confidence
  amd_cpu_brand amd_cpu_source amd_cpu_confidence : branches.

(** A text that Python takes as false gives the default record. *)
Lemma parse_gpu_falsy (text : option string) (b : bool) :
  PyStr.truthy text = false -> parse_gpu_from_text text b = GPUInfo.default.
Proof. intros H. unfold parse_gpu_from_text. by rewrite H. Qed.

Lemma parse_cpu_falsy (text : option string) (b : bool) :
  PyStr.truthy text = false -> parse_cpu_from_text text b = CPUInfo.default.
Proof. intros H. unfold parse_cpu_from_text. by rewrite H. Qed.

(** The provenance fields of a result: both absent for a false text, both
    set from the flag otherwise. *)
Lemma parse_gpu_provenance (text : option string) (b : bool) :
  let g := parse_gpu_from_text text b in
  GPUInfo.source g = (if PyStr.truthy text then Some (source_tag b) else None) /\
  GPUInfo.confidence g = (if PyStr.truthy text then Some (confidence_tag b) else None).
Proof.
  unfold parse_gpu_from_text.
  destruct (PyStr.truthy text); cbn [negb]; cbv zeta; [|done].
  repeat case_match; autorewrite with branches; done.
Qed.

Lemma parse_cpu_provenance (text : option string) (b : bool) :
  let c := parse_cpu_from_text text b in
  CPUInfo.source c = (if PyStr.truthy text then Some (source_tag b) else None) /\
  CPUInfo.confidence c = (if PyStr.truthy text then Some (confidence_tag b) else None).
Proof.
  unfold parse_cpu_from_text.
  destruct (PyStr.truthy text); cbn [negb]; cbv zeta; [|done].
  repeat case_match; autorewrite with branches; done.
Qed.

(** The brand of a result is absent or one of the three labels; when it is
    absent no identity field was written. *)
Lemma parse_gpu_brand_cases (text : option string) (b : bool) :
  let g := parse_gpu_from_text text b in
  (GPUInfo.brand g = None /\ GPUInfo.series g = None /\
   GPUInfo.model g = None /\ GPUInfo.variant g = None) \/
  GPUInfo.brand g = Some "NVIDIA" \/
  GPUInfo.brand g = Some "Intel" \/
  GPUInfo.brand g = Some "AMD".
Proof.
  unfold parse_gpu_from_text.
  destruct (PyStr.truthy text); cbn [negb]; cbv zeta; [|by left].
  repeat case_match; autorewrite with branches; auto 10.
Qed.

Lemma parse_cpu_brand_cases (text : option string) (b : bool) :
  let c := parse_cpu_from_text text b in
  (CPUInfo.brand c = None /\ CPUInfo.series c = None /\ CPUInfo.generation c = None /\
   CPUInfo.model c = None /\ CPUInfo.variant c = None) \/
  CPUInfo.brand c = Some "Intel" \/
  CPUInfo.brand c = Some "AMD".
Proof.
  unfold parse_cpu_from_text.
  destruct (PyStr.truthy text); cbn [negb]; cbv zeta; [|by left].
  repeat case_match; autorewrite with branches; auto 10.
Qed.

(** So Python's truth test on a brand is the test for presence. *)
Lemma gpu_brand_truthy (text : option string) (b : bool) :
  PyStr.truthy (GPUInfo.brand (parse_gpu_from_text text b)) =
  bool_decide (is_Some (GPUInfo.brand (parse_gpu_from_text text b))).
Proof.
  destruct (parse_gpu_brand_cases text b) as [(-> & _)|[->|[->| ->]]]; done.
Qed.

Lemma cpu_brand_truthy (text : option string) (b : bool) :
  PyStr.truthy (CPUInfo.brand (parse_cpu_from_text text b)) =
  bool_decide (is_Some (CPUInfo.brand (parse_cpu_from_text text b))).
Proof.
  destruct (parse_cpu_brand_cases text b) as [(-> & _)|[->| ->]]; done.
Qed.

(** ** The normalizers return *)

Lemma try_except_returns {A : Type} (body : outcome A) (v : A) :
  exists r, try_except body (fun _ => Returned v) = Returned r.
Proof. destruct body; simpl; eauto. Qed.

Lemma normalize_ram_size_returns (x : option string) :
  exists v, normalize_ram_size x = Returned v.
Proof.
  unfold normalize_ram_size. destruct (negb (PyStr.truthy x)); [eauto|].
  apply try_except_returns.
Qed.

Lemma normalize_display_size_returns (x : option string) :
  exists v, normalize_display_size x = Returned v.
Proof.
  unfold normalize_display_size. destruct (negb (PyStr.truthy x)); [eauto|].
  apply try_except_returns.
Qed.

Lemma normalize_battery_life_returns (x : option string) :
  exists v, normalize_battery_life x = Returned v.
Proof.
  unfold normalize_battery_life. destruct (negb (PyStr.truthy x)); [eauto|].
  apply try_except_returns.
Qed.

Lemma normalize_weight_returns (x : option string) :
  exists v, normalize_weight x = Returned v.
Proof.
  unfold normalize_weight. destruct (negb (PyStr.truthy x)); [eauto|].
  apply try_except_returns.
Qed.

Lemma normalize_port_count_returns (x : option string) :
  exists v, normalize_port_count x = Returned v.
Proof.
  unfold normalize_port_count. destruct (negb (PyStr.truthy x)); [eauto|].
  apply try_except_returns.
Qed.

(** ** The assembler *)

Section Assembler.
Variables (stats : ProcessingStats) (tech_details : gmap string string)
          (title : option string).

Local Abbreviation tech_gpu := (tech_gpu_of tech_details).
Local Abbreviation title_gpu := (title_gpu_of title).
Local Abbreviation tech_cpu := (tech_cpu_of tech_details).
Local Abbreviation title_cpu := (title_cpu_of title).
Local Abbreviation gpu_conflict := (gpu_conflict_of tech_details title).
Local Abbreviation cpu_conflict := (cpu_conflict_of tech_details title).

(** On classifier results the test made by the code is the brand
    conflict. *)
Lemma gpu_brands_differ :
  brands_differ (GPUInfo.brand tech_gpu) (GPUInfo.brand title_gpu) = gpu_conflict.
Proof.
  unfold brands_differ, gpu_conflict_of, tech_gpu_of, title_gpu_of.
  rewrite !gpu_brand_truthy.
  destruct (GPUInfo.brand (parse_gpu_from_text (Some _) true)),
           (GPUInfo.brand (parse_gpu_from_text title false)); done.
Qed.

Lemma cpu_brands_differ :
  brands_differ (CPUInfo.brand tech_cpu) (CPUInfo.brand title_cpu) = cpu_conflict.
Proof.
  unfold brands_differ, cpu_conflict_of, tech_cpu_of, title_cpu_of.
  rewrite !cpu_brand_truthy.
  destruct (CPUInfo.brand (parse_cpu_from_text (Some _) true)),
           (CPUInfo.brand (parse_cpu_from_text title false)); done.
Qed.

(** What [standardize_specs] returns, as far as the components, the
    conflicts and the counters go. *)
Lemma standardize_specs_result :
  exists specs stats',
    standardize_specs stats tech_details title = Returned (specs, stats') /\
    PyDict.lookup "graphics" specs =
      Some (VDict (asdict_gpu
        (if PyStr.truthy (GPUInfo.brand tech_gpu) then tech_gpu else title_gpu))) /\
    PyDict.lookup "processor" specs =
      Some (VDict (asdict_cpu
        (if PyStr.truthy (CPUInfo.brand tech_cpu) then tech_cpu else title_cpu))) /\
    PyDict.lookup "specification_conflicts" specs =
      (if gpu_conflict || cpu_conflict then
         Some (VList
           (app
             (if gpu_conflict
              then [conflict "GPU" (GPUInfo.brand tech_gpu) (GPUInfo.brand title_gpu)]
              else [])
             (if cpu_conflict
              then [conflict "CPU" (CPUInfo.brand tech_cpu) (CPUInfo.brand title_cpu)]
              else [])))
       else None) /\
    stats' =
      (if cpu_conflict then count_cpu_conflict else id)
        ((if gpu_conflict then count_gpu_conflict else id) stats).
Proof.
  unfold standardize_specs.
  fold (tech_gpu_of tech_details) (title_gpu_of title)
       (tech_cpu_of tech_details) (title_cpu_of title).
  rewrite gpu_brands_differ, cpu_brands_differ.
  destruct (normalize_ram_size_returns (tech_details !! "RAM Size")) as [v1 ->].
  destruct (normalize_display_size_returns
              (tech_details !! "Standing screen display size")) as [v2 ->].
  destruct (normalize_battery_life_returns
              (tech_details !! "Average Battery Life (in hours)")) as [v3 ->].
  destruct (normalize_weight_returns (tech_details !! "Item Weight")) as [v4 ->].
  destruct (normalize_port_count_returns
              (tech_details !! "Number of USB 2.0 Ports")) as [v5 ->].
  destruct (normalize_port_count_returns
              (tech_details !! "Number of USB 3.0 Ports")) as [v6 ->].
  destruct gpu_conflict, cpu_conflict;
    eexists _, _; (split; [reflexivity|]); repeat split; reflexivity.
Qed.
End Assembler.

(** [asdict] loses nothing: the dict determines the record. *)
Lemma of_opt_str_inj (a b : option string) : of_opt_str a = of_opt_str b -> a = b.
Proof. destruct a, b; simpl; congruence. Qed.

Lemma asdict_gpu_inj (g g' : GPUInfo.t) : asdict_gpu g = asdict_gpu g' -> g = g'.
Proof.
  destruct g, g'; unfold asdict_gpu; simpl; intros H.
  injection H as H1 H2 H3 H4 H5 H6.
  apply of_opt_str_inj in H1, H2, H3, H4, H5, H6. congruence.
Qed.

Lemma asdict_cpu_inj (c c' : CPUInfo.t) : asdict_cpu c = asdict_cpu c' -> c = c'.
Proof.
  destruct c, c'; unfold asdict_cpu; simpl; intros H.
  injection H as H1 H2 H3 H4 H5 H6 H7.
  apply of_opt_str_inj in H1, H2, H3, H4, H5, H6, H7. congruence.
Qed.

(** [brand_conflict] says what its name says. *)
Lemma brand_conflict_spec (a b : option string) :
  brand_conflict a b = true <-> exists x y, a = Some x /\ b = Some y /\ x <> y.
Proof.
  destruct a as [x|], b as [y|]; simpl; split;
    try discriminate; try (intros (? & ? & ? & ? & ?); discriminate).
  - intros H. exists x, y. repeat split.
    intros ->. by rewrite String.eqb_refl in H.
  - intros (x' & y' & [= <-] & [= <-] & Hne).
    destruct (String.eqb_spec x y); [contradiction|done].
Qed.

(** Records with the same brand are never in conflict, whatever their other
    fields hold. *)
Lemma brand_conflict_same (a : option string) : brand_conflict a a = false.
Proof. destruct a; simpl; [by rewrite String.eqb_refl|done]. Qed.

(** C1. For every title and technical-detail map, [standardize_specs]
    returns a specification whose [processor] (resp. [graphics]) entry is
    the whole record classified from the technical details when that record
    has a brand, and the whole record classified from the title otherwise:
    the six (seven) fields of the winning record, none taken from the
    other. *)
Theorem final_component_is_winning_record
        (stats : ProcessingStats) (tech_details : gmap string string) (title : option string) :
  exists specs stats',
    standardize_specs stats tech_details title = Returned (specs, stats') /\
    PyDict.lookup "processor" specs =
      Some (VDict (asdict_cpu
        match CPUInfo.brand (tech_cpu_of tech_details) with
        | Some _ => tech_cpu_of tech_details
        | None => title_cpu_of title
        end)) /\
    PyDict.lookup "graphics" specs =
      Some (VDict (asdict_gpu
        match GPUInfo.brand (tech_gpu_of tech_details) with
        | Some _ => tech_gpu_of tech_details
        | None => title_gpu_of title
        end)).
Proof.
  destruct (standardize_specs_result stats tech_details title)
    as (specs & stats' & Hret & Hg & Hc & _).
  exists specs, stats'. split; [exact Hret|].
  rewrite Hg, Hc. unfold tech_gpu_of, tech_cpu_of.
  rewrite gpu_brand_truthy, cpu_brand_truthy.
  split.
  - by destruct (CPUInfo.brand _).
  - by destruct (GPUInfo.brand _).
Qed.

(** C2. For each component, [standardize_specs] appends one conflict record
    - a dict with the keys [component], [field], [tech_value], [title_value]
    and [resolution], holding the component, the text brand, the two brands
    and the resolution text - and adds exactly 1 to the component's counter
    when both classifications have a brand and the brands differ as
    strings, and appends nothing and leaves the counter alone otherwise; the
    condition reads the two brands only, so the other fields cannot cause a
    conflict; and when the technical-detail brand is absent there is no
    conflict record of the component and the title's record is final. *)
Theorem conflict_recorded_iff_brands_differ
        (stats : ProcessingStats) (tech_details : gmap string string) (title : option string) :
  exists specs stats',
    standardize_specs stats tech_details title = Returned (specs, stats') /\
    conflicts_of specs =
      app
        (if brand_conflict (GPUInfo.brand (tech_gpu_of tech_details))
                           (GPUInfo.brand (title_gpu_of title))
         then [conflict "GPU" (GPUInfo.brand (tech_gpu_of tech_details))
                        (GPUInfo.brand (title_gpu_of title))]
         else [])
        (if brand_conflict (CPUInfo.brand (tech_cpu_of tech_details))
                           (CPUInfo.brand (title_cpu_of title))
         then [conflict "CPU" (CPUInfo.brand (tech_cpu_of tech_details))
                        (CPUInfo.brand (title_cpu_of title))]
         else []) /\
    (exists gpu_part cpu_part,
       conflicts_of specs = app gpu_part cpu_part /\
       conflict_part "GPU" (GPUInfo.brand (tech_gpu_of tech_details))
                     (GPUInfo.brand (title_gpu_of title)) gpu_part /\
       conflict_part "CPU" (CPUInfo.brand (tech_cpu_of tech_details))
                     (CPUInfo.brand (title_cpu_of title)) cpu_part) /\
    gpu_conflicts stats' =
      (gpu_conflicts stats +
       if brand_conflict (GPUInfo.brand (tech_gpu_of tech_details))
                         (GPUInfo.brand (title_gpu_of title)) then 1 else 0)%Z /\
    cpu_conflicts stats' =
      (cpu_conflicts stats +
       if brand_conflict (CPUInfo.brand (tech_cpu_of tech_details))
                         (CPUInfo.brand (title_cpu_of title)) then 1 else 0)%Z /\
    (GPUInfo.brand (tech_gpu_of tech_details) = None ->
       ~ In (conflict "GPU" (GPUInfo.brand (tech_gpu_of tech_details))
                      (GPUInfo.brand (title_gpu_of title))) (conflicts_of specs) /\
       (forall r, In r (conflicts_of specs) -> field "component" r <> Some (VStr "GPU")) /\
       gpu_conflicts stats' = gpu_conflicts stats /\
       PyDict.lookup "graphics" specs = Some (VDict (asdict_gpu (title_gpu_of title)))) /\
    (CPUInfo.brand (tech_cpu_of tech_details) = None ->
       ~ In (conflict "CPU" (CPUInfo.brand (tech_cpu_of tech_details))
                      (CPUInfo.brand (title_cpu_of title))) (conflicts_of specs) /\
       (forall r, In r (conflicts_of specs) -> field "component" r <> Some (VStr "CPU")) /\
       cpu_conflicts stats' = cpu_conflicts stats /\
       PyDict.lookup "processor" specs = Some (VDict (asdict_cpu (title_cpu_of title)))).
Proof.
  destruct (standardize_specs_result stats tech_details title)
    as (specs & stats' & Hret & Hg & Hc & Hk & ->).
  exists specs.
  eexists. split; [exact Hret|].
  assert (Hlist : conflicts_of specs =
            app
              (if brand_conflict (GPUInfo.brand (tech_gpu_of tech_details))
                                 (GPUInfo.brand (title_gpu_of title))
               then [conflict "GPU" (GPUInfo.brand (tech_gpu_of tech_details))
                              (GPUInfo.brand (title_gpu_of title))]
               else [])
              (if brand_conflict (CPUInfo.brand (tech_cpu_of tech_details))
                                 (CPUInfo.brand (title_cpu_of title))
               then [conflict "CPU" (CPUInfo.brand (tech_cpu_of tech_details))
                              (CPUInfo.brand (title_cpu_of title))]
               else [])).
  { unfold conflicts_of. rewrite Hk. unfold gpu_conflict_of, cpu_conflict_of.
    destruct (brand_conflict (GPUInfo.brand _) _), (brand_conflict (CPUInfo.brand _) _);
      done. }
  assert (Hpart : forall component a b,
            conflict_part component a b
              (if brand_conflict a b then [conflict component a b] else [])).
  { intros component [a|] [b|]; simpl; try done.
    destruct (String.eqb a b); simpl; [done|].
    eexists. split; [reflexivity|]. repeat split. }
  split; [exact Hlist|].
  split; [eexists _, _; split; [exact Hlist|split; apply Hpart]|].
  rewrite Hlist, Hg, Hc. clear Hlist Hpart.
  unfold gpu_conflict_of, cpu_conflict_of.
  repeat split.
  - destruct (brand_conflict (GPUInfo.brand _) _), (brand_conflict (CPUInfo.brand _) _);
      simpl; unfold id; simpl; lia.
  - destruct (brand_conflict (GPUInfo.brand _) _), (brand_conflict (CPUInfo.brand _) _);
      simpl; unfold id; simpl; lia.
  - rewrite H. simpl. destruct (brand_conflict (CPUInfo.brand _) _); simpl; [|tauto].
    intros [[=]|[]].
  - rewrite H. simpl. destruct (brand_conflict (CPUInfo.brand _) _); simpl; [|tauto].
    intros r [<-|[]]. discriminate.
  - rewrite H. simpl. destruct (brand_conflict (CPUInfo.brand _) _); simpl; unfold id; lia.
  - by rewrite H.
  - rewrite H. simpl.
    destruct (brand_conflict (GPUInfo.brand _) _); simpl; [|tauto].
    intros [[=]|[]].
  - rewrite H. simpl.
    destruct (brand_conflict (GPUInfo.brand _) _); simpl; [|tauto].
    intros r [<-|[]]. discriminate.
  - rewrite H. simpl. destruct (brand_conflict (GPUInfo.brand _) _); simpl; unfold id; lia.
  - by rewrite H.
Qed.

(** C2 at a document whose technical details name NVIDIA graphics and whose
    title names Intel graphics and no processor: one conflict record, for
    the GPU, with the two brands; the GPU counter grows by one; for the CPU,
    whose technical-detail brand is absent, nothing is counted and the
    title's record is final. *)
Lemma conflict_recorded_iff_brands_differ_witness :
  exists specs stats',
    standardize_specs fresh_stats
      {[ "Graphics Card Description" := "NVIDIA GeForce RTX 3050" ]}
      (Some "HP Pavilion Intel Iris Xe Graphics") = Returned (specs, stats') /\
    (exists r, conflicts_of specs = [r] /\ conflict_record "GPU" "NVIDIA" "Intel" r) /\
    gpu_conflicts stats' = 1%Z /\ cpu_conflicts stats' = 0%Z /\
    PyDict.lookup "processor" specs =
      Some (VDict (asdict_cpu (title_cpu_of (Some "HP Pavilion Intel Iris Xe Graphics")))).
Proof.
  destruct (conflict_recorded_iff_brands_differ
              fresh_stats {[ "Graphics Card Description" := "NVIDIA GeForce RTX 3050" ]}
              (Some "HP Pavilion Intel Iris Xe Graphics"))
    as (specs & stats' & Hret & _ & (gpu_part & cpu_part & Happ & Hgpu & Hcpu) &
        Hg & _ & _ & Hnone).
  exists specs, stats'. split; [exact Hret|].
  destruct (Hnone ltac:(vm_compute; reflexivity)) as (_ & _ & Hc & Hfinal).
  assert (Htech : GPUInfo.brand
                    (tech_gpu_of {[ "Graphics Card Description" := "NVIDIA GeForce RTX 3050" ]})
                  = Some "NVIDIA") by (vm_compute; reflexivity).
  assert (Htitle : GPUInfo.brand (title_gpu_of (Some "HP Pavilion Intel Iris Xe Graphics"))
                   = Some "Intel") by (vm_compute; reflexivity).
  assert (Hctech : CPUInfo.brand
                     (tech_cpu_of {[ "Graphics Card Description" := "NVIDIA GeForce RTX 3050" ]})
                   = None) by (vm_compute; reflexivity).
  rewrite Htech, Htitle in Hgpu, Hg. rewrite Hctech in Hcpu.
  simpl in Hgpu, Hcpu, Hg. destruct Hgpu as (r & -> & Hr). subst cpu_part.
  split; [exists r; split; [exact Happ|exact Hr]|].
  split; [exact Hg|]. split; [exact Hc|exact Hfinal].
Defined.

(** C9. The assembled specification has the key [specification_conflicts]
    exactly when a brand conflict was found for the GPU or for the CPU; the
    value under the key is then a list with at least one element, and
    without a conflict the key is missing (not bound to an empty list). *)
Theorem conflicts_key_iff_conflict
        (stats : ProcessingStats) (tech_details : gmap string string) (title : option string) :
  exists specs stats',
    standardize_specs stats tech_details title = Returned (specs, stats') /\
    (PyDict.has_key "specification_conflicts" specs = true <->
     gpu_conflict_of tech_details title = true \/ cpu_conflict_of tech_details title = true) /\
    (PyDict.lookup "specification_conflicts" specs = None \/
     exists c rest, PyDict.lookup "specification_conflicts" specs = Some (VList (c :: rest))).
Proof.
  destruct (standardize_specs_result stats tech_details title)
    as (specs & stats' & Hret & _ & _ & Hk & _).
  exists specs, stats'. split; [exact Hret|].
  unfold PyDict.has_key. rewrite Hk.
  destruct (gpu_conflict_of tech_details title), (cpu_conflict_of tech_details title);
    cbn [orb app]; (split; [split|]).
  all: try (right; eexists _, _; reflexivity).
  all: try (left; reflexivity).
  all: try (intros _; reflexivity).
  all: try (intros _; left; reflexivity).
  all: try (intros _; right; reflexivity).
  - intros H. vm_compute in H. discriminate H.
  - intros [H|H]; discriminate H.
Qed.

(** C9 at a document whose technical details name an AMD GPU and whose title
    names Intel graphics: the key is there. *)
Lemma conflicts_key_iff_conflict_witness :
  exists specs stats',
    standardize_specs fresh_stats
      {[ "Graphics Card Description" := "AMD Radeon RX 6600" ]}
      (Some "Intel Iris Xe Graphics") = Returned (specs, stats') /\
    PyDict.has_key "specification_conflicts" specs = true.
Proof.
  destruct (conflicts_key_iff_conflict fresh_stats
              {[ "Graphics Card Description" := "AMD Radeon RX 6600" ]}
              (Some "Intel Iris Xe Graphics"))
    as (specs & stats' & Hret & Hiff & _).
  exists specs, stats'. split; [exact Hret|].
  apply Hiff. left. vm_compute. reflexivity.
Defined.

(** ** The classifiers: the claims *)

(** C4 as stated does not hold: on the empty text with the technical-detail
    flag, the source and confidence of the GPU record are not the pair
    [technical_detail]/[high]; both are absent. *)
Lemma empty_text_record_is_untagged :
  ~ (GPUInfo.source (parse_gpu_from_text (Some "") true) = Some "technical_detail" /\
     GPUInfo.confidence (parse_gpu_from_text (Some "") true) = Some "high").
Proof. intros [H _]. vm_compute in H. discriminate H. Qed.

(** C4, amended. For an absent text and for the empty text, and for either
    value of the flag, both classifiers return the record whose fields are
    all absent: the identity fields, and the source and the confidence as
    well. *)
Theorem empty_text_gives_default_record (is_technical_detail : bool) :
  parse_gpu_from_text None is_technical_detail =
    GPUInfo.Make None None None None None None /\
  parse_gpu_from_text (Some "") is_technical_detail =
    GPUInfo.Make None None None None None None /\
  parse_cpu_from_text None is_technical_detail =
    CPUInfo.Make None None None None None None None /\
  parse_cpu_from_text (Some "") is_technical_detail =
    CPUInfo.Make None None None None None None None.
Proof. repeat split. Qed.

(** C7. For every text and flag, the record returned by either classifier
    has confidence [high] if and only if it has source [technical_detail]. *)
Theorem confidence_high_iff_technical_detail (text : option string) (is_technical_detail : bool) :
  (GPUInfo.confidence (parse_gpu_from_text text is_technical_detail) = Some "high" <->
   GPUInfo.source (parse_gpu_from_text text is_technical_detail) = Some "technical_detail") /\
  (CPUInfo.confidence (parse_cpu_from_text text is_technical_detail) = Some "high" <->
   CPUInfo.source (parse_cpu_from_text text is_technical_detail) = Some "technical_detail").
Proof.
  destruct (parse_gpu_provenance text is_technical_detail) as [-> ->].
  destruct (parse_cpu_provenance text is_technical_detail) as [-> ->].
  destruct (PyStr.truthy text), is_technical_detail; simpl; split; split; congruence.
Qed.

(** C7 at a technical-detail text: from the source, the confidence. *)
Lemma confidence_high_iff_technical_detail_witness :
  GPUInfo.confidence (parse_gpu_from_text (Some "NVIDIA GeForce RTX 4070") true) = Some "high".
Proof.
  apply (proj1 (confidence_high_iff_technical_detail (Some "NVIDIA GeForce RTX 4070") true)).
  vm_compute. reflexivity.
Defined.

(** C10. For every text and flag, a record returned by a classifier with an
    absent brand has an absent series, model and variant (and generation,
    for the CPU). *)
Theorem absent_brand_absent_identity (text : option string) (is_technical_detail : bool) :
  (GPUInfo.brand (parse_gpu_from_text text is_technical_detail) = None ->
   GPUInfo.series (parse_gpu_from_text text is_technical_detail) = None /\
   GPUInfo.model (parse_gpu_from_text text is_technical_detail) = None /\
   GPUInfo.variant (parse_gpu_from_text text is_technical_detail) = None) /\
  (CPUInfo.brand (parse_cpu_from_text text is_technical_detail) = None ->
   CPUInfo.series (parse_cpu_from_text text is_technical_detail) = None /\
   CPUInfo.generation (parse_cpu_from_text text is_technical_detail) = None /\
   CPUInfo.model (parse_cpu_from_text text is_technical_detail) = None /\
   CPUInfo.variant (parse_cpu_from_text text is_technical_detail) = None).
Proof.
  split; intros Hbrand.
  - destruct (parse_gpu_brand_cases text is_technical_detail) as [(_ & H)|[H|[H|H]]];
      [exact H | congruence ..].
  - destruct (parse_cpu_brand_cases text is_technical_detail) as [(_ & H)|[H|H]];
      [exact H | congruence ..].
Qed.

(** C10 at a title that names no GPU and no CPU. *)
Lemma absent_brand_absent_identity_witness :
  GPUInfo.series (parse_gpu_from_text (Some "Dell Inspiron 15 Laptop, Silver") false) = None /\
  CPUInfo.generation (parse_cpu_from_text (Some "Dell Inspiron 15 Laptop, Silver") false) = None.
Proof.
  destruct (absent_brand_absent_identity (Some "Dell Inspiron 15 Laptop, Silver") false)
    as [Hgpu Hcpu].
  split.
  - apply Hgpu. vm_compute. reflexivity.
  - apply Hcpu. vm_compute. reflexivity.
Defined.

(** The order of the brands in [parse_gpu_from_text]: a match of an NVIDIA
    pattern decides; failing that, a match of an Intel pattern; failing
    that, a match of an AMD pattern. *)
Lemma gpu_brand_order (text : string) (is_technical_detail : bool) :
  text <> "" ->
  let t := PyStr.strip (PyStr.lower text) in
  GPUInfo.brand (parse_gpu_from_text (Some text) is_technical_detail) =
    if bool_decide (is_Some (first_match nvidia_patterns t)) then Some "NVIDIA"
    else if bool_decide (is_Some (first_match intel_gpu_patterns t)) then Some "Intel"
    else if bool_decide (is_Some (first_match amd_gpu_patterns t)) then Some "AMD"
    else None.
Proof.
  intros Hne. unfold parse_gpu_from_text.
  destruct text as [|c text]; [done|]. cbn [PyStr.truthy negb PyStr.str]. cbv zeta.
  destruct (first_match nvidia_patterns _); [by rewrite nvidia_gpu_brand|].
  destruct (first_match intel_gpu_patterns _); [by rewrite intel_gpu_brand|].
  destruct (first_match amd_gpu_patterns _); [by rewrite amd_gpu_brand|done].
Qed.

(** C3, evaluated. On the text "RTX 3060 RX 6600" the second NVIDIA pattern
    matches with groups rtx, -, 30, 60, -, so the brand is NVIDIA and the AMD
    patterns are not tried; the two-digit token is looked for among all
    groups, and the first group made of two digits is the series number 30
    itself: the model is "3030", not "3060". *)
Theorem gpu_rtx_3060_rx_6600 :
  first_match nvidia_patterns "rtx 3060 rx 6600" =
    Some [Some "rtx"; None; Some "30"; Some "60"; None] /\
  parse_gpu_from_text (Some "RTX 3060 RX 6600") false =
    GPUInfo.Make (Some "NVIDIA") (Some "RTX") (Some "3030") None (Some "title") (Some "low") /\
  GPUInfo.model (parse_gpu_from_text (Some "RTX 3060 RX 6600") false) <> Some "3060".
Proof. repeat split. vm_compute. discriminate. Qed.

(** C5, evaluated. On the text "Intel Core i7-12700H" the first Intel
    pattern matches with groups intel, core, i7, 12, 700, -: the letter after
    the digits is taken by the class [[HKF]?], so the variant group is
    empty.  The series is "I7" and the generation "12th Gen", but the variant
    is absent, not "H". *)
Theorem cpu_intel_core_i7_12700h :
  first_match intel_cpu_patterns "intel core i7-12700h" =
    Some [Some "intel"; Some "core"; Some "i7"; Some "12"; Some "700"; None] /\
  parse_cpu_from_text (Some "Intel Core i7-12700H") false =
    CPUInfo.Make (Some "Intel") (Some "I7") (Some "12th Gen") (Some "700") None
                 (Some "title") (Some "low") /\
  CPUInfo.variant (parse_cpu_from_text (Some "Intel Core i7-12700H") false) <> Some "H".
Proof. repeat split. vm_compute. discriminate. Qed.

(** ** The matcher finds matches only *)

Lemma length_append (p s : string) :
  String.length (p +:+ s) = String.length p + String.length s.
Proof. induction p as [|c p IH]; simpl; [done|by rewrite IH]. Qed.

Lemma take_length_append (p s : string) : PyStr.take (String.length p) (p +:+ s) = p.
Proof. induction p as [|c p IH]; simpl; [by destruct s|by rewrite IH]. Qed.

Lemma take_consumed (p s : string) :
  PyStr.take (String.length (p +:+ s) - String.length s) (p +:+ s) = p.
Proof.
  rewrite length_append.
  replace (String.length p + String.length s - String.length s) with (String.length p) by lia.
  apply take_length_append.
Qed.

Section MatcherSound.
Import Re ReSpec.
Variable ic : bool.
Context {A : Type}.

Lemma rep_sound (cl : cclass) (s : string) :
  forall (lo : nat) (hi : option nat) (k : string -> option A) (a : A),
    rep ic cl lo hi s k = Some a ->
    exists p s', s = p +:+ s' /\ all_in ic cl p = true /\
                 lo <= String.length p /\ within (String.length p) hi /\
                 k s' = Some a.
Proof.
  assert (Hstop : forall (s0 : string) lo (hi : option nat) (k : string -> option A) a,
             match lo with O => k s0 | S _ => None end = Some a ->
             exists p s', s0 = p +:+ s' /\ all_in ic cl p = true /\
                          lo <= String.length p /\ within (String.length p) hi /\
                          k s' = Some a).
  { intros s0 lo hi k a H. destruct lo; [|discriminate].
    exists EmptyString, s0. repeat split; try done.
    destruct hi; simpl; lia. }
  induction s as [|c s IH]; intros lo hi k a H; simpl in H.
  - by apply Hstop.
  - destruct (class_matches ic cl c && negb (bool_decide (hi = Some 0))) eqn:Hc;
      [|by apply Hstop].
    apply andb_prop in Hc as [Hc Hhi].
    destruct (rep ic cl (Nat.pred lo) (Nat.pred <$> hi) s k) as [a'|] eqn:Hrec;
      [|by apply Hstop].
    injection H as <-.
    apply IH in Hrec as (p & s' & -> & Hall & Hlo & Hwithin & Hk).
    exists (String c p), s'. simpl. rewrite Hc, Hall.
    repeat split; try done; [lia|].
    destruct hi as [h|]; simpl in *; [|done].
    destruct h; [|lia].
    apply negb_true_iff, bool_decide_eq_false in Hhi. done.
Qed.

Lemma m_sound (r : regex) :
  forall (s : string) (caps : captures) (k : string -> captures -> option A) (a : A),
    m ic r s caps k = Some a ->
    exists s' caps', matches ic r s caps s' caps' /\ k s' caps' = Some a.
Proof.
  induction r as [|l|cl|r1 IH1 r2 IH2|r1 IH1 r2 IH2|r IH|cl lo hi|i r IH|];
    intros s caps k a H; simpl in H.
  - exists s, caps. split; [constructor|done].
  - destruct s as [|c s]; [discriminate|].
    destruct (lit_matches ic l c) eqn:Hl; [|discriminate].
    exists s, caps. split; [by constructor|done].
  - destruct s as [|c s]; [discriminate|].
    destruct (class_matches ic cl c) eqn:Hc; [|discriminate].
    exists s, caps. split; [by constructor|done].
  - apply IH1 in H as (s1 & caps1 & M1 & H).
    apply IH2 in H as (s2 & caps2 & M2 & H).
    exists s2, caps2. split; [by econstructor|done].
  - destruct (m ic r1 s caps k) as [a'|] eqn:H1.
    + injection H as <-. apply IH1 in H1 as (s' & caps' & M & H).
      exists s', caps'. split; [by apply M_Alt_l|done].
    + apply IH2 in H as (s' & caps' & M & H).
      exists s', caps'. split; [by apply M_Alt_r|done].
  - destruct (m ic r s caps k) as [a'|] eqn:H1.
    + injection H as <-. apply IH in H1 as (s' & caps' & M & H).
      exists s', caps'. split; [by apply M_Opt_some|done].
    + exists s, caps. split; [apply M_Opt_none|done].
  - apply rep_sound in H as (p & s' & -> & Hall & Hlo & Hhi & H).
    exists s', caps. split; [by constructor|done].
  - apply IH in H as (s' & caps' & M & H).
    eexists _, _. split; [apply M_Group, M|done].
  - destruct s as [|c [|c' s]]; [| |discriminate].
    + exists EmptyString, caps. split; [constructor|done].
    + destruct (Ascii.eqb_spec c "010"); [subst c|discriminate].
      eexists _, _. split; [apply M_Eos_newline|done].
Qed.
End MatcherSound.

(** A match found by [search] starts at some position of the text. *)
Lemma search_sound (ic : bool) (p : Re.pattern) (s : string) (groups : Re.captures) :
  Re.search ic p s = Some groups ->
  exists before rest rest',
    s = before +:+ rest /\
    ReSpec.matches ic (Re.body p) rest (Re.no_groups (Re.ngroups p)) rest' groups.
Proof.
  induction s as [|c s IH]; simpl; unfold Re.match_.
  - destruct (Re.m _ _ _ _ _) as [g|] eqn:H; [|discriminate].
    intros [= <-]. apply m_sound in H as (s' & caps' & M & [= <-]).
    by exists EmptyString, EmptyString, s'.
  - destruct (Re.m _ _ _ _ _) as [g|] eqn:H.
    + intros [= <-]. apply m_sound in H as (s' & caps' & M & [= <-]).
      by exists EmptyString, (String c s), s'.
    + intros H'. apply IH in H' as (before & rest & rest' & -> & M).
      by exists (String c before), rest, rest'.
Qed.

(** Groups that a regex does not contain are left as they were. *)
Lemma nth_set_group_ne (i j : nat) (v : string) (caps : Re.captures) :
  i <> j -> nth j (Re.set_group i v caps) None = nth j caps None.
Proof.
  revert i j. induction caps as [|x caps IH]; intros i j Hne; [by destruct i|].
  destruct i, j; simpl; try done. apply IH. lia.
Qed.

Lemma matches_keeps_group (ic : bool) (j : nat) r s caps s' caps' :
  ReSpec.matches ic r s caps s' caps' ->
  has_group j r = false ->
  nth j caps' None = nth j caps None.
Proof.
  induction 1; simpl; intros Hj; try done.
  - apply orb_false_elim in Hj as [H1 H2]. rewrite IHmatches2, IHmatches1; done.
  - apply orb_false_elim in Hj as [H1 H2]. auto.
  - apply orb_false_elim in Hj as [H1 H2]. auto.
  - auto.
  - apply orb_false_elim in Hj as [H1 H2].
    rewrite nth_set_group_ne; [auto|].
    by apply Nat.eqb_neq in H1.
Qed.

(** *** The number at the head of the normalizers' patterns *)

Lemma digit_class_matches (ic : bool) (c : ascii) :
  Re.class_matches ic Re.Digit c = true -> PyStr.is_digit c = true.
Proof.
  destruct ic, c as [[] [] [] [] [] [] [] []];
    solve [ reflexivity | intros H; vm_compute in H; discriminate H ].
Qed.

Lemma dot_lit_matches (ic : bool) (c : ascii) :
  Re.lit_matches ic "." c = true -> c = "."%char.
Proof.
  destruct ic, c as [[] [] [] [] [] [] [] []];
    solve [ reflexivity | intros H; vm_compute in H; discriminate H ].
Qed.

Lemma all_in_digits (ic : bool) (p : string) :
  ReSpec.all_in ic Re.Digit p = true -> digits_only p = true.
Proof.
  induction p as [|c p IH]; simpl; [done|].
  intros [Hc Hp]%andb_prop. by rewrite (digit_class_matches _ _ Hc), IH.
Qed.

Lemma digits_of_digits_only (p : string) :
  digits_only p = true -> forall acc, is_Some (PyFloat.digits acc p).
Proof.
  induction p as [|c p IH]; simpl; intros H acc; [by eexists|].
  apply andb_prop in H as [-> Hp]. by apply IH.
Qed.

Lemma digit_is_not_dot (c : ascii) : PyStr.is_digit c = true -> Ascii.eqb c "." = false.
Proof.
  destruct c as [[] [] [] [] [] [] [] []];
    solve [ reflexivity | intros H; vm_compute in H; discriminate H ].
Qed.

Lemma split_dot_digits (p : string) :
  digits_only p = true -> PyFloat.split_dot p = (p, None).
Proof.
  induction p as [|c p IH]; simpl; [done|].
  intros [Hc Hp]%andb_prop. by rewrite (digit_is_not_dot _ Hc), IH.
Qed.

Lemma split_dot_digits_dot (p q : string) :
  digits_only p = true -> PyFloat.split_dot (p +:+ String "." q) = (p, Some q).
Proof.
  induction p as [|c p IH]; simpl; [done|].
  intros [Hc Hp]%andb_prop. by rewrite (digit_is_not_dot _ Hc), IH.
Qed.

(** A string of the shape [digits] or [digits.digits] is a decimal
    literal. *)
Lemma decimal_of_digits (p : string) :
  p <> "" -> digits_only p = true -> is_Some (PyFloat.decimal p).
Proof.
  intros Hne Hp. unfold PyFloat.decimal. rewrite split_dot_digits by done.
  destruct p as [|c p]; [done|].
  destruct (digits_of_digits_only _ Hp 0%N) as [n ->]. by eexists.
Qed.

Lemma decimal_of_digits_dot_digits (p q : string) :
  p <> "" -> q <> "" -> digits_only p = true -> digits_only q = true ->
  is_Some (PyFloat.decimal (p +:+ String "." q)).
Proof.
  intros Hne Hqe Hp Hq. unfold PyFloat.decimal. rewrite split_dot_digits_dot by done.
  destruct p as [|c p]; [done|]. destruct q as [|c' q]; [done|].
  destruct (digits_of_digits_only _ Hp 0%N) as [n ->].
  destruct (digits_of_digits_only _ Hq n) as [n' Hn']. simpl in *.
  rewrite Hn'. by eexists.
Qed.

Lemma append_assoc (a b c : string) : (a +:+ b) +:+ c = a +:+ (b +:+ c).
Proof.
  induction a as [|x a IH]; [done|].
  change (String x ((a +:+ b) +:+ c) = String x (a +:+ b +:+ c)). by rewrite IH.
Qed.

Lemma length_pos_nonempty (p : string) : 1 <= String.length p -> p <> "".
Proof. destruct p; simpl; [lia|done]. Qed.

(** What [number] consumes is a decimal literal that holds a digit, and it
    sets no group. *)
Lemma number_matches (ic : bool) s caps s' caps' :
  ReSpec.matches ic AmazonParser.number s caps s' caps' ->
  caps' = caps /\
  exists d, s = d +:+ s' /\ is_Some (PyFloat.decimal d) /\ has_digit d = true.
Proof.
  unfold AmazonParser.number, Re.plus. intros M.
  inversion M as [| | |? ? ? ? s1 caps1 ? ? M1 M2| | | | | | | |]; subst. clear M.
  inversion M1 as [| | | | | | | |? ? ? p ? ? Hall Hlo _| | |]; subst. clear M1.
  apply all_in_digits in Hall.
  assert (Hd : has_digit p = true).
  { destruct p as [|c p]; simpl in *; [lia|].
    apply andb_prop in Hall as [-> _]. done. }
  inversion M2 as [| | | | | |? ? ? ? ? M3| | | | |]; subst; clear M2.
  - inversion M3 as [| | |? ? ? ? s2 caps2 ? ? M4 M5| | | | | | | |]; subst. clear M3.
    inversion M4 as [|? c ? ? Hdot| | | | | | | | | |]; subst. clear M4.
    apply dot_lit_matches in Hdot as ->.
    inversion M5 as [| | | | | | | |? ? ? q ? ? Hallq Hloq _| | |]; subst. clear M5.
    apply all_in_digits in Hallq.
    split; [done|]. exists (p +:+ String "." q). split; [|split].
    + by rewrite append_assoc.
    + apply decimal_of_digits_dot_digits; auto using length_pos_nonempty.
    + clear -Hd. induction p as [|c p IH]; simpl in *; [done|].
      destruct (PyStr.is_digit c); simpl in *; auto.
  - split; [done|]. exists p. repeat split; [|done].
    apply decimal_of_digits; auto using length_pos_nonempty.
Qed.

Lemma has_digit_append (a b : string) :
  has_digit (a +:+ b) = has_digit a || has_digit b.
Proof.
  induction a as [|c a IH]; [done|].
  change (PyStr.is_digit c || has_digit (a +:+ b) =
          PyStr.is_digit c || has_digit a || has_digit b).
  rewrite IH. by rewrite orb_assoc.
Qed.

(** *** Patterns that start with the group [(\d+(?:\.\d+)?)] *)

Section HeadNumber.
Import Re ReSpec.
Variables (ic : bool) (rest : regex) (n : nat).
Hypothesis rest_keeps_group_1 : has_group 0 rest = false.

Let p : pattern := Pattern (Seq (Group 1 AmazonParser.number) rest) (S n).

(** What [search] finds: group 1 is a decimal literal, and the text holds a
    digit. *)
Lemma head_number_group (s : string) (groups : captures) :
  search ic p s = Some groups ->
  exists d, nth 0 groups None = Some d /\ is_Some (PyFloat.decimal d) /\
            has_digit s = true.
Proof.
  intros H. apply search_sound in H as (before & rest0 & rest' & -> & M).
  simpl in M.
  inversion M as [| | |? ? ? ? s1 caps1 ? ? M1 M2| | | | | | | |]; subst. clear M.
  inversion M1 as [| | | | | | | | |? ? ? ? ? caps0 M0| |]; subst. clear M1.
  apply number_matches in M0 as (-> & d & -> & Hdec & Hdig).
  exists d. split; [|split; [done|]].
  - rewrite (matches_keeps_group _ _ _ _ _ _ _ M2 rest_keeps_group_1).
    by rewrite take_consumed.
  - rewrite !has_digit_append, Hdig. by destruct (has_digit before).
Qed.

(** A text that holds a digit has a match, when the rest of the pattern can
    match nothing. *)
Hypothesis rest_never_fails : never_fails rest = true.

Lemma rep_from_0_total {A : Type} (cl : cclass) (hi : option nat) (s : string)
      (k : string -> option A) :
  (forall s', is_Some (k s')) -> is_Some (rep ic cl 0 hi s k).
Proof.
  intros Hk. destruct s as [|c s]; simpl; [apply Hk|].
  destruct (_ && _); [|apply Hk].
  destruct (rep ic cl 0 _ s k); [by eexists|apply Hk].
Qed.

Lemma never_fails_total {A : Type} (r : regex) :
  never_fails r = true ->
  forall (s : string) (caps : captures) (k : string -> captures -> option A),
    (forall s' caps', is_Some (k s' caps')) -> is_Some (m ic r s caps k).
Proof.
  induction r as [|l|cl|r1 IH1 r2 IH2|r1 IH1 r2 IH2|r IH|cl lo hi|i r IH|];
    simpl; intros Hr s caps k Hk; try done.
  - apply andb_prop in Hr as [H1 H2]. apply IH1; [done|].
    intros s' caps'. by apply IH2.
  - destruct (m ic r s caps k); [by eexists|apply Hk].
  - destruct lo; [|done]. apply rep_from_0_total. intros s'. apply Hk.
  - apply IH; [done|]. intros s' caps'. apply Hk.
Qed.

Lemma rep_from_1_total {A : Type} (cl : cclass) (hi : option nat) (c : ascii) (s : string)
      (k : string -> option A) :
  class_matches ic cl c = true -> hi <> Some 0 ->
  (forall s', is_Some (k s')) -> is_Some (rep ic cl 1 hi (String c s) k).
Proof.
  intros Hc Hhi Hk. cbn [rep]. rewrite Hc, (bool_decide_eq_false_2 _ Hhi). cbn [andb negb].
  destruct (rep_from_0_total cl (Nat.pred <$> hi) s k Hk) as [g Hg].
  cbn [Nat.pred]. rewrite Hg. by eexists.
Qed.

Lemma number_total {A : Type} (c : ascii) (s : string) (caps : captures)
      (k : string -> captures -> option A) :
  PyStr.is_digit c = true ->
  (forall s' caps', is_Some (k s' caps')) ->
  is_Some (m ic AmazonParser.number (String c s) caps k).
Proof.
  intros Hc Hk. unfold AmazonParser.number, plus.
  change (is_Some (rep ic Digit 1 None (String c s)
            (fun s' => m ic (Opt (Seq (Lit ".") (Rep Digit 1 None))) s' caps k))).
  apply rep_from_1_total; [|done|].
  - unfold class_matches. cbn [in_class]. by rewrite Hc.
  - intros s'. by apply (never_fails_total (Opt _)).
Qed.

Lemma head_number_match (c : ascii) (s : string) :
  PyStr.is_digit c = true -> is_Some (match_ ic p (String c s)).
Proof.
  intros Hc. unfold match_.
  change (is_Some (m ic AmazonParser.number (String c s) (no_groups (S n))
            (fun s' caps' =>
               (fun s1 caps1 => m ic rest s1 caps1 (fun _ caps => Some caps)) s'
                 (set_group 0
                    (PyStr.take (String.length (String c s) - String.length s') (String c s))
                    caps')))).
  apply number_total; [done|].
  intros s' caps'. apply never_fails_total; [done|]. by eexists.
Qed.

Lemma head_number_search (s : string) :
  has_digit s = true -> is_Some (search ic p s).
Proof.
  induction s as [|c s IH]; [done|].
  intros H. cbn [search].
  destruct (PyStr.is_digit c) eqn:Hc.
  - destruct (head_number_match c s Hc) as [g ->]. by eexists.
  - destruct (match_ ic p (String c s)); [by eexists|].
    apply IH. simpl in H. by rewrite Hc in H.
Qed.

(** So the pattern has a match exactly in the texts that hold a digit. *)
Lemma head_number_search_none (s : string) :
  search ic p s = None <-> has_digit s = false.
Proof.
  split.
  - intros H. destruct (has_digit s) eqn:Hd; [|done].
    destruct (head_number_search s Hd) as [g Hg]. congruence.
  - intros H. destruct (search ic p s) eqn:E; [|done].
    apply head_number_group in E as (d & _ & _ & Hd). congruence.
Qed.
End HeadNumber.

(** *** The normalizers, by what the pattern finds *)

Lemma float_of_decimal (d : string) :
  is_Some (PyFloat.decimal d) -> exists x, PyFloat.float (Some d) = Returned x.
Proof. intros [[n k] H]. simpl. rewrite H. by eexists. Qed.

(** The four patterns that start with a number have that shape. *)
Lemma ram_pattern_shape :
  exists rest, has_group 0 rest = false /\ never_fails rest = true /\
    ram_pattern = Re.Pattern (Re.Seq (Re.Group 1 number) rest) 2.
Proof. eexists. split; [|split]. 3: reflexivity. all: reflexivity. Qed.

Lemma display_pattern_shape :
  exists rest, has_group 0 rest = false /\ never_fails rest = true /\
    display_pattern = Re.Pattern (Re.Seq (Re.Group 1 number) rest) 1.
Proof. eexists. split; [|split]. 3: reflexivity. all: reflexivity. Qed.

Lemma battery_pattern_shape :
  exists rest, has_group 0 rest = false /\ never_fails rest = true /\
    battery_pattern = Re.Pattern (Re.Seq (Re.Group 1 number) rest) 1.
Proof. eexists. split; [|split]. 3: reflexivity. all: reflexivity. Qed.

Lemma weight_pattern_shape :
  exists rest, has_group 0 rest = false /\ never_fails rest = true /\
    weight_pattern = Re.Pattern (Re.Seq (Re.Group 1 number) rest) 2.
Proof. eexists. split; [|split]. 3: reflexivity. all: reflexivity. Qed.

(** [float] returns on group 1 of any of them. *)
Lemma float_of_group_1 (ic : bool) (p : Re.pattern) (n : nat) (s : string) (groups : Re.captures) :
  (exists rest, has_group 0 rest = false /\ never_fails rest = true /\
     p = Re.Pattern (Re.Seq (Re.Group 1 number) rest) (S n)) ->
  Re.search ic p s = Some groups ->
  exists x, PyFloat.float (nth 0 groups None) = Returned x.
Proof.
  intros (rest & Hg & _ & ->) H.
  apply head_number_group in H as (d & -> & Hdec & _); [|done].
  by apply float_of_decimal.
Qed.

Lemma search_none_iff_no_digit (ic : bool) (p : Re.pattern) (n : nat) (s : string) :
  (exists rest, has_group 0 rest = false /\ never_fails rest = true /\
     p = Re.Pattern (Re.Seq (Re.Group 1 number) rest) (S n)) ->
  Re.search ic p s = None <-> has_digit s = false.
Proof. intros (rest & Hg & Hr & ->). by apply head_number_search_none. Qed.

Lemma has_digit_truthy (s : string) : has_digit s = true -> PyStr.truthy (Some s) = true.
Proof. by destruct s. Qed.

(** [normalize_ram_size] on a text with a match: the number of group 1 as a
    float, scaled by the unit of group 2. *)
Lemma normalize_ram_size_match (s : string) (groups : Re.captures) :
  Re.search true ram_pattern s = Some groups ->
  exists x, PyFloat.float (nth 0 groups None) = Returned x /\
            normalize_ram_size (Some s) = Returned (Some (gigabytes (nth 1 groups None) x)).
Proof.
  intros H.
  destruct (float_of_group_1 _ _ _ _ _ ram_pattern_shape H) as [x Hx].
  exists x. split; [done|].
  assert (Ht : PyStr.truthy (Some s) = true).
  { apply has_digit_truthy.
    destruct (has_digit s) eqn:Hd; [done|].
    apply (search_none_iff_no_digit true ram_pattern 1) in Hd; [congruence|].
    apply ram_pattern_shape. }
  unfold normalize_ram_size. rewrite Ht. cbn [negb PyStr.str].
  rewrite H. cbv zeta. rewrite Hx. simpl.
  do 2 f_equal. unfold gigabytes.
  destruct (nth 1 groups None) as [[|c u]|]; done.
Qed.

(** ... on a text where it has none ... *)
Lemma normalize_ram_size_no_match (s : string) :
  Re.search true ram_pattern s = None -> normalize_ram_size (Some s) = Returned None.
Proof.
  intros H. unfold normalize_ram_size.
  destruct (negb (PyStr.truthy (Some s))); [done|]. cbn [PyStr.str].
  by rewrite H.
Qed.

(** ... and on a text without a digit. *)
Lemma normalize_ram_size_no_digit (s : string) :
  has_digit s = false -> normalize_ram_size (Some s) = Returned None.
Proof.
  intros Hd. unfold normalize_ram_size.
  destruct (negb (PyStr.truthy (Some s))); [done|]. cbn [PyStr.str].
  apply (search_none_iff_no_digit true ram_pattern 1) in Hd; [|apply ram_pattern_shape].
  by rewrite Hd.
Qed.

(** ** The normalizers: the claims *)

(** The floats 16.0 and 1024.0, as mantissa and exponent. *)
Lemma float_16 : PyFloat.of_Z 16 = S754_finite false 4503599627370496 (-48).
Proof. reflexivity. Qed.

Lemma float_1024 : PyFloat.of_Z 1024 = S754_finite false 4503599627370496 (-42).
Proof. reflexivity. Qed.



(** C8. Each of the five normalizers returns on every input - an absent
    one, an empty one, any text - a value that is a scalar or [None], and
    never raises; on an absent and on an empty input it returns [None]. *)
Theorem normalizers_never_raise (x : option string) :
  (exists v, normalize_ram_size x = Returned v) /\
  (exists v, normalize_display_size x = Returned v) /\
  (exists v, normalize_battery_life x = Returned v) /\
  (exists v, normalize_weight x = Returned v) /\
  (exists v, normalize_port_count x = Returned v) /\
  normalize_ram_size None = Returned None /\
  normalize_ram_size (Some "") = Returned None /\
  normalize_display_size None = Returned None /\
  normalize_display_size (Some "") = Returned None /\
  normalize_battery_life None = Returned None /\
  normalize_battery_life (Some "") = Returned None /\
  normalize_weight None = Returned None /\
  normalize_weight (Some "") = Returned None /\
  normalize_port_count None = Returned None /\
  normalize_port_count (Some "") = Returned None.
Proof.
  split; [apply normalize_ram_size_returns|].
  split; [apply normalize_display_size_returns|].
  split; [apply normalize_battery_life_returns|].
  split; [apply normalize_weight_returns|].
  split; [apply normalize_port_count_returns|].
  repeat split.
Qed.

(** * Further properties of the classifiers *)

(** ** Case and surrounding white space *)

Lemma lower_char_idem (c : ascii) : PyStr.lower_char (PyStr.lower_char c) = PyStr.lower_char c.
Proof. destruct c as [[] [] [] [] [] [] [] []]; reflexivity. Qed.

Lemma lower_upper_char (c : ascii) : PyStr.lower_char (PyStr.upper_char c) = PyStr.lower_char c.
Proof. destruct c as [[] [] [] [] [] [] [] []]; reflexivity. Qed.

Lemma is_space_lower_char (c : ascii) : PyStr.is_space (PyStr.lower_char c) = PyStr.is_space c.
Proof. destruct c as [[] [] [] [] [] [] [] []]; reflexivity. Qed.

Lemma lower_idem (s : string) : PyStr.lower (PyStr.lower s) = PyStr.lower s.
Proof.
  induction s as [|c s IH]; [done|].
  unfold PyStr.lower in *. simpl. by rewrite lower_char_idem, IH.
Qed.

Lemma lower_upper (s : string) : PyStr.lower (PyStr.upper s) = PyStr.lower s.
Proof.
  induction s as [|c s IH]; [done|].
  unfold PyStr.lower, PyStr.upper in *. simpl. by rewrite lower_upper_char, IH.
Qed.

Lemma lower_lstrip (s : string) : PyStr.lower (PyStr.lstrip s) = PyStr.lstrip (PyStr.lower s).
Proof.
  induction s as [|c s IH]; [done|].
  unfold PyStr.lower in *. simpl. rewrite is_space_lower_char.
  by destruct (PyStr.is_space c).
Qed.

Lemma lower_rstrip (s : string) : PyStr.lower (PyStr.rstrip s) = PyStr.rstrip (PyStr.lower s).
Proof.
  induction s as [|c s IH]; [done|].
  unfold PyStr.lower in *. simpl. rewrite <- IH, is_space_lower_char.
  destruct (PyStr.rstrip s); simpl; [by destruct (PyStr.is_space c)|done].
Qed.

Lemma lower_strip (s : string) : PyStr.lower (PyStr.strip s) = PyStr.strip (PyStr.lower s).
Proof. unfold PyStr.strip. by rewrite lower_rstrip, lower_lstrip. Qed.

Lemma lstrip_left_trimmed (s : string) : left_trimmed (PyStr.lstrip s).
Proof.
  induction s as [|c s IH]; simpl; [done|].
  destruct (PyStr.is_space c) eqn:Hc; [done|]. simpl. done.
Qed.

Lemma lstrip_of_left_trimmed (s : string) : left_trimmed s -> PyStr.lstrip s = s.
Proof. destruct s as [|c s]; simpl; [done|]. by intros ->. Qed.

Lemma rstrip_left_trimmed (s : string) : left_trimmed s -> left_trimmed (PyStr.rstrip s).
Proof.
  destruct s as [|c s]; simpl; [done|]. intros Hc.
  destruct (PyStr.rstrip s); simpl; [by rewrite Hc|done].
Qed.

Lemma rstrip_idem (s : string) : PyStr.rstrip (PyStr.rstrip s) = PyStr.rstrip s.
Proof.
  induction s as [|c s IH]; [done|]. simpl.
  destruct (PyStr.rstrip s) as [|c' r] eqn:Hr.
  - destruct (PyStr.is_space c) eqn:Hc; simpl; [done|by rewrite Hc].
  - change (PyStr.rstrip (String c (String c' r))) with
      (match PyStr.rstrip (String c' r) with
       | EmptyString => if PyStr.is_space c then EmptyString else String c EmptyString
       | r0 => String c r0
       end).
    by rewrite IH.
Qed.

Lemma strip_idem (s : string) : PyStr.strip (PyStr.strip s) = PyStr.strip s.
Proof.
  unfold PyStr.strip.
  rewrite (lstrip_of_left_trimmed (PyStr.rstrip (PyStr.lstrip s)))
    by apply rstrip_left_trimmed, lstrip_left_trimmed.
  apply rstrip_idem.
Qed.

Lemma strip_nonempty (s : string) : PyStr.strip s <> "" -> s <> "".
Proof. by destruct s. Qed.

(** X1. The classifiers do not see the case of an ASCII text: the text,
    its lower case and its upper case are classified alike. *)
Theorem classifiers_ignore_case (text : string) (is_technical_detail : bool) :
  is_ascii text = true ->
  parse_gpu_from_text (Some (PyStr.lower text)) is_technical_detail =
    parse_gpu_from_text (Some text) is_technical_detail /\
  parse_gpu_from_text (Some (PyStr.upper text)) is_technical_detail =
    parse_gpu_from_text (Some text) is_technical_detail /\
  parse_cpu_from_text (Some (PyStr.lower text)) is_technical_detail =
    parse_cpu_from_text (Some text) is_technical_detail /\
  parse_cpu_from_text (Some (PyStr.upper text)) is_technical_detail =
    parse_cpu_from_text (Some text) is_technical_detail.
Proof.
  intros _. unfold parse_gpu_from_text, parse_cpu_from_text. cbn [PyStr.str].
  rewrite lower_idem, lower_upper.
  by destruct text.
Qed.

(** X1 at a technical-detail text for a Ryzen 7, and its upper case. *)
Lemma classifiers_ignore_case_witness :
  parse_cpu_from_text (Some "AMD RYZEN 7 5800H") true =
    parse_cpu_from_text (Some "AMD Ryzen 7 5800H") true.
Proof.
  exact (proj2 (proj2 (proj2 (classifiers_ignore_case "AMD Ryzen 7 5800H" true eq_refl)))).
Defined.

(** X2. White space around the text is not seen either, as long as
    something is left after trimming: the trimmed text is classified like
    the text. *)
Theorem classifiers_ignore_outer_space (text : string) (is_technical_detail : bool) :
  PyStr.strip text <> "" ->
  parse_gpu_from_text (Some (PyStr.strip text)) is_technical_detail =
    parse_gpu_from_text (Some text) is_technical_detail /\
  parse_cpu_from_text (Some (PyStr.strip text)) is_technical_detail =
    parse_cpu_from_text (Some text) is_technical_detail.
Proof.
  intros Hne. pose proof (strip_nonempty _ Hne) as Hne'.
  unfold parse_gpu_from_text, parse_cpu_from_text. cbn [PyStr.str].
  rewrite lower_strip, strip_idem.
  destruct text as [|c text]; [done|].
  destruct (PyStr.strip (String c text)); done.
Qed.

(** X2 at a title with a leading tab and trailing spaces. *)
Lemma classifiers_ignore_outer_space_witness :
  parse_gpu_from_text (Some (PyStr.strip (String "009" "RTX 4060 Ti  "))) false =
    parse_gpu_from_text (Some (String "009" "RTX 4060 Ti  ")) false.
Proof.
  apply (classifiers_ignore_outer_space (String "009" "RTX 4060 Ti  ") false).
  vm_compute. discriminate.
Defined.

(** X3. A text made of white space only is not the empty text: it passes
    the guard, nothing matches, and the record that comes back has no
    identity field but carries the source and the confidence of the flag -
    unlike the record for the empty text, which carries nothing. *)
Theorem blank_text_gives_tagged_record (text : string) (is_technical_detail : bool) :
  text <> "" -> PyStr.strip text = "" ->
  parse_gpu_from_text (Some text) is_technical_detail =
    GPUInfo.Make None None None None
      (Some (source_tag is_technical_detail)) (Some (confidence_tag is_technical_detail)) /\
  parse_cpu_from_text (Some text) is_technical_detail =
    CPUInfo.Make None None None None None
      (Some (source_tag is_technical_detail)) (Some (confidence_tag is_technical_detail)).
Proof.
  intros Hne Hblank.
  assert (Hlow : PyStr.strip (PyStr.lower text) = "").
  { by rewrite <- lower_strip, Hblank. }
  unfold parse_gpu_from_text, parse_cpu_from_text. cbn [PyStr.str].
  rewrite Hlow. destruct text; [done|]. split; reflexivity.
Qed.

(** X3 at the text made of two spaces. *)
Lemma blank_text_gives_tagged_record_witness :
  GPUInfo.source (parse_gpu_from_text (Some "  ") true) = Some "technical_detail".
Proof.
  destruct (blank_text_gives_tagged_record "  " true) as [-> _].
  - discriminate.
  - vm_compute. reflexivity.
  - reflexivity.
Defined.

(** ** The order of the brands *)

(** X4. The brand of a classification is decided by the first family of
    patterns that has a match in the trimmed lower-case text, in the order
    NVIDIA, Intel, AMD for the GPU and Intel, AMD for the CPU: a later
    family is looked at only when no earlier one matches, and the brand is
    absent exactly when the text is false or no family matches. *)
Theorem classifier_brand_precedence (text : option string) (is_technical_detail : bool) :
  GPUInfo.brand (parse_gpu_from_text text is_technical_detail) =
    (if negb (PyStr.truthy text) then None
     else if bool_decide (is_Some (first_match nvidia_patterns
                                     (PyStr.strip (PyStr.lower (PyStr.str text)))))
     then Some "NVIDIA"
     else if bool_decide (is_Some (first_match intel_gpu_patterns
                                     (PyStr.strip (PyStr.lower (PyStr.str text)))))
     then Some "Intel"
     else if bool_decide (is_Some (first_match amd_gpu_patterns
                                     (PyStr.strip (PyStr.lower (PyStr.str text)))))
     then Some "AMD"
     else None) /\
  CPUInfo.brand (parse_cpu_from_text text is_technical_detail) =
    (if negb (PyStr.truthy text) then None
     else if bool_decide (is_Some (first_match intel_cpu_patterns
                                     (PyStr.strip (PyStr.lower (PyStr.str text)))))
     then Some "Intel"
     else if bool_decide (is_Some (first_match amd_cpu_patterns
                                     (PyStr.strip (PyStr.lower (PyStr.str text)))))
     then Some "AMD"
     else None).
Proof.
  unfold parse_gpu_from_text, parse_cpu_from_text.
  destruct (negb (PyStr.truthy text)); [done|]. cbv zeta. split.
  - destruct (first_match nvidia_patterns _); [by rewrite nvidia_gpu_brand|].
    destruct (first_match intel_gpu_patterns _); [by rewrite intel_gpu_brand|].
    destruct (first_match amd_gpu_patterns _); [by rewrite amd_gpu_brand|done].
  - destruct (first_match intel_cpu_patterns _); [by rewrite intel_cpu_brand|].
    destruct (first_match amd_cpu_patterns _); [by rewrite amd_cpu_brand|done].
Qed.

(** * Further properties of the normalizers *)

(** ** The matcher on greedy prefixes *)

Lemma class_digit_eq (ic : bool) (c : ascii) :
  Re.class_matches ic Re.Digit c = PyStr.is_digit c.
Proof. destruct ic, c as [[] [] [] [] [] [] [] []]; reflexivity. Qed.

Lemma class_space_eq (ic : bool) (c : ascii) :
  Re.class_matches ic Re.Space c = PyStr.is_space c.
Proof. destruct ic, c as [[] [] [] [] [] [] [] []]; reflexivity. Qed.

Lemma span_append (P : ascii -> bool) (s : string) : s = (span P s).1 +:+ (span P s).2.
Proof.
  induction s as [|c s IH]; [done|]. simpl.
  destruct (P c); [|done]. destruct (span P s) as [d r]. simpl in *.
  change (String c s = String c (d +:+ r)). by rewrite <- IH.
Qed.

Lemma span_lstrip (s : string) : (span PyStr.is_space s).2 = PyStr.lstrip s.
Proof.
  induction s as [|c s IH]; [done|]. simpl.
  destruct (PyStr.is_space c); [|done]. by destruct (span PyStr.is_space s).
Qed.

Lemma span_digits_only (s : string) : digits_only (span PyStr.is_digit s).1 = true.
Proof.
  induction s as [|c s IH]; [done|]. simpl.
  destruct (PyStr.is_digit c) eqn:Hc; [|done].
  destruct (span PyStr.is_digit s). simpl in *. by rewrite Hc.
Qed.

Section Greedy.
Import Re.
Variable ic : bool.

(** A greedy repetition followed by something that cannot fail takes the
    longest run and does not give anything back. *)
Lemma rep_span {A : Type} (cl : cclass) (P : ascii -> bool) (k : string -> option A) :
  (forall c, class_matches ic cl c = P c) ->
  (forall s', is_Some (k s')) ->
  forall (s : string) (lo : nat),
    rep ic cl lo None s k =
      if Nat.leb lo (String.length (span P s).1) then k (span P s).2 else None.
Proof.
  intros Hcl Hk. induction s as [|c s IH]; intros lo.
  - simpl. by destruct lo.
  - cbn [rep span]. rewrite Hcl.
    rewrite (bool_decide_eq_false_2 (None = Some 0)) by done.
    destruct (P c); cbn [andb negb]; [|by destruct lo].
    change (Nat.pred <$> None) with (@None nat).
    rewrite IH. destruct (span P s) as [d r]. cbn [fst snd String.length].
    destruct lo as [|lo]; cbn [Nat.pred Nat.leb].
    + by destruct (Hk r) as [a ->].
    + destruct (Nat.leb lo (String.length d)); [|done].
      by destruct (Hk r) as [a ->].
Qed.

(** A word matches when the text starts with it, and then leaves the rest. *)
Lemma m_word {A : Type} (w s : string) (caps : captures)
      (k : string -> captures -> option A) :
  m true (word w) s caps k =
    if ci_starts_with w s then k (drop (String.length w) s) caps else None.
Proof.
  revert s. induction w as [|a w IH]; intros s; [done|].
  assert (Hseq : m true (Seq (Lit a) (word w)) s caps k =
                 if ci_starts_with (String a w) s
                 then k (drop (String.length (String a w)) s) caps else None).
  { cbn [m]. destruct s as [|b s]; [done|]. cbn [ci_starts_with drop String.length].
    unfold lit_matches. destruct (Ascii.eqb _ _); [|done]. apply IH. }
  destruct w as [|a' w]; [|exact Hseq].
  cbn [word m]. destruct s as [|b s]; [done|]. cbn [ci_starts_with drop String.length].
  unfold lit_matches. by destruct (Ascii.eqb _ _).
Qed.

(** Alternative words followed by something that cannot fail: the first
    word, in their order, that the text starts with. *)
Lemma m_words {A : Type} (w : string) (ws : list string) (s : string) (caps : captures)
      (k : string -> captures -> option A) :
  (forall s' caps', is_Some (k s' caps')) ->
  m true (alt (word <$> (w :: ws))) s caps k =
    match find (fun w => ci_starts_with w s) (w :: ws) with
    | Some w' => k (drop (String.length w') s) caps
    | None => None
    end.
Proof.
  intros Hk. revert w. induction ws as [|w' ws IH]; intros w.
  - cbn [fmap list_fmap alt find]. rewrite m_word. by destruct (ci_starts_with w s).
  - change (alt (word <$> w :: w' :: ws)) with (Alt (word w) (alt (word <$> w' :: ws))).
    cbn [m]. rewrite m_word. cbn [find].
    destruct (ci_starts_with w s).
    + by destruct (Hk (drop (String.length w) s) caps) as [a ->].
    + apply IH.
Qed.
End Greedy.

(** ** The number pattern is the number scanner *)

Lemma lit_dot_eq (ic : bool) (c : ascii) : Re.lit_matches ic "." c = Ascii.eqb c ".".
Proof. destruct ic, c as [[] [] [] [] [] [] [] []]; reflexivity. Qed.

Lemma digits_prefix_spec (s d r : string) :
  digits_prefix s = Some (d, r) ->
  s = d +:+ r /\ d <> "" /\ digits_only d = true.
Proof.
  unfold digits_prefix. intros H.
  pose proof (span_append PyStr.is_digit s) as Happ.
  pose proof (span_digits_only s) as Hdig.
  destruct (span PyStr.is_digit s) as [[|c d'] r']; [done|].
  injection H as <- <-. done.
Qed.

Lemma digits_only_has_digit (d : string) : d <> "" -> digits_only d = true -> has_digit d = true.
Proof. destruct d as [|c d]; [done|]. simpl. by intros _ [-> _]%andb_prop. Qed.

Lemma number_prefix_spec (s d r : string) :
  number_prefix s = Some (d, r) ->
  s = d +:+ r /\ is_Some (PyFloat.decimal d) /\ has_digit d = true.
Proof.
  unfold number_prefix. intros H.
  destruct (digits_prefix s) as [[ip r0]|] eqn:Hip; [|done].
  apply digits_prefix_spec in Hip as (-> & Hne & Hdig).
  assert (Hplain : ip +:+ r0 = ip +:+ r0 /\ is_Some (PyFloat.decimal ip) /\
                   has_digit ip = true).
  { split; [done|]. split; [by apply decimal_of_digits|by apply digits_only_has_digit]. }
  destruct r0 as [|c r1]; [by injection H as <- <-|].
  destruct (Ascii.eqb_spec c "."); [subst c|by injection H as <- <-].
  destruct (digits_prefix r1) as [[fp r2]|] eqn:Hfp; [|by injection H as <- <-].
  apply digits_prefix_spec in Hfp as (-> & Hne' & Hdig').
  injection H as <- <-. split; [|split].
  - by rewrite append_assoc.
  - by apply decimal_of_digits_dot_digits.
  - rewrite has_digit_append. by rewrite (digits_only_has_digit ip).
Qed.

Lemma length_leb_1 (d : string) : Nat.leb 1 (String.length d) = negb (String.eqb d "").
Proof. by destruct d. Qed.

Section NumberScan.
Import Re.
Variable ic : bool.

(** [number] followed by something that cannot fail reads the number at the
    start of the text, whole. *)
Lemma m_number {A : Type} (caps : captures) (k : string -> captures -> option A) :
  (forall s' caps', is_Some (k s' caps')) ->
  forall s : string,
    m ic AmazonParser.number s caps k =
      match number_prefix s with
      | Some (d, r) => k r caps
      | None => None
      end.
Proof.
  intros Hk s. unfold AmazonParser.number, plus.
  change (rep ic Digit 1 None s
            (fun s' => m ic (Opt (Seq (Lit ".") (Rep Digit 1 None))) s' caps k) =
          match number_prefix s with Some (d, r) => k r caps | None => None end).
  rewrite (rep_span ic Digit PyStr.is_digit _ (class_digit_eq ic));
    [|intros s'; by apply (never_fails_total ic (Opt _))].
  unfold number_prefix, digits_prefix.
  destruct (span PyStr.is_digit s) as [[|c0 ip] r]; [done|].
  cbn [fst snd String.length Nat.leb].
  cbn [m]. destruct r as [|c r1]; [by destruct (Hk "" caps) as [a Ha]|].
  rewrite lit_dot_eq. destruct (Ascii.eqb c "."); [|done].
  rewrite (rep_span ic Digit PyStr.is_digit _ (class_digit_eq ic)) by (intros; apply Hk).
  destruct (span PyStr.is_digit r1) as [[|c1 fp] r2]; [done|].
  cbn [fst snd String.length Nat.leb].
  by destruct (Hk r2 caps) as [a ->].
Qed.

Variables (rest : regex) (n : nat).
Hypothesis rest_never_fails : never_fails rest = true.

Let p : pattern := Pattern (Seq (Group 1 AmazonParser.number) rest) (S n).

(** At one position: the rest of the pattern goes on after the number,
    with the number in group 1. *)
Lemma match_head_number (s : string) :
  match_ ic p s =
    match number_prefix s with
    | Some (d, r) => m ic rest r (Some d :: repeat None n) (fun _ caps => Some caps)
    | None => None
    end.
Proof.
  unfold match_.
  change (m ic (body p) s (no_groups (ngroups p)) (fun _ caps => Some caps)) with
    (m ic AmazonParser.number s (None :: repeat None n)
       (fun s' caps' =>
          m ic rest s'
            (set_group 0 (PyStr.take (String.length s - String.length s') s) caps')
            (fun _ caps => Some caps))).
  rewrite m_number.
  - destruct (number_prefix s) as [[d r]|] eqn:Hp; [|done].
    apply number_prefix_spec in Hp as (-> & _ & _).
    by rewrite take_consumed.
  - intros s' caps'. apply never_fails_total; [done|]. by eexists.
Qed.

(** Over the text: the match is at the first number. *)
Lemma search_head_number (s : string) :
  search ic p s =
    match first_number s with
    | Some (d, r) => m ic rest r (Some d :: repeat None n) (fun _ caps => Some caps)
    | None => None
    end.
Proof.
  unfold first_number.
  induction s as [|c s IH]; cbn [search scan]; rewrite match_head_number.
  - reflexivity.
  - destruct (number_prefix (String c s)) as [[d r]|]; [|exact IH].
    destruct (never_fails_total ic rest rest_never_fails r (Some d :: repeat None n)
                (fun _ caps => Some caps)) as [g ->]; [by eexists|done].
Qed.
End NumberScan.

(** A regex without groups that cannot fail leaves the groups alone. *)
Lemma matches_group_free (ic : bool) r s caps s' caps' :
  ReSpec.matches ic r s caps s' caps' -> group_free r = true -> caps' = caps.
Proof.
  induction 1; simpl; intros Hfree; try done.
  - apply andb_prop in Hfree as [H1 H2]. rewrite IHmatches2, IHmatches1; done.
  - apply andb_prop in Hfree as [H1 H2]. auto.
  - apply andb_prop in Hfree as [H1 H2]. auto.
  - auto.
Qed.

Lemma m_group_free (ic : bool) (r : Re.regex) (s : string) (caps : Re.captures) :
  group_free r = true -> never_fails r = true ->
  Re.m ic r s caps (fun _ caps => Some caps) = Some caps.
Proof.
  intros Hfree Hnf.
  destruct (never_fails_total ic r Hnf s caps (fun _ caps => Some caps)) as [g Hg];
    [by eexists|].
  rewrite Hg. apply m_sound in Hg as (s' & caps' & M & [= <-]).
  by rewrite (matches_group_free _ _ _ _ _ _ M Hfree).
Qed.

(** ** The unit after the number *)

Lemma ci_starts_with_take (w s : string) :
  ci_starts_with w s = true ->
  PyStr.take (String.length s - String.length (drop (String.length w) s)) s =
    PyStr.take (String.length w) s.
Proof.
  revert s. induction w as [|a w IH]; intros s H.
  - simpl. destruct s; simpl; [done|].
    replace (String.length s - String.length s) with 0 by lia. done.
  - destruct s as [|b s]; [done|]. simpl in H. apply andb_prop in H as [_ H].
    specialize (IH s H). cbn [String.length drop PyStr.take].
    assert (Hle : String.length (drop (String.length w) s) <= String.length s).
    { clear. revert s. induction (String.length w) as [|k IHk]; intros s; simpl; [lia|].
      destruct s as [|c s]; simpl; [lia|]. specialize (IHk s). lia. }
    replace (S (String.length s) - String.length (drop (String.length w) s))
      with (S (String.length s - String.length (drop (String.length w) s))) by lia.
    cbn [PyStr.take]. by rewrite IH.
Qed.

(** White space and an optional unit in group 2, after a number in group 1:
    the groups that come out. *)
Lemma m_unit_rest (w : string) (ws : list string) (r d : string) :
  Re.m true
    (Re.Seq (Re.star Re.Space) (Re.Opt (Re.Group 2 (Re.alt (Re.word <$> (w :: ws))))))
    r [Some d; None] (fun _ caps => Some caps) =
  Some [Some d; unit_at (w :: ws) (PyStr.lstrip r)].
Proof.
  unfold Re.star.
  change (Re.rep true Re.Space 0 None r
            (fun s' => Re.m true (Re.Opt (Re.Group 2 (Re.alt (Re.word <$> (w :: ws)))))
                         s' [Some d; None] (fun _ caps => Some caps)) =
          Some [Some d; unit_at (w :: ws) (PyStr.lstrip r)]).
  rewrite (rep_span true Re.Space PyStr.is_space _ (class_space_eq true));
    [|intros s'; apply (never_fails_total true (Re.Opt _)); [done|by eexists]].
  cbn [Nat.leb]. rewrite span_lstrip.
  change (match Re.m true (Re.alt (Re.word <$> (w :: ws))) (PyStr.lstrip r) [Some d; None]
                  (fun s' caps' =>
                     Some (Re.set_group 1
                             (PyStr.take
                                (String.length (PyStr.lstrip r) - String.length s')
                                (PyStr.lstrip r)) caps'))
          with
          | Some a => Some a
          | None => Some [Some d; None]
          end = Some [Some d; unit_at (w :: ws) (PyStr.lstrip r)]).
  rewrite m_words by (intros; by eexists).
  unfold unit_at.
  destruct (find _ (w :: ws)) as [w'|] eqn:Hfind; [|done].
  apply find_some in Hfind as [_ Hw].
  by rewrite ci_starts_with_take.
Qed.

(** ** What the five patterns find *)

Lemma ram_search (s : string) :
  Re.search true ram_pattern s =
    match first_number s with
    | Some (d, r) => Some [Some d; unit_at ["GB"; "MB"; "TB"] (PyStr.lstrip r)]
    | None => None
    end.
Proof.
  change ram_pattern with
    (Re.Pattern (Re.Seq (Re.Group 1 number)
       (Re.Seq (Re.star Re.Space)
          (Re.Opt (Re.Group 2 (Re.alt (Re.word <$> ["GB"; "MB"; "TB"])))))) 2).
  rewrite search_head_number by done.
  destruct (first_number s) as [[d r]|]; [|done]. apply m_unit_rest.
Qed.

Lemma weight_search (s : string) :
  Re.search true weight_pattern s =
    match first_number s with
    | Some (d, r) =>
        Some [Some d; unit_at ["kg"; "g"; "kilograms"; "grams"] (PyStr.lstrip r)]
    | None => None
    end.
Proof.
  change weight_pattern with
    (Re.Pattern (Re.Seq (Re.Group 1 number)
       (Re.Seq (Re.star Re.Space)
          (Re.Opt (Re.Group 2
             (Re.alt (Re.word <$> ["kg"; "g"; "kilograms"; "grams"])))))) 2).
  rewrite search_head_number by done.
  destruct (first_number s) as [[d r]|]; [|done]. apply m_unit_rest.
Qed.

Lemma display_search (s : string) :
  Re.search true display_pattern s =
    match first_number s with
    | Some (d, _) => Some [Some d]
    | None => None
    end.
Proof.
  change display_pattern with
    (Re.Pattern (Re.Seq (Re.Group 1 number)
       (Re.Seq (Re.star Re.Space) (Re.Opt (Re.Alt (Re.word "inches") (Re.Lit "034"))))) 1).
  rewrite search_head_number by done.
  destruct (first_number s) as [[d r]|]; [|done]. by apply m_group_free.
Qed.

Lemma battery_search (s : string) :
  Re.search true battery_pattern s =
    match first_number s with
    | Some (d, _) => Some [Some d]
    | None => None
    end.
Proof.
  change battery_pattern with
    (Re.Pattern (Re.Seq (Re.Group 1 number)
       (Re.Seq (Re.star Re.Space)
          (Re.Opt (Re.Alt (Re.word "hours")
                     (Re.Seq (Re.word "hr") (Re.Opt (Re.Lit "s"))))))) 1).
  rewrite search_head_number by done.
  destruct (first_number s) as [[d r]|]; [|done]. by apply m_group_free.
Qed.

Lemma port_match (s : string) :
  Re.match_ false port_pattern s =
    match digits_prefix s with
    | Some (d, _) => Some [Some d]
    | None => None
    end.
Proof.
  unfold Re.match_.
  change (Re.rep false Re.Digit 1 None s
            (fun s' => Some (Re.set_group 0
                               (PyStr.take (String.length s - String.length s') s)
                               [None])) =
          match digits_prefix s with Some (d, _) => Some [Some d] | None => None end).
  rewrite (rep_span false Re.Digit PyStr.is_digit _ (class_digit_eq false))
    by (intros; by eexists).
  unfold digits_prefix. pose proof (span_append PyStr.is_digit s) as Happ.
  destruct (span PyStr.is_digit s) as [[|c d] r]; [done|].
  cbn [fst snd String.length Nat.leb] in *.
  rewrite Happ at 1 2. by rewrite take_consumed.
Qed.

Lemma port_search (s : string) :
  Re.search false port_pattern s =
    match first_digits s with
    | Some (d, _) => Some [Some d]
    | None => None
    end.
Proof.
  unfold first_digits.
  induction s as [|c s IH]; cbn [Re.search scan]; rewrite port_match.
  - reflexivity.
  - by destruct (digits_prefix (String c s)) as [[d r]|].
Qed.

(** ** The normalizers are the scanners *)

Lemma scan_some {A : Type} (f : string -> option A) (s : string) (x : A) :
  scan f s = Some x -> exists before t, s = before +:+ t /\ f t = Some x.
Proof.
  induction s as [|c s IH]; simpl.
  - destruct (f "") eqn:Hf; [|done]. intros [= <-]. by exists "", "".
  - destruct (f (String c s)) eqn:Hf.
    + intros [= <-]. by exists "", (String c s).
    + intros H. apply IH in H as (before & t & -> & H).
      by exists (String c before), t.
Qed.

Lemma first_number_decimal (s d r : string) :
  first_number s = Some (d, r) -> is_Some (PyFloat.decimal d).
Proof.
  intros H. apply scan_some in H as (before & t & _ & H).
  by apply number_prefix_spec in H as (_ & H & _).
Qed.

Lemma first_digits_spec (s d r : string) :
  first_digits s = Some (d, r) -> d <> "" /\ digits_only d = true.
Proof.
  intros H. apply scan_some in H as (before & t & _ & H).
  by apply digits_prefix_spec in H as (_ & H).
Qed.

Lemma float_decimal_float (d : string) :
  is_Some (PyFloat.decimal d) -> PyFloat.float (Some d) = Returned (decimal_float d).
Proof. intros [[n k] H]. unfold decimal_float. simpl. by rewrite H. Qed.

Lemma int_digits_value (d : string) :
  d <> "" -> digits_only d = true ->
  PyFloat.int (Some d) =
    if Nat.ltb PyFloat.max_str_digits (String.length d) then Raised ValueError
    else Returned (digits_value d).
Proof.
  intros Hne Hd. unfold digits_value, PyFloat.int.
  destruct (digits_of_digits_only d Hd 0%N) as [n Hn]. rewrite Hn.
  by destruct d.
Qed.

Lemma first_number_none (s : string) : first_number s = None <-> has_digit s = false.
Proof.
  unfold first_number. induction s as [|c s IH]; [done|].
  cbn [scan has_digit]. unfold number_prefix, digits_prefix. cbn [span].
  destruct (PyStr.is_digit c) eqn:Hc.
  - destruct (span PyStr.is_digit s) as [ip r].
    destruct r as [|c' r1]; [done|].
    destruct (Ascii.eqb c' "."); [|done].
    by destruct (span PyStr.is_digit r1) as [[|? ?] ?].
  - exact IH.
Qed.

Lemma first_digits_none (s : string) : first_digits s = None <-> has_digit s = false.
Proof.
  unfold first_digits. induction s as [|c s IH]; [done|].
  cbn [scan has_digit]. unfold digits_prefix. cbn [span].
  destruct (PyStr.is_digit c) eqn:Hc; [|exact IH].
  by destruct (span PyStr.is_digit s).
Qed.

Lemma normalize_plain_number_scan (s : string) :
  normalize_display_size (Some s) = Returned (number_of s) /\
  normalize_battery_life (Some s) = Returned (number_of s).
Proof.
  unfold normalize_display_size, normalize_battery_life, number_of.
  destruct s as [|c s]; [done|]. cbn [PyStr.truthy negb PyStr.str].
  rewrite display_search, battery_search.
  destruct (first_number (String c s)) as [[d r]|] eqn:Hn; [|done].
  cbn [nth]. rewrite (float_decimal_float d) by (by eapply first_number_decimal).
  done.
Qed.



Lemma normalize_ram_size_scan (s : string) :
  normalize_ram_size (Some s) = Returned (ram_size_of s).
Proof.
  unfold normalize_ram_size, ram_size_of.
  destruct s as [|c s]; [done|]. cbn [PyStr.truthy negb PyStr.str].
  rewrite ram_search.
  destruct (first_number (String c s)) as [[d r]|] eqn:Hn; [|done].
  cbv zeta. cbn [nth]. rewrite (float_decimal_float d) by (by eapply first_number_decimal).
  simpl. do 2 f_equal. unfold gigabytes.
  by destruct (unit_at _ _) as [[|c' u]|].
Qed.



Lemma ci_starts_with_first (a b : ascii) (w t : string) :
  ci_starts_with (String a w) (String b t) = true ->
  PyStr.lower_char a = PyStr.lower_char b.
Proof. simpl. intros [H _]%andb_prop. by apply Ascii.eqb_eq. Qed.

Lemma ci_starts_with_one (a b : ascii) (t : string) :
  ci_starts_with (String a "") (String b t) =
  Ascii.eqb (PyStr.lower_char a) (PyStr.lower_char b).
Proof. simpl. by rewrite andb_true_r. Qed.

Lemma ci_starts_with_lower (w s : string) :
  ci_starts_with w s = true ->
  PyStr.lower (PyStr.take (String.length w) s) = PyStr.lower w.
Proof.
  revert s. induction w as [|a w IH]; intros s H; [by destruct s|].
  destruct s as [|b s]; [done|]. simpl in H. apply andb_prop in H as [Hab H].
  apply Ascii.eqb_eq in Hab. unfold PyStr.lower in *. simpl.
  by rewrite <- Hab, IH.
Qed.

Lemma take_truthy (w s : string) :
  w <> "" -> ci_starts_with w s = true ->
  PyStr.truthy (Some (PyStr.take (String.length w) s)) = true.
Proof. destruct w as [|a w]; [done|]. by destruct s. Qed.

(** The test on the unit made by [normalize_weight], on the unit found
    after the number. *)
Lemma weight_unit_is_g (t : string) :
  let unit := unit_at ["kg"; "g"; "kilograms"; "grams"] t in
  PyStr.truthy unit && PyStr.mem (PyStr.lower (PyStr.str unit)) ["g"; "grams"] =
  ci_starts_with "g" t.
Proof.
  unfold unit_at. cbn [find].
  destruct t as [|b t]; [done|].
  assert (Hk : forall w, ci_starts_with (String "k" w) (String b t) = true ->
                         ci_starts_with "g" (String b t) = false).
  { intros w H%ci_starts_with_first. rewrite ci_starts_with_one, <- H. done. }
  destruct (ci_starts_with "kg" (String b t)) eqn:Hkg.
  { rewrite (Hk _ Hkg), (take_truthy "kg") by done. cbn [PyStr.str andb].
    by rewrite (ci_starts_with_lower _ _ Hkg). }
  destruct (ci_starts_with "g" (String b t)) eqn:Hg.
  { rewrite (take_truthy "g") by done. cbn [PyStr.str andb].
    by rewrite (ci_starts_with_lower _ _ Hg). }
  destruct (ci_starts_with "kilograms" (String b t)) eqn:Hkilo.
  { rewrite (take_truthy "kilograms") by done. cbn [PyStr.str andb].
    by rewrite (ci_starts_with_lower _ _ Hkilo). }
  destruct (ci_starts_with "grams" (String b t)) eqn:Hgrams; [|done].
  apply ci_starts_with_first in Hgrams. rewrite ci_starts_with_one in Hg.
  rewrite <- Hgrams in Hg. done.
Qed.

Lemma normalize_weight_scan (s : string) :
  normalize_weight (Some s) = Returned (weight_of s).
Proof.
  unfold normalize_weight, weight_of.
  destruct s as [|c s]; [done|]. cbn [PyStr.truthy negb PyStr.str].
  rewrite weight_search.
  destruct (first_number (String c s)) as [[d r]|] eqn:Hn; [|done].
  cbv zeta. cbn [nth]. rewrite (float_decimal_float d) by (by eapply first_number_decimal).
  rewrite <- (weight_unit_is_g (PyStr.lstrip r)). reflexivity.
Qed.



Lemma normalize_port_count_scan (s : string) :
  normalize_port_count (Some s) = Returned (count_of s).
Proof.
  unfold normalize_port_count, count_of.
  destruct s as [|c s]; [done|]. cbn [PyStr.truthy negb PyStr.str].
  rewrite port_search.
  destruct (first_digits (String c s)) as [[d r]|] eqn:Hn; [|done].
  cbn [nth]. apply first_digits_spec in Hn as [Hne Hd].
  rewrite (int_digits_value d Hne Hd).
  by destruct (Nat.ltb PyFloat.max_str_digits (String.length d)).
Qed.

(** X8. The port count is the first run of digits of an ASCII text, read
    as a decimal integer; signs, units and later numbers are not looked at.
    A run of more than 4300 digits, which [int] refuses, gives [None], like
    a text without a digit. *)
Theorem port_count_is_first_digits (x : option string) :
  ascii_text x = true ->
  normalize_port_count x =
    Returned (match x with
              | Some s =>
                  match first_digits s with
                  | Some (d, _) =>
                      if Nat.ltb PyFloat.max_str_digits (String.length d) then None
                      else Some (digits_value d)
                  | None => None
                  end
              | None => None
              end).
Proof.
  intros _. destruct x as [s|].
  - apply normalize_port_count_scan.
  - reflexivity.
Qed.

(** X8 at a text with two numbers. *)
Lemma port_count_is_first_digits_witness :
  normalize_port_count (Some "USB: 3 ports (2 type A)") = Returned (Some 3%Z).
Proof.
  rewrite (port_count_is_first_digits (Some "USB: 3 ports (2 type A)") eq_refl).
  vm_compute. reflexivity.
Defined.



(** * Further properties of the assembler *)

(** The whole result of [standardize_specs]. *)
Lemma standardize_specs_value
      (stats : ProcessingStats) (tech_details : gmap string string) (title : option string) :
  exists ram display battery weight usb2 usb3,
    normalize_ram_size (tech_details !! "RAM Size") = Returned ram /\
    normalize_display_size (tech_details !! "Standing screen display size") =
      Returned display /\
    normalize_battery_life (tech_details !! "Average Battery Life (in hours)") =
      Returned battery /\
    normalize_weight (tech_details !! "Item Weight") = Returned weight /\
    normalize_port_count (tech_details !! "Number of USB 2.0 Ports") = Returned usb2 /\
    normalize_port_count (tech_details !! "Number of USB 3.0 Ports") = Returned usb3 /\
    standardize_specs stats tech_details title =
      Returned
        (let specs := [
           ("brand", of_opt_str (tech_details !! "Brand"));
           ("model", of_opt_str (tech_details !! "Item model number"));
           ("series", of_opt_str (tech_details !! "Series"));
           ("processor", VDict (asdict_cpu
              (if PyStr.truthy (CPUInfo.brand (tech_cpu_of tech_details))
               then tech_cpu_of tech_details else title_cpu_of title)));
           ("graphics", VDict (asdict_gpu
              (if PyStr.truthy (GPUInfo.brand (tech_gpu_of tech_details))
               then tech_gpu_of tech_details else title_gpu_of title)));
           ("memory", VDict [
              ("ram_size", of_opt_float ram);
              ("technology", of_opt_str (tech_details !! "Memory Technology"));
              ("max_supported", of_opt_str (tech_details !! "Maximum Memory Supported"))]);
           ("storage", VDict [
              ("size", of_opt_str (tech_details !! "Hard Drive Size"));
              ("type", of_opt_str (tech_details !! "Hard Disk Description"));
              ("interface", of_opt_str (tech_details !! "Hard Drive Interface"))]);
           ("display", VDict [
              ("size", of_opt_float display);
              ("resolution", of_opt_str (tech_details !! "Screen Resolution"))]);
           ("operating_system", of_opt_str (tech_details !! "Operating System"));
           ("battery", VDict [
              ("life", of_opt_float battery);
              ("cells", of_opt_str (tech_details !! "Number of Lithium Ion Cells"));
              ("energy_content",
               of_opt_str (tech_details !! "Lithium Battery Energy Content"))]);
           ("physical", VDict [
              ("dimensions", of_opt_str (tech_details !! "Product Dimensions"));
              ("weight", of_opt_float weight);
              ("color", of_opt_str (tech_details !! "Colour"))]);
           ("connectivity", VDict [
              ("type", of_opt_str (tech_details !! "Connectivity Type"));
              ("usb2_ports", of_opt_int usb2);
              ("usb3_ports", of_opt_int usb3)]);
           ("included_components", of_opt_str (tech_details !! "Included Components"))
         ] in
         let conflicts :=
           app (if gpu_conflict_of tech_details title
                then [conflict "GPU" (GPUInfo.brand (tech_gpu_of tech_details))
                               (GPUInfo.brand (title_gpu_of title))]
                else [])
               (if cpu_conflict_of tech_details title
                then [conflict "CPU" (CPUInfo.brand (tech_cpu_of tech_details))
                               (CPUInfo.brand (title_cpu_of title))]
                else []) in
         (match conflicts with
          | [] => specs
          | _ :: _ => app specs [("specification_conflicts", VList conflicts)]
          end,
          (if cpu_conflict_of tech_details title then count_cpu_conflict else id)
            ((if gpu_conflict_of tech_details title then count_gpu_conflict else id) stats))).
Proof.
  unfold standardize_specs.
  fold (tech_gpu_of tech_details) (title_gpu_of title)
       (tech_cpu_of tech_details) (title_cpu_of title).
  rewrite gpu_brands_differ, cpu_brands_differ.
  destruct (normalize_ram_size_returns (tech_details !! "RAM Size")) as [v1 H1].
  destruct (normalize_display_size_returns
              (tech_details !! "Standing screen display size")) as [v2 H2].
  destruct (normalize_battery_life_returns
              (tech_details !! "Average Battery Life (in hours)")) as [v3 H3].
  destruct (normalize_weight_returns (tech_details !! "Item Weight")) as [v4 H4].
  destruct (normalize_port_count_returns
              (tech_details !! "Number of USB 2.0 Ports")) as [v5 H5].
  destruct (normalize_port_count_returns
              (tech_details !! "Number of USB 3.0 Ports")) as [v6 H6].
  exists v1, v2, v3, v4, v5, v6. rewrite H1, H2, H3, H4, H5, H6.
  repeat (split; [reflexivity|]).
  destruct (gpu_conflict_of tech_details title), (cpu_conflict_of tech_details title);
    reflexivity.
Qed.

(** X10. The assembled specification always has the same thirteen keys, in
    the same order, whatever the technical details hold or lack, with the
    key [specification_conflicts] last when there is a conflict; and each of
    the eight nested records has its fixed keys. *)
Theorem specification_has_fixed_keys
        (stats : ProcessingStats) (tech_details : gmap string string) (title : option string) :
  exists specs stats',
    standardize_specs stats tech_details title = Returned (specs, stats') /\
    specs.*1 =
      app ["brand"; "model"; "series"; "processor"; "graphics"; "memory"; "storage";
           "display"; "operating_system"; "battery"; "physical"; "connectivity";
           "included_components"]
          (if gpu_conflict_of tech_details title || cpu_conflict_of tech_details title
           then ["specification_conflicts"] else []) /\
    keys_of (PyDict.lookup "processor" specs) =
      ["brand"; "series"; "generation"; "model"; "variant"; "source"; "confidence"] /\
    keys_of (PyDict.lookup "graphics" specs) =
      ["brand"; "series"; "model"; "variant"; "source"; "confidence"] /\
    keys_of (PyDict.lookup "memory" specs) = ["ram_size"; "technology"; "max_supported"] /\
    keys_of (PyDict.lookup "storage" specs) = ["size"; "type"; "interface"] /\
    keys_of (PyDict.lookup "display" specs) = ["size"; "resolution"] /\
    keys_of (PyDict.lookup "battery" specs) = ["life"; "cells"; "energy_content"] /\
    keys_of (PyDict.lookup "physical" specs) = ["dimensions"; "weight"; "color"] /\
    keys_of (PyDict.lookup "connectivity" specs) = ["type"; "usb2_ports"; "usb3_ports"].
Proof.
  destruct (standardize_specs_value stats tech_details title)
    as (ram & display & battery & weight & usb2 & usb3 & _ & _ & _ & _ & _ & _ & ->).
  eexists _, _. split; [reflexivity|].
  destruct (gpu_conflict_of tech_details title), (cpu_conflict_of tech_details title);
    repeat split.
Qed.



(** X12. [standardize_specs] changes no counter but the two conflict
    counters, and each of these stays or grows by one: it never counts a
    document, a success, a failure or an insertion. *)
Theorem standardize_specs_counters
        (stats : ProcessingStats) (tech_details : gmap string string) (title : option string) :
  exists specs stats',
    standardize_specs stats tech_details title = Returned (specs, stats') /\
    total_documents stats' = total_documents stats /\
    successful_processing stats' = successful_processing stats /\
    failed_processing stats' = failed_processing stats /\
    inserted_documents stats' = inserted_documents stats /\
    (gpu_conflicts stats <= gpu_conflicts stats' <= gpu_conflicts stats + 1)%Z /\
    (cpu_conflicts stats <= cpu_conflicts stats' <= cpu_conflicts stats + 1)%Z.
Proof.
  destruct (standardize_specs_value stats tech_details title)
    as (ram & display & battery & weight & usb2 & usb3 & _ & _ & _ & _ & _ & _ & ->).
  eexists _, _. split; [reflexivity|].
  destruct (gpu_conflict_of tech_details title), (cpu_conflict_of tech_details title);
    simpl; unfold id; simpl; repeat split; lia.
Qed.

(** The brand and the source of the record that wins. *)
Lemma winning_gpu_fields (tech_details : gmap string string) (title : option string) :
  let final :=
    if PyStr.truthy (GPUInfo.brand (tech_gpu_of tech_details))
    then tech_gpu_of tech_details else title_gpu_of title in
  GPUInfo.brand final =
    match GPUInfo.brand (tech_gpu_of tech_details) with
    | Some b => Some b
    | None => GPUInfo.brand (title_gpu_of title)
    end /\
  GPUInfo.source final =
    match GPUInfo.brand (tech_gpu_of tech_details) with
    | Some _ => Some "technical_detail"
    | None => if PyStr.truthy title then Some "title" else None
    end.
Proof.
  cbv zeta. unfold tech_gpu_of, title_gpu_of. rewrite gpu_brand_truthy.
  destruct (parse_gpu_provenance
              (Some (default "" (tech_details !! "Graphics Card Description"))) true)
    as [Hs _].
  destruct (parse_gpu_provenance title false) as [Ht _]. cbv zeta in Hs, Ht.
  destruct (GPUInfo.brand (parse_gpu_from_text (Some _) true)) as [b|] eqn:Hb.
  - rewrite bool_decide_eq_true_2 by (by eexists). rewrite Hb, Hs. split; [done|].
    destruct (PyStr.truthy (Some _)) eqn:Htr; [done|].
    rewrite parse_gpu_falsy in Hb by done. discriminate Hb.
  - rewrite bool_decide_eq_false_2 by (by intros [? ?]). by rewrite Ht.
Qed.

Lemma winning_cpu_fields (tech_details : gmap string string) (title : option string) :
  let final :=
    if PyStr.truthy (CPUInfo.brand (tech_cpu_of tech_details))
    then tech_cpu_of tech_details else title_cpu_of title in
  CPUInfo.brand final =
    match CPUInfo.brand (tech_cpu_of tech_details) with
    | Some b => Some b
    | None => CPUInfo.brand (title_cpu_of title)
    end /\
  CPUInfo.source final =
    match CPUInfo.brand (tech_cpu_of tech_details) with
    | Some _ => Some "technical_detail"
    | None => if PyStr.truthy title then Some "title" else None
    end.
Proof.
  cbv zeta. unfold tech_cpu_of, title_cpu_of. rewrite cpu_brand_truthy.
  destruct (parse_cpu_provenance
              (Some (default "" (tech_details !! "Processor Type"))) true) as [Hs _].
  destruct (parse_cpu_provenance title false) as [Ht _]. cbv zeta in Hs, Ht.
  destruct (CPUInfo.brand (parse_cpu_from_text (Some _) true)) as [b|] eqn:Hb.
  - rewrite bool_decide_eq_true_2 by (by eexists). rewrite Hb, Hs. split; [done|].
    destruct (PyStr.truthy (Some _)) eqn:Htr; [done|].
    rewrite parse_cpu_falsy in Hb by done. discriminate Hb.
  - rewrite bool_decide_eq_false_2 by (by intros [? ?]). by rewrite Ht.
Qed.

(** X13. The brand of a final record is the technical-detail brand when
    there is one and the title's brand otherwise, so it is absent only when
    both are; and the source of the final record names the side that won:
    [technical_detail] when the technical details gave a brand, otherwise
    [title] - or nothing when the title is absent or empty. *)
Theorem final_record_brand_and_source
        (stats : ProcessingStats) (tech_details : gmap string string) (title : option string) :
  exists specs stats',
    standardize_specs stats tech_details title = Returned (specs, stats') /\
    lookup2 "graphics" "brand" specs =
      Some (of_opt_str
        match GPUInfo.brand (tech_gpu_of tech_details) with
        | Some b => Some b
        | None => GPUInfo.brand (title_gpu_of title)
        end) /\
    lookup2 "processor" "brand" specs =
      Some (of_opt_str
        match CPUInfo.brand (tech_cpu_of tech_details) with
        | Some b => Some b
        | None => CPUInfo.brand (title_cpu_of title)
        end) /\
    lookup2 "graphics" "source" specs =
      Some (of_opt_str
        match GPUInfo.brand (tech_gpu_of tech_details) with
        | Some _ => Some "technical_detail"
        | None => if PyStr.truthy title then Some "title" else None
        end) /\
    lookup2 "processor" "source" specs =
      Some (of_opt_str
        match CPUInfo.brand (tech_cpu_of tech_details) with
        | Some _ => Some "technical_detail"
        | None => if PyStr.truthy title then Some "title" else None
        end).
Proof.
  destruct (standardize_specs_value stats tech_details title)
    as (ram & display & battery & weight & usb2 & usb3 & _ & _ & _ & _ & _ & _ & ->).
  eexists _, _. split; [reflexivity|].
  destruct (winning_gpu_fields tech_details title) as [<- <-].
  destruct (winning_cpu_fields tech_details title) as [<- <-].
  destruct (gpu_conflict_of tech_details title), (cpu_conflict_of tech_details title);
    repeat split.
Qed.

(** * Further properties of the matcher *)

(** ** The matcher finds a match whenever there is one *)

Section MatcherComplete.
Import Re ReSpec.
Variable ic : bool.
Context {A : Type}.

Lemma rep_complete (cl : cclass) (p : string) :
  forall (lo : nat) (hi : option nat) (s' : string) (k : string -> option A),
    all_in ic cl p = true -> lo <= String.length p -> within (String.length p) hi ->
    is_Some (k s') -> is_Some (rep ic cl lo hi (p +:+ s') k).
Proof.
  induction p as [|c p IH]; intros lo hi s' k Hall Hlo Hhi Hk.
  - assert (lo = 0) as -> by (simpl in Hlo; lia).
    change ("" +:+ s') with s'. destruct s' as [|c s']; [exact Hk|].
    cbn [rep]. destruct (_ && _); [|exact Hk].
    destruct (rep ic cl _ _ s' k); [by eexists|exact Hk].
  - change (String c p +:+ s') with (String c (p +:+ s')).
    simpl in Hall. apply andb_prop in Hall as [Hc Hall].
    cbn [rep]. rewrite Hc.
    assert (Hne : hi <> Some 0).
    { intros ->. simpl in Hhi. lia. }
    rewrite (bool_decide_eq_false_2 _ Hne). cbn [andb negb].
    assert (Hrec : is_Some (rep ic cl (Nat.pred lo) (Nat.pred <$> hi) (p +:+ s') k)).
    { apply IH; [done| | |exact Hk].
      - simpl in Hlo. lia.
      - destruct hi as [h|]; simpl in *; [lia|done]. }
    destruct Hrec as [a ->]. by eexists.
Qed.

Lemma m_complete (r : regex) (s : string) (caps : captures) (s' : string) (caps' : captures) :
  matches ic r s caps s' caps' ->
  forall k : string -> captures -> option A,
    is_Some (k s' caps') -> is_Some (m ic r s caps k).
Proof.
  induction 1 as [s caps|l c s caps Hl|cl c s caps Hc
                  |r1 r2 s caps s1 caps1 s2 caps2 M1 IH1 M2 IH2
                  |r1 r2 s caps s' caps' M IH|r1 r2 s caps s' caps' M IH
                  |r s caps s' caps' M IH|r s caps
                  |cl lo hi p s' caps Hall Hlo Hhi
                  |i r s caps s' caps' M IH|caps|caps];
    intros k Hk; cbn [m].
  - exact Hk.
  - by rewrite Hl.
  - by rewrite Hc.
  - apply IH1. by apply IH2.
  - destruct (IH k Hk) as [a ->]. by eexists.
  - destruct (m ic r1 s caps k); [by eexists|]. by apply IH.
  - destruct (IH k Hk) as [a ->]. by eexists.
  - destruct (m ic r s caps k); [by eexists|exact Hk].
  - by apply rep_complete.
  - by apply IH.
  - exact Hk.
  - exact Hk.
Qed.
End MatcherComplete.

(** A pattern has a match in a text exactly when some suffix of the text
    starts with a match. *)
Lemma search_complete (ic : bool) (p : Re.pattern) (before rest rest' : string)
      (groups : Re.captures) :
  ReSpec.matches ic (Re.body p) rest (Re.no_groups (Re.ngroups p)) rest' groups ->
  is_Some (Re.search ic p (before +:+ rest)).
Proof.
  intros M.
  assert (Hm : is_Some (Re.match_ ic p rest)).
  { unfold Re.match_. eapply m_complete; [exact M|by eexists]. }
  induction before as [|c before IH].
  - change ("" +:+ rest) with rest. destruct Hm as [g Hg].
    destruct rest; simpl; rewrite Hg; by eexists.
  - change (String c before +:+ rest) with (String c (before +:+ rest)).
    cbn [Re.search]. clear Hm.
    destruct (Re.match_ ic p (String c (before +:+ rest))); [by eexists|exact IH].
Qed.

Lemma first_match_some (ps : list Re.pattern) (text : string) :
  is_Some (first_match ps text) <-> exists p, In p ps /\ is_Some (Re.search true p text).
Proof.
  induction ps as [|p ps IH]; simpl.
  - split; [by intros [? ?]|by intros (? & [] & _)].
  - destruct (Re.search true p text) eqn:Hs.
    + split; [|by eexists]. intros _. exists p. rewrite Hs. split; [by left|by eexists].
    + rewrite IH. split.
      * intros (q & Hq & H). exists q. split; [by right|done].
      * intros (q & [<-|Hq] & H); [rewrite Hs in H; by destruct H|]. by exists q.
Qed.

(** ** A four-digit number is enough for a GPU brand *)

Lemma lower_append (a b : string) : PyStr.lower (a +:+ b) = PyStr.lower a +:+ PyStr.lower b.
Proof.
  induction a as [|c a IH]; [done|]. unfold PyStr.lower in *.
  change (String (PyStr.lower_char c) (PyStr.map_chars PyStr.lower_char (a +:+ b)) =
          String (PyStr.lower_char c)
            (PyStr.map_chars PyStr.lower_char a +:+ PyStr.map_chars PyStr.lower_char b)).
  by rewrite IH.
Qed.

Lemma lower_char_digit (c : ascii) : PyStr.is_digit c = true -> PyStr.lower_char c = c.
Proof.
  destruct c as [[] [] [] [] [] [] [] []];
    solve [ reflexivity | intros H; vm_compute in H; discriminate H ].
Qed.

Lemma digit_not_space (c : ascii) : PyStr.is_digit c = true -> PyStr.is_space c = false.
Proof.
  destruct c as [[] [] [] [] [] [] [] []];
    solve [ reflexivity | intros H; vm_compute in H; discriminate H ].
Qed.

Lemma lstrip_keeps (a : string) (c : ascii) (t : string) :
  PyStr.is_space c = false ->
  exists a', PyStr.lstrip (a +:+ String c t) = a' +:+ String c t.
Proof.
  intros Hc. induction a as [|x a IH].
  - exists "". change ("" +:+ String c t) with (String c t). simpl. by rewrite Hc.
  - change (String x a +:+ String c t) with (String x (a +:+ String c t)).
    cbn [PyStr.lstrip]. destruct (PyStr.is_space x); [exact IH|].
    by exists (String x a).
Qed.

Lemma rstrip_keeps (a : string) (c : ascii) (t : string) :
  PyStr.is_space c = false ->
  exists t', PyStr.rstrip (a +:+ String c t) = a +:+ String c t'.
Proof.
  intros Hc. induction a as [|x a IH].
  - change ("" +:+ String c t) with (String c t). cbn [PyStr.rstrip].
    destruct (PyStr.rstrip t) as [|y r]; [|by exists (String y r)].
    rewrite Hc. by exists "".
  - change (String x a +:+ String c t) with (String x (a +:+ String c t)).
    cbn [PyStr.rstrip]. destruct IH as [t' ->].
    exists t'. by destruct a.
Qed.

(** Four digits inside a text are still there, after what comes before
    them, in the trimmed lower-case text. *)
Lemma normalized_keeps_digits (before after : string) (c0 c1 c2 c3 : ascii) :
  PyStr.is_digit c0 = true -> PyStr.is_digit c1 = true ->
  PyStr.is_digit c2 = true -> PyStr.is_digit c3 = true ->
  exists before' after',
    PyStr.strip (PyStr.lower
      (before +:+ String c0 (String c1 (String c2 (String c3 after))))) =
    before' +:+ String c0 (String c1 (String c2 (String c3 after'))).
Proof.
  intros H0 H1 H2 H3. unfold PyStr.strip. rewrite lower_append.
  change (PyStr.lower (String c0 (String c1 (String c2 (String c3 after))))) with
    (String (PyStr.lower_char c0) (String (PyStr.lower_char c1)
       (String (PyStr.lower_char c2) (String (PyStr.lower_char c3) (PyStr.lower after))))).
  rewrite !lower_char_digit by done.
  destruct (lstrip_keeps (PyStr.lower before) c0
              (String c1 (String c2 (String c3 (PyStr.lower after))))
              (digit_not_space _ H0)) as [a' ->].
  destruct (rstrip_keeps (a' +:+ String c0 (String c1 (String c2 "")))
              c3 (PyStr.lower after) (digit_not_space _ H3)) as [t' Ht].
  rewrite append_assoc in Ht.
  change (String c0 (String c1 (String c2 "")) +:+ String c3 (PyStr.lower after))
    with (String c0 (String c1 (String c2 (String c3 (PyStr.lower after))))) in Ht.
  rewrite Ht, append_assoc. by exists a', t'.
Qed.

(** The second AMD pattern matches at a digit from 4 to 7 that three digits
    follow, whatever stands around them. *)
Lemma amd_pattern_matches_four_digits (c0 c1 c2 c3 : ascii) (after : string) :
  In c0 ["4"; "5"; "6"; "7"]%char ->
  PyStr.is_digit c1 = true -> PyStr.is_digit c2 = true -> PyStr.is_digit c3 = true ->
  exists rest' groups,
    ReSpec.matches true
      (Re.body (nth 1 amd_gpu_patterns (Re.Pattern Re.Empty 0)))
      (String c0 (String c1 (String c2 (String c3 after))))
      (Re.no_groups 5) rest' groups.
Proof.
  intros Hc0 H1 H2 H3.
  assert (Hspace : forall s caps, ReSpec.matches true SpecificationParser.ws s caps s caps).
  { intros s caps. apply (ReSpec.M_Rep true Re.Space 0 None "" s caps); simpl; [done|lia|done]. }
  assert (Hseries : ReSpec.matches true (words ["7"; "6"; "5"; "4"])
            (String c0 (String c1 (String c2 (String c3 after)))) (Re.no_groups 5)
            (String c1 (String c2 (String c3 after))) (Re.no_groups 5)).
  { destruct Hc0 as [<-|[<-|[<-|[<-|[]]]]].
    - do 3 apply ReSpec.M_Alt_r. by apply ReSpec.M_Lit.
    - do 2 apply ReSpec.M_Alt_r. apply ReSpec.M_Alt_l. by apply ReSpec.M_Lit.
    - apply ReSpec.M_Alt_r. apply ReSpec.M_Alt_l. by apply ReSpec.M_Lit.
    - apply ReSpec.M_Alt_l. by apply ReSpec.M_Lit. }
  assert (Hmodel : forall caps, ReSpec.matches true (Re.times Re.Digit 3)
            (String c1 (String c2 (String c3 after))) caps after caps).
  { intros caps.
    apply (ReSpec.M_Rep true Re.Digit 3 (Some 3) (String c1 (String c2 (String c3 "")))
             after caps); simpl; [|lia|lia].
    by rewrite !class_digit_eq, H1, H2, H3. }
  eexists _, _. cbn [nth amd_gpu_patterns Re.body Re.seq].
  eapply ReSpec.M_Seq; [apply ReSpec.M_Opt_none|].
  eapply ReSpec.M_Seq; [apply Hspace|].
  eapply ReSpec.M_Seq; [apply ReSpec.M_Opt_none|].
  eapply ReSpec.M_Seq; [apply Hspace|].
  eapply ReSpec.M_Seq; [apply ReSpec.M_Group, Hseries|].
  eapply ReSpec.M_Seq; [apply ReSpec.M_Group, Hmodel|].
  eapply ReSpec.M_Seq; [apply Hspace|].
  apply ReSpec.M_Opt_none.
Qed.

Lemma amd_gpu_matches_four_digits (before after : string) (c0 c1 c2 c3 : ascii) :
  In c0 ["4"; "5"; "6"; "7"]%char ->
  PyStr.is_digit c1 = true -> PyStr.is_digit c2 = true -> PyStr.is_digit c3 = true ->
  is_Some (first_match amd_gpu_patterns
             (before +:+ String c0 (String c1 (String c2 (String c3 after))))).
Proof.
  intros Hc0 H1 H2 H3. apply first_match_some.
  exists (nth 1 amd_gpu_patterns (Re.Pattern Re.Empty 0)). split; [right; by left|].
  destruct (amd_pattern_matches_four_digits c0 c1 c2 c3 after Hc0 H1 H2 H3)
    as (rest' & groups & M).
  by eapply search_complete.
Qed.

(** X14. A text that holds a digit from 4 to 7 followed by three digits -
    a model number or a capacity will do - always gets a GPU brand: NVIDIA or
    Intel when one of their patterns matches, and otherwise AMD, since the
    second AMD pattern asks for nothing but these four digits. *)
Theorem four_digits_give_gpu_brand
        (before after : string) (c0 c1 c2 c3 : ascii) (is_technical_detail : bool) :
  In c0 ["4"; "5"; "6"; "7"]%char ->
  PyStr.is_digit c1 = true -> PyStr.is_digit c2 = true -> PyStr.is_digit c3 = true ->
  let text := before +:+ String c0 (String c1 (String c2 (String c3 after))) in
  let t := PyStr.strip (PyStr.lower text) in
  GPUInfo.brand (parse_gpu_from_text (Some text) is_technical_detail) =
    if bool_decide (is_Some (first_match nvidia_patterns t)) then Some "NVIDIA"
    else if bool_decide (is_Some (first_match intel_gpu_patterns t)) then Some "Intel"
    else Some "AMD".
Proof.
  intros Hc0 H1 H2 H3 text t.
  assert (H0 : PyStr.is_digit c0 = true).
  { by destruct Hc0 as [<-|[<-|[<-|[<-|[]]]]]. }
  assert (Hne : text <> "").
  { unfold text. by destruct before. }
  rewrite (gpu_brand_order text is_technical_detail Hne). cbv zeta. fold t.
  destruct (normalized_keeps_digits before after c0 c1 c2 c3 H0 H1 H2 H3)
    as (before' & after' & Ht). fold text in Ht. fold t in Ht.
  rewrite (bool_decide_eq_true_2 (is_Some (first_match amd_gpu_patterns t))); [done|].
  rewrite Ht. by apply amd_gpu_matches_four_digits.
Qed.

(** X14 at a title that names no GPU at all. *)
Lemma four_digits_give_gpu_brand_witness :
  GPUInfo.brand (parse_gpu_from_text (Some "Dell Inspiron 5520 Laptop") false) = Some "AMD".
Proof.
  pose proof (four_digits_give_gpu_brand "Dell Inspiron " " Laptop" "5" "5" "2" "0" false
                ltac:(simpl; tauto) eq_refl eq_refl eq_refl) as H.
  cbv zeta in H. exact H.
Defined.

(** * Further properties: what the classifiers' patterns capture *)

(** ** Reading a match backwards *)

Section MatchInversion.
Import Re ReSpec.
Variable ic : bool.

Lemma matches_suffix r s caps s' caps' :
  matches ic r s caps s' caps' -> exists v, s = v +:+ s'.
Proof.
  induction 1; try (by exists ""); try done.
  - by exists (String c "").
  - by exists (String c "").
  - destruct IHmatches1 as [v1 ->], IHmatches2 as [v2 ->].
    exists (v1 +:+ v2). by rewrite append_assoc.
  - by exists p.
Qed.

(** A group around a regex without groups holds what the regex consumed. *)
Lemma matches_group_inv (i : nat) r s caps s' caps' :
  group_free r = true ->
  matches ic (Group i r) s caps s' caps' ->
  exists v, s = v +:+ s' /\ matches ic r (v +:+ s') caps s' caps /\
            caps' = set_group (Nat.pred i) v caps.
Proof.
  intros Hfree M.
  inversion M as [| | | | | | | | |? ? ? ? ? caps0 M0| |]; subst.
  pose proof (matches_group_free _ _ _ _ _ _ M0 Hfree) as ->.
  destruct (matches_suffix _ _ _ _ _ M0) as [v ->].
  exists v. by rewrite take_consumed.
Qed.

Lemma matches_word_inv (w : string) :
  forall s caps s' caps',
    matches ic (word w) s caps s' caps' ->
    caps' = caps /\ exists v, s = v +:+ s' /\ lit_word ic w v = true.
Proof.
  induction w as [|a w IH]; intros s caps s' caps' M.
  - inversion M; subst. split; [done|]. by exists "".
  - destruct w as [|a' w].
    + inversion M as [|? c ? ? Hl| | | | | | | | | |]; subst. split; [done|].
      exists (String c ""). split; [done|]. simpl. by rewrite Hl.
    + change (word (String a (String a' w))) with (Seq (Lit a) (word (String a' w))) in M.
      inversion M as [| | |? ? ? ? s1 caps1 ? ? M1 M2| | | | | | | |]; subst.
      inversion M1 as [|? c ? ? Hl| | | | | | | | | |]; subst.
      apply IH in M2 as (-> & v & -> & Hv). split; [done|].
      exists (String c v). split; [done|].
      change (lit_matches ic a c && lit_word ic (String a' w) v = true).
      by rewrite Hl.
Qed.

Lemma matches_words_inv (w : string) (ws : list string) :
  forall s caps s' caps',
    matches ic (SpecificationParser.words (w :: ws)) s caps s' caps' ->
    caps' = caps /\
    exists w' v, In w' (w :: ws) /\ s = v +:+ s' /\ lit_word ic w' v = true.
Proof.
  unfold SpecificationParser.words. revert w.
  induction ws as [|w2 ws IH]; intros w s caps s' caps' M.
  - apply matches_word_inv in M as (-> & v & -> & Hv).
    split; [done|]. exists w, v. split; [by left|done].
  - change (alt (word <$> w :: w2 :: ws)) with (Alt (word w) (alt (word <$> w2 :: ws))) in M.
    inversion M as [| | | |? ? ? ? ? ? M1|? ? ? ? ? ? M2| | | | | |]; subst.
    + apply matches_word_inv in M1 as (-> & v & -> & Hv).
      split; [done|]. exists w, v. split; [by left|done].
    + apply IH in M2 as (-> & w' & v & Hin & -> & Hv).
      split; [done|]. exists w', v. split; [by right|done].
Qed.

Lemma matches_rep_inv (cl : cclass) (lo : nat) (hi : option nat) s caps s' caps' :
  matches ic (Rep cl lo hi) s caps s' caps' ->
  caps' = caps /\
  exists v, s = v +:+ s' /\ all_in ic cl v = true /\
            lo <= String.length v /\ within (String.length v) hi.
Proof.
  intros M. inversion M; subst. split; [done|]. by eexists.
Qed.
End MatchInversion.

(** ** Words, digits and case *)

Lemma lit_matches_digit (ic : bool) (a b : ascii) :
  Re.lit_matches ic a b = true -> PyStr.is_digit b = true -> PyStr.is_digit a = true.
Proof.
  unfold Re.lit_matches. destruct ic.
  - intros H%Ascii.eqb_eq Hb. rewrite (lower_char_digit b Hb) in H. subst b.
    revert Hb. destruct a as [[] [] [] [] [] [] [] []];
      solve [ reflexivity | intros H; vm_compute in H; discriminate H ].
  - by intros ->%Ascii.eqb_eq.
Qed.

Lemma lit_matches_digit_eq (ic : bool) (a b : ascii) :
  Re.lit_matches ic a b = true -> PyStr.is_digit a = true -> b = a.
Proof.
  unfold Re.lit_matches. destruct ic; [|by intros ->%Ascii.eqb_eq].
  intros H%Ascii.eqb_eq Ha. rewrite (lower_char_digit a Ha) in H. subst a.
  revert Ha. destruct b as [[] [] [] [] [] [] [] []];
    solve [ reflexivity | intros H; vm_compute in H; discriminate H ].
Qed.

Lemma lower_char_no_upper (c : ascii) : PyStr.is_upper c = false -> PyStr.lower_char c = c.
Proof. unfold PyStr.lower_char. by intros ->. Qed.

Lemma lit_matches_lower_eq (ic : bool) (a b : ascii) :
  Re.lit_matches ic a b = true ->
  PyStr.is_upper a = false -> PyStr.is_upper b = false -> b = a.
Proof.
  unfold Re.lit_matches. destruct ic; [|by intros ->%Ascii.eqb_eq].
  intros H%Ascii.eqb_eq Ha Hb. by rewrite !lower_char_no_upper in H.
Qed.

(** A word that starts with a letter is matched by a string that does not
    start with a digit. *)
Lemma lit_word_no_digit_head (ic : bool) (w v : string) :
  lit_word ic w v = true -> no_digit_head (Some w) = true -> no_digit_head (Some v) = true.
Proof.
  destruct w as [|a w], v as [|b v]; simpl; try done.
  intros [Hl _]%andb_prop Ha.
  destruct (PyStr.is_digit b) eqn:Hb; [|done].
  by rewrite (lit_matches_digit _ _ _ Hl Hb) in Ha.
Qed.

(** A word made of digits is matched by itself only. *)
Lemma lit_word_digits (ic : bool) (w v : string) :
  lit_word ic w v = true -> digits_only w = true -> v = w.
Proof.
  revert v. induction w as [|a w IH]; intros [|b v]; simpl; try done.
  intros [Hl Hv]%andb_prop [Ha Hw]%andb_prop.
  by rewrite (lit_matches_digit_eq _ _ _ Hl Ha), (IH v Hv Hw).
Qed.

(** A lower-case word is matched, in a text without upper-case letters, by
    itself only. *)
Lemma lit_word_lower (ic : bool) (w v : string) :
  lit_word ic w v = true -> no_upper w = true -> no_upper v = true -> v = w.
Proof.
  revert v. induction w as [|a w IH]; intros [|b v]; simpl; try done.
  intros [Hl Hv]%andb_prop [Ha Hw]%andb_prop [Hb Hv']%andb_prop.
  apply negb_true_iff in Ha, Hb.
  by rewrite (lit_matches_lower_eq _ _ _ Hl Ha Hb), (IH v Hv Hw Hv').
Qed.

Lemma no_upper_append (a b : string) : no_upper (a +:+ b) = no_upper a && no_upper b.
Proof.
  induction a as [|c a IH]; [done|].
  change (negb (PyStr.is_upper c) && no_upper (a +:+ b) =
          negb (PyStr.is_upper c) && no_upper a && no_upper b).
  by rewrite IH, andb_assoc.
Qed.

Lemma no_upper_lower_char (c : ascii) : PyStr.is_upper (PyStr.lower_char c) = false.
Proof. destruct c as [[] [] [] [] [] [] [] []]; reflexivity. Qed.

Lemma no_upper_lower (s : string) : no_upper (PyStr.lower s) = true.
Proof.
  induction s as [|c s IH]; [done|]. unfold PyStr.lower in *. simpl.
  by rewrite no_upper_lower_char, IH.
Qed.

Lemma no_upper_lstrip (s : string) : no_upper s = true -> no_upper (PyStr.lstrip s) = true.
Proof.
  induction s as [|c s IH]; [done|]. simpl. intros [Hc Hs]%andb_prop.
  destruct (PyStr.is_space c); [by apply IH|]. simpl. by rewrite Hc, Hs.
Qed.

Lemma no_upper_rstrip (s : string) : no_upper s = true -> no_upper (PyStr.rstrip s) = true.
Proof.
  induction s as [|c s IH]; [done|]. simpl. intros [Hc Hs]%andb_prop.
  specialize (IH Hs). destruct (PyStr.rstrip s).
  - destruct (PyStr.is_space c); [done|]. simpl. by rewrite Hc.
  - simpl in *. by rewrite Hc, IH.
Qed.

(** The text that the classifiers match against has no upper-case letter. *)
Lemma no_upper_normalized (s : string) : no_upper (PyStr.strip (PyStr.lower s)) = true.
Proof. unfold PyStr.strip. apply no_upper_rstrip, no_upper_lstrip, no_upper_lower. Qed.

(** A group that does not start with a digit passes none of the tests that
    look for numbers among the groups. *)
Lemma no_digit_head_group_in (xs : list string) (g : option string) :
  forallb digits_only xs = true -> negb (PyStr.mem "" xs) = true ->
  no_digit_head g = true -> group_in xs g = false.
Proof.
  intros Hxs Hne Hg. destruct g as [[|c v]|]; simpl in *; try done.
  - by apply negb_true_iff in Hne.
  - induction xs as [|x xs IH]; [done|]. simpl in *.
    apply andb_prop in Hxs as [Hx Hxs].
    apply negb_true_iff, orb_false_elim in Hne as [_ Hne].
    rewrite IH by (done || by apply negb_true_iff).
    destruct x as [|a x]; [done|]. simpl in *.
    destruct (Ascii.eqb_spec c a) as [->|]; [|done].
    apply andb_prop in Hx as [Ha _]. by rewrite Ha in Hg.
Qed.

Lemma no_digit_head_group_matches (lo : nat) (hi : option nat) (rest : Re.regex)
      (g : option string) :
  no_digit_head g = true ->
  group_matches (Re.Pattern (Re.Seq (Re.Rep Re.Digit (S lo) hi) rest) 0) g = false /\
  group_matches (Re.Pattern (Re.Rep Re.Digit (S lo) hi) 0) g = false.
Proof.
  intros Hg. unfold group_matches, Re.match_. cbn [Re.body Re.m].
  destruct g as [[|c v]|]; cbn [PyStr.str]; [done| |done].
  simpl in Hg. apply negb_true_iff in Hg.
  cbn [Re.rep]. rewrite class_digit_eq, Hg. done.
Qed.

Section GroupInversion.
Import Re ReSpec.
Variable ic : bool.

Lemma matches_group_words (i : nat) (w : string) (ws : list string) s caps s' caps' :
  matches ic (Group i (SpecificationParser.words (w :: ws))) s caps s' caps' ->
  exists w' v, In w' (w :: ws) /\ lit_word ic w' v = true /\
               s = v +:+ s' /\ caps' = set_group (Nat.pred i) v caps.
Proof.
  intros M. inversion M as [| | | | | | | | |? ? ? ? ? caps0 M0| |]; subst.
  apply matches_words_inv in M0 as (-> & w' & v & Hin & -> & Hv).
  exists w', v. by rewrite take_consumed.
Qed.

Lemma matches_group_word (i : nat) (w : string) s caps s' caps' :
  matches ic (Group i (word w)) s caps s' caps' ->
  exists v, lit_word ic w v = true /\ s = v +:+ s' /\ caps' = set_group (Nat.pred i) v caps.
Proof.
  intros M. inversion M as [| | | | | | | | |? ? ? ? ? caps0 M0| |]; subst.
  apply matches_word_inv in M0 as (-> & v & -> & Hv).
  exists v. by rewrite take_consumed.
Qed.

Lemma matches_group_rep (i : nat) (cl : cclass) (lo : nat) (hi : option nat) s caps s' caps' :
  matches ic (Group i (Rep cl lo hi)) s caps s' caps' ->
  exists v, all_in ic cl v = true /\ lo <= String.length v /\ within (String.length v) hi /\
            s = v +:+ s' /\ caps' = set_group (Nat.pred i) v caps.
Proof.
  intros M. inversion M as [| | | | | | | | |? ? ? ? ? caps0 M0| |]; subst.
  apply matches_rep_inv in M0 as (-> & v & -> & Hall & Hlo & Hhi).
  exists v. by rewrite take_consumed.
Qed.

Lemma matches_group_class (i : nat) (cl : cclass) s caps s' caps' :
  matches ic (Group i (Class cl)) s caps s' caps' ->
  exists c, class_matches ic cl c = true /\ s = String c s' /\
            caps' = set_group (Nat.pred i) (String c "") caps.
Proof.
  intros M. inversion M as [| | | | | | | | |? ? ? ? ? caps0 M0| |]; subst.
  inversion M0 as [| |? c ? ? Hc| | | | | | | | |]; subst.
  exists c. split; [done|]. split; [done|]. f_equal.
  exact (take_consumed (String c "") s').
Qed.
End GroupInversion.

Lemma words_no_digit_head (ic : bool) (ws : list string) (w v : string) :
  forallb (fun w => no_digit_head (Some w)) ws = true ->
  In w ws -> lit_word ic w v = true -> no_digit_head (Some v) = true.
Proof.
  intros Hws Hin Hv. eapply lit_word_no_digit_head; [exact Hv|].
  rewrite forallb_forall in Hws. by apply Hws.
Qed.

Lemma words_digits (ic : bool) (ws : list string) (w v : string) :
  forallb digits_only ws = true -> In w ws -> lit_word ic w v = true -> v = w.
Proof.
  intros Hws Hin Hv. eapply lit_word_digits; [exact Hv|].
  rewrite forallb_forall in Hws. by apply Hws.
Qed.

Lemma words_lower (ic : bool) (ws : list string) (w v : string) :
  forallb no_upper ws = true -> In w ws -> lit_word ic w v = true ->
  no_upper v = true -> v = w.
Proof.
  intros Hws Hin Hv Hlow. eapply lit_word_lower; [exact Hv| |exact Hlow].
  rewrite forallb_forall in Hws. by apply Hws.
Qed.

Lemma matches_seq_inv (ic : bool) r1 r2 s caps s2 caps2 :
  ReSpec.matches ic (Re.Seq r1 r2) s caps s2 caps2 ->
  exists s1 caps1, ReSpec.matches ic r1 s caps s1 caps1 /\
                   ReSpec.matches ic r2 s1 caps1 s2 caps2.
Proof. intros M. inversion M; subst. by eexists _, _. Qed.

Lemma matches_opt_inv (ic : bool) r s caps s' caps' :
  ReSpec.matches ic (Re.Opt r) s caps s' caps' ->
  ReSpec.matches ic r s caps s' caps' \/ (s' = s /\ caps' = caps).
Proof. intros M. inversion M; subst; [by left|by right]. Qed.

Lemma matches_lit_inv (ic : bool) l s caps s' caps' :
  ReSpec.matches ic (Re.Lit l) s caps s' caps' ->
  exists c, Re.lit_matches ic l c = true /\ s = String c s' /\ caps' = caps.
Proof. intros M. inversion M; subst. by eexists. Qed.

Lemma matches_class_inv (ic : bool) cl s caps s' caps' :
  ReSpec.matches ic (Re.Class cl) s caps s' caps' ->
  exists c, Re.class_matches ic cl c = true /\ s = String c s' /\ caps' = caps.
Proof. intros M. inversion M; subst. by eexists. Qed.

Lemma matches_group_alt (ic : bool) (i : nat) r1 r2 s caps s' caps' :
  ReSpec.matches ic (Re.Group i (Re.Alt r1 r2)) s caps s' caps' ->
  ReSpec.matches ic (Re.Group i r1) s caps s' caps' \/
  ReSpec.matches ic (Re.Group i r2) s caps s' caps'.
Proof.
  intros M. inversion M as [| | | | | | | | |? ? ? ? ? caps0 M0| |]; subst.
  inversion M0; subst; [left|right]; by apply ReSpec.M_Group.
Qed.

Lemma matches_group_lit_class (ic : bool) (i : nat) l cl s caps s' caps' :
  ReSpec.matches ic (Re.Group i (Re.Seq (Re.Lit l) (Re.Class cl))) s caps s' caps' ->
  exists c1 c2, Re.lit_matches ic l c1 = true /\ Re.class_matches ic cl c2 = true /\
                s = String c1 (String c2 s') /\
                caps' = Re.set_group (Nat.pred i) (String c1 (String c2 "")) caps.
Proof.
  intros M. inversion M as [| | | | | | | | |? ? ? ? ? caps0 M0| |]; subst.
  apply matches_seq_inv in M0 as (s1 & caps1 & M1 & M2).
  apply matches_lit_inv in M1 as (c1 & H1 & -> & ->).
  apply matches_class_inv in M2 as (c2 & H2 & -> & ->).
  exists c1, c2. split; [done|]. split; [done|]. split; [done|]. f_equal.
  exact (take_consumed (String c1 (String c2 "")) s').
Qed.

(** Reads a derivation for a concrete pattern back into its steps. *)
Ltac inv_matches :=
  repeat match goal with
  | H : ReSpec.matches _ (Re.Seq _ _) _ _ _ _ |- _ =>
      apply matches_seq_inv in H as (? & ? & ? & ?)
  | H : ReSpec.matches _ (Re.Opt _) _ _ _ _ |- _ =>
      apply matches_opt_inv in H as [H|[-> ->]]
  | H : ReSpec.matches _ (Re.Group _ (SpecificationParser.words _)) _ _ _ _ |- _ =>
      apply matches_group_words in H as (? & ? & ? & ? & -> & ->)
  | H : ReSpec.matches _ (Re.Group _ (Re.word _)) _ _ _ _ |- _ =>
      apply matches_group_word in H as (? & ? & -> & ->)
  | H : ReSpec.matches _ (Re.Group _ (Re.Rep _ _ _)) _ _ _ _ |- _ =>
      apply matches_group_rep in H as (? & ? & ? & ? & -> & ->)
  | H : ReSpec.matches _ (Re.Group _ (Re.Class _)) _ _ _ _ |- _ =>
      apply matches_group_class in H as (? & ? & -> & ->)
  | H : ReSpec.matches _ (Re.Rep _ _ _) _ _ _ _ |- _ =>
      apply matches_rep_inv in H as (-> & ? & -> & ? & ? & ?)
  | H : ReSpec.matches _ (Re.word _) _ _ _ _ |- _ =>
      apply matches_word_inv in H as (-> & ? & -> & ?)
  | H : ReSpec.matches _ (Re.Group _ (Re.Alt _ _)) _ _ _ _ |- _ =>
      apply matches_group_alt in H as [H|H]
  | H : ReSpec.matches _ (Re.Group _ (Re.Seq (Re.Lit _) (Re.Class _))) _ _ _ _ |- _ =>
      apply matches_group_lit_class in H as (? & ? & ? & ? & -> & ->)
  | H : ReSpec.matches _ (Re.Lit _) _ _ _ _ |- _ =>
      apply matches_lit_inv in H as (? & ? & -> & ->)
  | H : ReSpec.matches _ (Re.Class _) _ _ _ _ |- _ =>
      apply matches_class_inv in H as (? & ? & -> & ->)
  end.

(** The groups of the first pattern of a list that matches. *)
Lemma first_match_sound (ps : list Re.pattern) (text : string) (groups : Re.captures) :
  first_match ps text = Some groups ->
  exists p before rest rest',
    In p ps /\ text = before +:+ rest /\
    ReSpec.matches true (Re.body p) rest (Re.no_groups (Re.ngroups p)) rest' groups.
Proof.
  induction ps as [|p ps IH]; [done|]. simpl.
  destruct (Re.search true p text) as [g|] eqn:Hs.
  - intros [= <-]. apply search_sound in Hs as (before & rest & rest' & -> & M).
    exists p, before, rest, rest'. split; [by left|done].
  - intros H. apply IH in H as (q & before & rest & rest' & Hin & -> & M).
    exists q, before, rest, rest'. split; [by right|done].
Qed.

(** Closes the side conditions on groups left by [inv_matches]. *)
Ltac group_facts :=
  match goal with
  | |- no_digit_head None = true => reflexivity
  | H1 : In ?w ?ws, H2 : lit_word _ ?w ?v = true |- no_digit_head (Some ?v) = true =>
      exact (words_no_digit_head _ ws w v eq_refl H1 H2)
  | H2 : lit_word _ ?w ?v = true |- no_digit_head (Some ?v) = true =>
      exact (lit_word_no_digit_head _ w v H2 eq_refl)
  | H1 : In ?w ?ws, H2 : lit_word _ ?w ?v = true |- In ?v ?ws =>
      rewrite (words_digits _ ws w v eq_refl H1 H2); exact H1
  end.

(** ** NVIDIA *)

Lemma nvidia_groups (text : string) (groups : Re.captures) :
  first_match nvidia_patterns text = Some groups ->
  exists g1 g2 w g4 g5,
    groups = [g1; g2; Some w; g4; g5] /\
    no_digit_head g1 = true /\ no_digit_head g2 = true /\
    In w ["40"; "30"; "20"; "16"; "10"].
Proof.
  intros H. apply first_match_sound in H as (p & before & rest & rest' & Hin & -> & M).
  destruct Hin as [<-|[<-|[]]]; cbn [Re.body Re.ngroups Re.seq] in M;
    unfold SpecificationParser.ws, Re.star, Re.times in M; inv_matches;
    cbn [Re.set_group Re.no_groups repeat Nat.pred];
    eexists _, _, _, _, _; (split; [reflexivity|]);
    repeat split; group_facts.
Qed.

Lemma next_group_skip (test : option string -> bool) (g : option string)
      (rest : Re.captures) (default : option string) :
  test g = false -> next_group test (g :: rest) default = next_group test rest default.
Proof. unfold next_group. simpl. by intros ->. Qed.

Lemma next_group_hit (test : option string -> bool) (g : option string)
      (rest : Re.captures) (default : option string) :
  test g = true -> next_group test (g :: rest) default = g.
Proof. unfold next_group. simpl. by intros ->. Qed.

Lemma two_digits_end_skip (g : option string) :
  no_digit_head g = true -> group_matches two_digits_end g = false.
Proof. intros Hg. exact (proj1 (no_digit_head_group_matches 1 (Some 2) Re.Eos g Hg)). Qed.

Lemma three_digits_end_skip (g : option string) :
  no_digit_head g = true -> group_matches three_digits_end g = false.
Proof. intros Hg. exact (proj1 (no_digit_head_group_matches 2 (Some 3) Re.Eos g Hg)). Qed.

Lemma digits_1_2_skip (g : option string) :
  no_digit_head g = true -> group_matches digits_1_2 g = false.
Proof. intros Hg. exact (proj2 (no_digit_head_group_matches 0 (Some 2) Re.Empty g Hg)). Qed.

Lemma digits_3_4_skip (g : option string) :
  no_digit_head g = true -> group_matches digits_3_4 g = false.
Proof. intros Hg. exact (proj2 (no_digit_head_group_matches 2 (Some 4) Re.Empty g Hg)). Qed.

Lemma digits_4_5_skip (g : option string) :
  no_digit_head g = true -> group_matches digits_4_5 g = false.
Proof. intros Hg. exact (proj2 (no_digit_head_group_matches 3 (Some 5) Re.Empty g Hg)). Qed.

(** The model written by the NVIDIA branch: both tokens are the series
    number. *)
Lemma nvidia_gpu_model (text : string) (g1 g2 g4 g5 : option string) (w : string)
      (info : GPUInfo.t) :
  no_digit_head g1 = true -> no_digit_head g2 = true ->
  In w ["40"; "30"; "20"; "16"; "10"] ->
  GPUInfo.model (nvidia_gpu text [g1; g2; Some w; g4; g5] info) = Some (w +:+ w).
Proof.
  intros H1 H2 Hw. unfold nvidia_gpu.
  rewrite (next_group_skip (group_in _) g1)
    by (by apply no_digit_head_group_in).
  rewrite (next_group_skip (group_in _) g2)
    by (by apply no_digit_head_group_in).
  rewrite (next_group_skip (group_matches _) g1) by (by apply two_digits_end_skip).
  rewrite (next_group_skip (group_matches _) g2) by (by apply two_digits_end_skip).
  destruct Hw as [<-|[<-|[<-|[<-|[<-|[]]]]]];
    rewrite (next_group_hit (group_in _)) by reflexivity;
    rewrite (next_group_hit (group_matches _)) by reflexivity;
    cbv zeta; cbn [PyStr.truthy andb PyStr.str]; repeat case_match; reflexivity.
Qed.

(** X15. Whenever the GPU is classified as NVIDIA, the model is one of
    "4040", "3030", "2020", "1616" and "1010", a series number written
    twice: the two-digit token is looked for among all groups, and the first
    group of two digits is the series number. *)
Theorem nvidia_model_is_series_twice (text : option string) (is_technical_detail : bool) :
  GPUInfo.brand (parse_gpu_from_text text is_technical_detail) = Some "NVIDIA" ->
  In (GPUInfo.model (parse_gpu_from_text text is_technical_detail))
     [Some "4040"; Some "3030"; Some "2020"; Some "1616"; Some "1010"].
Proof.
  unfold parse_gpu_from_text.
  destruct (negb (PyStr.truthy text)); [done|]. cbv zeta.
  destruct (first_match nvidia_patterns _) as [groups|] eqn:Hn.
  - intros _. apply nvidia_groups in Hn as (g1 & g2 & w & g4 & g5 & -> & H1 & H2 & Hw).
    rewrite (nvidia_gpu_model _ g1 g2 g4 g5 w _ H1 H2 Hw).
    destruct Hw as [<-|[<-|[<-|[<-|[<-|[]]]]]]; simpl; tauto.
  - destruct (first_match intel_gpu_patterns _); [by rewrite intel_gpu_brand|].
    destruct (first_match amd_gpu_patterns _); [by rewrite amd_gpu_brand|done].
Qed.

(** X15 at a technical-detail text for an RTX 4070 Ti. *)
Lemma nvidia_model_is_series_twice_witness :
  In (GPUInfo.model (parse_gpu_from_text (Some "NVIDIA GeForce RTX 4070 Ti") true))
     [Some "4040"; Some "3030"; Some "2020"; Some "1616"; Some "1010"].
Proof.
  apply (nvidia_model_is_series_twice (Some "NVIDIA GeForce RTX 4070 Ti") true).
  vm_compute. reflexivity.
Defined.

(** ** AMD GPU *)

Ltac digit_facts :=
  match goal with
  | H : ReSpec.all_in _ Re.Digit ?v = true |- digits_only ?v = true =>
      exact (all_in_digits _ _ H)
  | |- String.length _ = _ => simpl in *; lia
  | |- _ <= String.length _ <= _ => simpl in *; lia
  end.

Lemma amd_gpu_groups (text : string) (groups : Re.captures) :
  first_match amd_gpu_patterns text = Some groups ->
  exists g1 g2 w v g5,
    groups = [g1; g2; Some w; Some v; g5] /\
    no_digit_head g1 = true /\ no_digit_head g2 = true /\
    In w ["7"; "6"; "5"; "4"] /\
    digits_only v = true /\ String.length v = 3.
Proof.
  intros H. apply first_match_sound in H as (p & before & rest & rest' & Hin & -> & M).
  destruct Hin as [<-|[<-|[]]]; cbn [Re.body Re.ngroups Re.seq] in M;
    unfold SpecificationParser.ws, Re.star, Re.times in M; inv_matches;
    cbn [Re.set_group Re.no_groups repeat Nat.pred];
    eexists _, _, _, _, _; (split; [reflexivity|]);
    repeat split; first [group_facts | digit_facts].
Qed.

(** A string of [n] digits passes the test for [n] digits up to the end. *)
Lemma digits_end_hit (n : nat) (v : string) :
  digits_only v = true -> String.length v = n ->
  group_matches (Re.Pattern (Re.Seq (Re.times Re.Digit n) Re.Eos) 0) (Some v) = true.
Proof.
  intros Hd Hn. unfold group_matches. apply bool_decide_eq_true_2.
  unfold Re.match_. cbn [Re.body PyStr.str].
  eapply m_complete; [|by eexists].
  eapply ReSpec.M_Seq; [|apply ReSpec.M_Eos_end].
  replace v with (v +:+ "") at 1.
  - apply ReSpec.M_Rep; [|lia|simpl; lia].
    clear Hn. induction v as [|c v IH]; [done|]. simpl in *.
    apply andb_prop in Hd as [Hc Hv]. by rewrite class_digit_eq, Hc, IH.
  - clear. induction v as [|c v IH]; [done|].
    change (String c (v +:+ "") = String c v). by rewrite IH.
Qed.

(** The model written by the AMD branch: the series digit and the three
    digits after it. *)
Lemma amd_gpu_model (text : string) (g1 g2 g5 : option string) (w v : string)
      (info : GPUInfo.t) :
  no_digit_head g1 = true -> no_digit_head g2 = true ->
  In w ["7"; "6"; "5"; "4"] -> digits_only v = true -> String.length v = 3 ->
  GPUInfo.model (amd_gpu text [g1; g2; Some w; Some v; g5] info) = Some (w +:+ v) /\
  GPUInfo.series (amd_gpu text [g1; g2; Some w; Some v; g5] info) = Some "RX".
Proof.
  intros H1 H2 Hw Hv Hlen. unfold amd_gpu.
  rewrite (next_group_skip (group_in _) g1) by (by apply no_digit_head_group_in).
  rewrite (next_group_skip (group_in _) g2) by (by apply no_digit_head_group_in).
  rewrite (next_group_skip (group_matches _) g1) by (by apply three_digits_end_skip).
  rewrite (next_group_skip (group_matches _) g2) by (by apply three_digits_end_skip).
  assert (Htruthy : PyStr.truthy (Some v) = true) by (by destruct v).
  pose proof (digits_end_hit 3 v Hv Hlen) as Hhit.
  destruct Hw as [<-|[<-|[<-|[<-|[]]]]];
    rewrite (next_group_hit (group_in _)) by reflexivity;
    rewrite (next_group_skip (group_matches _) (Some _)) by reflexivity;
    rewrite (next_group_hit (group_matches _)) by exact Hhit;
    cbv zeta; rewrite Htruthy; cbn [PyStr.truthy andb PyStr.str];
    repeat case_match; split; reflexivity.
Qed.

(** X16. Whenever an ASCII text is classified as an AMD GPU, the series is
    "RX" - also when the text has no "rx" - and the model is there: four
    digits, a digit from 4 to 7 followed by three digits. *)
Theorem amd_gpu_series_and_model (text : option string) (is_technical_detail : bool) :
  ascii_text text = true ->
  GPUInfo.brand (parse_gpu_from_text text is_technical_detail) = Some "AMD" ->
  GPUInfo.series (parse_gpu_from_text text is_technical_detail) = Some "RX" /\
  exists w v,
    In w ["7"; "6"; "5"; "4"] /\ digits_only v = true /\ String.length v = 3 /\
    GPUInfo.model (parse_gpu_from_text text is_technical_detail) = Some (w +:+ v).
Proof.
  intros _. unfold parse_gpu_from_text.
  destruct (negb (PyStr.truthy text)); [done|]. cbv zeta.
  destruct (first_match nvidia_patterns _); [by rewrite nvidia_gpu_brand|].
  destruct (first_match intel_gpu_patterns _); [by rewrite intel_gpu_brand|].
  destruct (first_match amd_gpu_patterns _) as [groups|] eqn:Ha; [|done].
  intros _.
  apply amd_gpu_groups in Ha as (g1 & g2 & w & v & g5 & -> & H1 & H2 & Hw & Hv & Hlen).
  destruct (amd_gpu_model (PyStr.strip (PyStr.lower (PyStr.str text))) g1 g2 g5 w v
              (GPUInfo.Make None None None None
                 (Some (source_tag is_technical_detail))
                 (Some (confidence_tag is_technical_detail))) H1 H2 Hw Hv Hlen)
    as [Hmodel Hseries].
  split; [exact Hseries|]. by exists w, v.
Qed.

(** X16 at a title that names no GPU: the number of the laptop model
    becomes the model of an RX card. *)
Lemma amd_gpu_series_and_model_witness :
  GPUInfo.series (parse_gpu_from_text (Some "Dell Inspiron 5520 Laptop") false) = Some "RX".
Proof.
  apply (amd_gpu_series_and_model (Some "Dell Inspiron 5520 Laptop") false);
    vm_compute; reflexivity.
Defined.

(** ** Intel CPU *)

Lemma class_3579 (ic : bool) (c : ascii) :
  Re.class_matches ic (Re.OneOf (chars "3579")) c = true ->
  In c ["3"; "5"; "7"; "9"]%char.
Proof.
  destruct ic, c as [[] [] [] [] [] [] [] []]; intros H;
    solve [ vm_compute in H; discriminate H | simpl; tauto ].
Qed.

(** Splits the fact that a text has no upper-case letter over its parts. *)
Ltac split_lower H :=
  repeat first [rewrite no_upper_append in H | progress cbn [no_upper] in H];
  repeat match goal with
  | H' : _ && _ = true |- _ => apply andb_prop in H' as [? ?]
  end.

(** In a text without upper-case letters a word is matched by itself. *)
Ltac exact_words :=
  repeat match goal with
  | H1 : In ?w ?ws, H2 : lit_word _ ?w ?v = true, H3 : no_upper ?v = true |- _ =>
      pose proof (words_lower _ ws w v eq_refl H1 H2 H3); subst v; clear H2 H3
  | H2 : lit_word _ ?w ?v = true, H3 : no_upper ?v = true |- _ =>
      pose proof (lit_word_lower _ w v H2 eq_refl H3); subst v; clear H2 H3
  | H2 : Re.lit_matches _ ?l ?c = true, H3 : negb (PyStr.is_upper ?c) = true |- _ =>
      pose proof (lit_matches_lower_eq _ l c H2 eq_refl (proj1 (negb_true_iff _) H3));
      subst c; clear H2 H3
  | H : Re.class_matches _ (Re.OneOf (chars "3579")) ?c = true |- _ =>
      apply class_3579 in H
  end.

(** Closes the facts about the groups of a CPU pattern. *)
Ltac shape_facts :=
  first
    [ digit_facts
    | match goal with
      | H : In ?c ["3"; "5"; "7"; "9"]%char |- In (String _ (String ?c "")) _ =>
          destruct H as [<-|[<-|[<-|[<-|[]]]]]; simpl; tauto
      | H : In ?c ["3"; "5"; "7"; "9"]%char |- In (String ?c "") _ =>
          destruct H as [<-|[<-|[<-|[<-|[]]]]]; simpl; tauto
      end
    | (simpl; tauto)
    | (left; reflexivity)
    | (right; eexists _, _; split; [reflexivity|]; split; digit_facts)
    | (unfold ReSpec.within in *; lia) ].

Lemma intel_cpu_groups (text : string) (groups : Re.captures) :
  no_upper text = true ->
  first_match intel_cpu_patterns text = Some groups ->
  exists g1 g2 v3 v4 tail,
    groups = g1 :: g2 :: Some v3 :: Some v4 :: tail /\
    In g1 [None; Some "intel"] /\ In g2 [None; Some "core"] /\
    In v3 ["ultra"; "i3"; "i5"; "i7"; "i9"] /\
    digits_only v4 = true /\ 1 <= String.length v4 <= 2 /\
    (tail = [] \/
     exists v5 g6, tail = [Some v5; g6] /\ digits_only v5 = true /\ String.length v5 = 3).
Proof.
  intros Hlow H.
  apply first_match_sound in H as (p & before & rest & rest' & Hin & -> & M).
  destruct Hin as [<-|[<-|[]]]; cbn [Re.body Re.ngroups Re.seq] in M;
    unfold SpecificationParser.ws, Re.star, Re.times, Re.range in M; inv_matches;
    split_lower Hlow; exact_words;
    cbn [Re.set_group Re.no_groups repeat Nat.pred];
    eexists _, _, _, _, _; (split; [reflexivity|]);
    repeat split; shape_facts.
Qed.

(** A string of digits of a length within the bounds passes the test for
    that many digits at its start; a shorter string does not. *)
Lemma digits_range_hit (lo hi : nat) (v : string) :
  digits_only v = true -> lo <= String.length v <= hi ->
  group_matches (Re.Pattern (Re.range Re.Digit lo hi) 0) (Some v) = true.
Proof.
  intros Hd [Hlo Hhi]. unfold group_matches. apply bool_decide_eq_true_2.
  unfold Re.match_. cbn [Re.body PyStr.str].
  eapply m_complete; [|by eexists].
  replace v with (v +:+ "") at 1.
  - apply ReSpec.M_Rep; [|lia|simpl; lia].
    clear Hlo Hhi. induction v as [|c v IH]; [done|]. simpl in *.
    apply andb_prop in Hd as [Hc Hv]. by rewrite class_digit_eq, Hc, IH.
  - clear. induction v as [|c v IH]; [done|].
    change (String c (v +:+ "") = String c v). by rewrite IH.
Qed.

Lemma digits_range_miss (lo hi : nat) (v : string) :
  String.length v < lo ->
  group_matches (Re.Pattern (Re.range Re.Digit lo hi) 0) (Some v) = false.
Proof.
  intros Hlen. unfold group_matches. apply bool_decide_eq_false_2.
  intros [g Hg]. unfold Re.match_ in Hg. cbn [Re.body PyStr.str] in Hg.
  apply m_sound in Hg as (s' & caps' & M & _).
  apply matches_rep_inv in M as (_ & p & -> & _ & Hlo & _).
  rewrite length_append in Hlen. lia.
Qed.

(** The fields written by the Intel branch. *)
Lemma intel_cpu_fields (g1 g2 : option string) (v3 v4 : string) (tail : Re.captures)
      (info : CPUInfo.t) :
  In g1 [None; Some "intel"] -> In g2 [None; Some "core"] ->
  In v3 ["ultra"; "i3"; "i5"; "i7"; "i9"] ->
  digits_only v4 = true -> 1 <= String.length v4 <= 2 ->
  (tail = [] \/
   exists v5 g6, tail = [Some v5; g6] /\ digits_only v5 = true /\ String.length v5 = 3) ->
  CPUInfo.model info = None ->
  let c := intel_cpu (g1 :: g2 :: Some v3 :: Some v4 :: tail) info in
  In (CPUInfo.series c) [Some "ULTRA"; Some "I3"; Some "I5"; Some "I7"; Some "I9"] /\
  CPUInfo.generation c = Some (v4 +:+ "th Gen") /\
  (CPUInfo.model c = None \/
   exists v5, digits_only v5 = true /\ String.length v5 = 3 /\ CPUInfo.model c = Some v5).
Proof.
  intros Hg1 Hg2 Hv3 Hv4 Hlen Htail Hinfo. cbv zeta. unfold intel_cpu.
  assert (Hgen : group_matches digits_1_2 (Some v4) = true)
    by (apply (digits_range_hit 1 2); [done|lia]).
  assert (Hmiss : group_matches digits_3_4 (Some v4) = false)
    by (apply (digits_range_miss 3 4); lia).
  assert (Htruthy : PyStr.truthy (Some v4) = true) by (destruct v4; simpl in *; [lia|done]).
  destruct Hg1 as [<-|[<-|[]]], Hg2 as [<-|[<-|[]]],
           Hv3 as [<-|[<-|[<-|[<-|[<-|[]]]]]];
    rewrite !(next_group_skip (group_in ["ultra"; "i3"; "i5"; "i7"; "i9"])) by reflexivity;
    rewrite (next_group_hit (group_in ["ultra"; "i3"; "i5"; "i7"; "i9"])) by reflexivity;
    rewrite !(next_group_skip (group_matches digits_1_2)) by reflexivity;
    rewrite (next_group_hit (group_matches digits_1_2)) by exact Hgen;
    rewrite !(next_group_skip (group_matches digits_3_4)) by (reflexivity || exact Hmiss);
    rewrite Htruthy; cbn [PyStr.truthy PyStr.str PyStr.upper PyStr.map_chars];
    (destruct Htail as [->|(v5 & g6 & -> & Hv5 & Hlen5)];
     [ change (next_group (group_matches digits_3_4) [] (Some "")) with (Some "")
     | rewrite (next_group_hit (group_matches digits_3_4))
         by (apply (digits_range_hit 3 4); [done|lia]);
       assert (Ht5 : PyStr.truthy (Some v5) = true)
         by (destruct v5; simpl in *; [lia|done]);
       rewrite Ht5 ]);
    cbn [PyStr.truthy];
    repeat case_match; cbn [CPUInfo.series CPUInfo.generation CPUInfo.model
                            CPUInfo.set_variant CPUInfo.set_model CPUInfo.set_generation
                            CPUInfo.set_series CPUInfo.set_brand];
    (split; [simpl; tauto|]); (split; [reflexivity|]);
    first [ by left | right; by exists v5 ].
Qed.

(** X17. Whenever an ASCII text is classified as an Intel CPU, the series
    is one of "ULTRA", "I3", "I5", "I7", "I9"; the generation is always written, as the
    one or two digits that follow the series and the text "th Gen" - also
    for 1, 2 and 3; and the model, when there is one, is just the three
    digits after those of the generation. *)
Theorem intel_cpu_series_generation_model (text : option string) (is_technical_detail : bool) :
  ascii_text text = true ->
  CPUInfo.brand (parse_cpu_from_text text is_technical_detail) = Some "Intel" ->
  In (CPUInfo.series (parse_cpu_from_text text is_technical_detail))
     [Some "ULTRA"; Some "I3"; Some "I5"; Some "I7"; Some "I9"] /\
  (exists g, digits_only g = true /\ 1 <= String.length g <= 2 /\
     CPUInfo.generation (parse_cpu_from_text text is_technical_detail) =
       Some (g +:+ "th Gen")) /\
  (CPUInfo.model (parse_cpu_from_text text is_technical_detail) = None \/
   exists v, digits_only v = true /\ String.length v = 3 /\
     CPUInfo.model (parse_cpu_from_text text is_technical_detail) = Some v).
Proof.
  intros _. unfold parse_cpu_from_text.
  destruct (negb (PyStr.truthy text)); [done|]. cbv zeta.
  destruct (first_match intel_cpu_patterns _) as [groups|] eqn:Hi.
  - intros _.
    apply intel_cpu_groups in Hi
      as (g1 & g2 & v3 & v4 & tail & -> & H1 & H2 & H3 & H4 & Hlen & Htail);
      [|apply no_upper_normalized].
    destruct (intel_cpu_fields g1 g2 v3 v4 tail
                (CPUInfo.Make None None None None None
                   (Some (source_tag is_technical_detail))
                   (Some (confidence_tag is_technical_detail)))
                H1 H2 H3 H4 Hlen Htail eq_refl) as (Hs & Hg & Hm).
    split; [exact Hs|]. split; [by exists v4|exact Hm].
  - destruct (first_match amd_cpu_patterns _); [by rewrite amd_cpu_brand|done].
Qed.

(** X17 at a title with a Core i7 of the twelfth generation. *)
Lemma intel_cpu_series_generation_model_witness :
  exists g, digits_only g = true /\ 1 <= String.length g <= 2 /\
    CPUInfo.generation (parse_cpu_from_text (Some "Intel Core i7-12700H") false) =
      Some (g +:+ "th Gen").
Proof.
  apply (intel_cpu_series_generation_model (Some "Intel Core i7-12700H") false);
    vm_compute; reflexivity.
Defined.

(** ** AMD CPU *)

Lemma starts_with_append (sub t : string) : PyStr.starts_with sub (sub +:+ t) = true.
Proof.
  induction sub as [|c sub IH]; [by destruct t|].
  change (PyStr.starts_with (String c sub) (String c (sub +:+ t)) = true).
  simpl. by rewrite Ascii.eqb_refl.
Qed.

Lemma contains_prefix (sub t : string) : PyStr.contains sub (sub +:+ t) = true.
Proof.
  destruct (sub +:+ t) eqn:E; simpl; rewrite <- E, starts_with_append; done.
Qed.

Lemma contains_append_r (sub a b : string) :
  PyStr.contains sub b = true -> PyStr.contains sub (a +:+ b) = true.
Proof.
  intros H. induction a as [|c a IH]; [done|].
  change (PyStr.contains sub (String c (a +:+ b)) = true).
  simpl. rewrite IH. by rewrite orb_true_r.
Qed.

Lemma amd_cpu_groups (text : string) (groups : Re.captures) :
  no_upper text = true ->
  first_match amd_cpu_patterns text = Some groups ->
  PyStr.contains "ryzen" text = true /\
  exists g1 v3 v4 g5,
    groups = [g1; Some "ryzen"; Some v3; Some v4; g5] /\
    In g1 [None; Some "amd"] /\
    In v3 ["3"; "5"; "7"; "9"] /\
    digits_only v4 = true /\ 4 <= String.length v4 <= 5.
Proof.
  intros Hlow H.
  apply first_match_sound in H as (p & before & rest & rest' & Hin & -> & M).
  destruct Hin as [<-|[<-|[]]]; cbn [Re.body Re.ngroups Re.seq] in M;
    unfold SpecificationParser.ws, Re.star, Re.times, Re.range in M; inv_matches;
    split_lower Hlow; exact_words;
    cbn [Re.set_group Re.no_groups repeat Nat.pred];
    (split;
     [ repeat first [ apply contains_prefix | apply contains_append_r ]
     | eexists _, _, _, _; (split; [reflexivity|]); repeat split; shape_facts ]).
Qed.

(** The fields written by the AMD branch. *)
Lemma amd_cpu_fields (text : string) (g1 g5 : option string) (v3 v4 : string)
      (info : CPUInfo.t) :
  PyStr.contains "ryzen" text = true ->
  In g1 [None; Some "amd"] -> In v3 ["3"; "5"; "7"; "9"] ->
  digits_only v4 = true -> 4 <= String.length v4 <= 5 ->
  let c := amd_cpu text [g1; Some "ryzen"; Some v3; Some v4; g5] info in
  CPUInfo.series c = Some ("Ryzen " +:+ v3) /\
  CPUInfo.model c = Some v4 /\
  CPUInfo.generation c = Some ("Gen " +:+ PyStr.take 1 v4).
Proof.
  intros Hryzen Hg1 Hv3 Hv4 Hlen. cbv zeta. unfold amd_cpu. rewrite Hryzen.
  assert (Hhit : group_matches digits_4_5 (Some v4) = true)
    by (by apply (digits_range_hit 4 5)).
  assert (Htruthy : PyStr.truthy (Some v4) = true) by (destruct v4; simpl in *; [lia|done]).
  destruct Hg1 as [<-|[<-|[]]], Hv3 as [<-|[<-|[<-|[<-|[]]]]];
    rewrite !(next_group_skip (group_in ["3"; "5"; "7"; "9"])) by reflexivity;
    rewrite (next_group_hit (group_in ["3"; "5"; "7"; "9"])) by reflexivity;
    rewrite !(next_group_skip (group_matches digits_4_5)) by reflexivity;
    rewrite (next_group_hit (group_matches digits_4_5)) by exact Hhit;
    rewrite Htruthy; cbn [PyStr.str];
    repeat case_match; repeat split.
Qed.

(** X18. Whenever an ASCII text is classified as an AMD CPU, the series
    is "Ryzen 3", "Ryzen 5", "Ryzen 7" or "Ryzen 9", the model is the four or five digits
    that follow the series digit, and the generation is "Gen " and the first
    digit of the model: all three fields are always written. *)
Theorem amd_cpu_series_model_generation (text : option string) (is_technical_detail : bool) :
  ascii_text text = true ->
  CPUInfo.brand (parse_cpu_from_text text is_technical_detail) = Some "AMD" ->
  exists d v,
    In d ["3"; "5"; "7"; "9"] /\ digits_only v = true /\ 4 <= String.length v <= 5 /\
    CPUInfo.series (parse_cpu_from_text text is_technical_detail) = Some ("Ryzen " +:+ d) /\
    CPUInfo.model (parse_cpu_from_text text is_technical_detail) = Some v /\
    CPUInfo.generation (parse_cpu_from_text text is_technical_detail) =
      Some ("Gen " +:+ PyStr.take 1 v).
Proof.
  intros _. unfold parse_cpu_from_text.
  destruct (negb (PyStr.truthy text)); [done|]. cbv zeta.
  destruct (first_match intel_cpu_patterns _); [by rewrite intel_cpu_brand|].
  destruct (first_match amd_cpu_patterns _) as [groups|] eqn:Ha; [|done].
  intros _.
  apply amd_cpu_groups in Ha
    as (Hryzen & g1 & v3 & v4 & g5 & -> & H1 & H3 & H4 & Hlen);
    [|apply no_upper_normalized].
  destruct (amd_cpu_fields _ g1 g5 v3 v4
              (CPUInfo.Make None None None None None
                 (Some (source_tag is_technical_detail))
                 (Some (confidence_tag is_technical_detail)))
              Hryzen H1 H3 H4 Hlen) as (Hs & Hm & Hg).
  by exists v3, v4.
Qed.

(** X18 at a technical-detail text for a Ryzen 9. *)
Lemma amd_cpu_series_model_generation_witness :
  exists d v,
    In d ["3"; "5"; "7"; "9"] /\ digits_only v = true /\ 4 <= String.length v <= 5 /\
    CPUInfo.series (parse_cpu_from_text (Some "AMD Ryzen 9 7940HX") true) =
      Some ("Ryzen " +:+ d) /\
    CPUInfo.model (parse_cpu_from_text (Some "AMD Ryzen 9 7940HX") true) = Some v /\
    CPUInfo.generation (parse_cpu_from_text (Some "AMD Ryzen 9 7940HX") true) =
      Some ("Gen " +:+ PyStr.take 1 v).
Proof.
  apply (amd_cpu_series_model_generation (Some "AMD Ryzen 9 7940HX") true);
    vm_compute; reflexivity.
Defined.

(** ** Intel GPU *)

(** Finds a word inside a text written as a chain of parts. *)
Ltac find_word := solve [ repeat first [ apply contains_prefix | apply contains_append_r ] ].

(** A text in which an Intel GPU pattern matches holds one of the words that
    the Intel branch tests for. *)
Lemma intel_gpu_words (text : string) (groups : Re.captures) :
  no_upper text = true ->
  first_match intel_gpu_patterns text = Some groups ->
  PyStr.contains "arc" text = true \/ PyStr.contains "iris" text = true \/
  PyStr.contains "uhd" text = true \/ PyStr.contains "hd" text = true.
Proof.
  intros Hlow H.
  apply first_match_sound in H as (p & before & rest & rest' & Hin & -> & M).
  destruct Hin as [<-|[<-|[<-|[<-|[<-|[]]]]]]; cbn [Re.body Re.ngroups Re.seq] in M;
    unfold SpecificationParser.ws, Re.star, Re.times, Re.range in M; inv_matches;
    split_lower Hlow; exact_words;
    repeat match goal with
    | H : In _ ["uhd"; "hd"] |- _ => destruct H as [<-|[<-|[]]]
    end;
    first [ left; find_word
          | right; left; find_word
          | right; right; left; find_word
          | right; right; right; find_word ].
Qed.

Lemma intel_gpu_series (text : string) (info : GPUInfo.t) :
  PyStr.contains "arc" text = true \/ PyStr.contains "iris" text = true \/
  PyStr.contains "uhd" text = true \/ PyStr.contains "hd" text = true ->
  GPUInfo.series (intel_gpu text info) =
    Some (if PyStr.contains "arc" text then "Arc"
          else if PyStr.contains "iris" text then "Iris"
          else if PyStr.contains "uhd" text then "UHD"
          else "HD").
Proof.
  intros Hwords. unfold intel_gpu.
  destruct (PyStr.contains "arc" text); [repeat case_match; reflexivity|].
  destruct (PyStr.contains "iris" text); [repeat case_match; reflexivity|].
  destruct (PyStr.contains "uhd" text); [cbn [orb]; repeat case_match; reflexivity|].
  destruct (PyStr.contains "hd" text); [cbn [orb]; repeat case_match; reflexivity|].
  destruct Hwords as [?|[?|[?|?]]]; discriminate.
Qed.

(** X19. Whenever an ASCII text is classified as an Intel GPU, the series
    is always written, and it is chosen by looking for words anywhere in the text, not
    by the pattern that matched: "Arc" when the text holds "arc", otherwise
    "Iris" when it holds "iris", otherwise "UHD" when it holds "uhd", and
    "HD" in what is left. *)
Theorem intel_gpu_series_by_word (text : option string) (is_technical_detail : bool) :
  ascii_text text = true ->
  GPUInfo.brand (parse_gpu_from_text text is_technical_detail) = Some "Intel" ->
  GPUInfo.series (parse_gpu_from_text text is_technical_detail) =
    Some (if PyStr.contains "arc" (PyStr.strip (PyStr.lower (PyStr.str text))) then "Arc"
          else if PyStr.contains "iris" (PyStr.strip (PyStr.lower (PyStr.str text)))
          then "Iris"
          else if PyStr.contains "uhd" (PyStr.strip (PyStr.lower (PyStr.str text)))
          then "UHD"
          else "HD").
Proof.
  intros _. unfold parse_gpu_from_text.
  destruct (negb (PyStr.truthy text)); [done|]. cbv zeta.
  destruct (first_match nvidia_patterns _); [by rewrite nvidia_gpu_brand|].
  destruct (first_match intel_gpu_patterns _) as [groups|] eqn:Hi.
  - intros _. apply intel_gpu_series.
    eapply intel_gpu_words; [apply no_upper_normalized|exact Hi].
  - destruct (first_match amd_gpu_patterns _); [by rewrite amd_gpu_brand|done].
Qed.

(** X19 at an Iris text that also holds the letters "arc", in "search". *)
Lemma intel_gpu_series_by_word_witness :
  GPUInfo.series (parse_gpu_from_text (Some "Intel Iris Xe Graphics, search key") false) =
    Some "Arc".
Proof.
  rewrite (intel_gpu_series_by_word (Some "Intel Iris Xe Graphics, search key") false).
  - vm_compute. reflexivity.
  - vm_compute. reflexivity.
  - vm_compute. reflexivity.
Defined.

(** ** The last group of the CPU patterns *)

Section LastGroup.
Import Re ReSpec.

(** A match of a sequence ends with a run of its last part, on what the
    parts before it have left. *)
Lemma m_seq_last {A : Type} (ic : bool) (rs : list regex) (r : regex) :
  forall (s : string) (caps : captures) (k : string -> captures -> option A) (a : A),
    m ic (seq (app rs [r])) s caps k = Some a ->
    exists s' caps', matches ic (seq rs) s caps s' caps' /\ m ic r s' caps' k = Some a.
Proof.
  induction rs as [|r1 rs IH]; intros s caps k a H.
  - exists s, caps. split; [constructor|exact H].
  - change (app (r1 :: rs) [r]) with (r1 :: app rs [r]) in H.
    assert (Hseq : seq (r1 :: app rs [r]) = Seq r1 (seq (app rs [r]))) by (by destruct rs).
    rewrite Hseq in H. cbn [m] in H.
    apply m_sound in H as (s1 & caps1 & M1 & H).
    apply IH in H as (s2 & caps2 & M2 & H).
    exists s2, caps2. split; [|exact H].
    destruct rs as [|r2 rs].
    + inversion M2; subst. exact M1.
    + change (seq (r1 :: r2 :: rs)) with (Seq r1 (seq (r2 :: rs))). by econstructor.
Qed.


Lemma nth_set_group_eq (i : nat) (v x : string) (caps : captures) :
  nth i (set_group i v caps) None = Some x -> x = v.
Proof.
  revert i. induction caps as [|g caps IH]; intros [|i]; simpl; try done.
  - by intros [= <-].
  - apply IH.
Qed.

(** The optional last group [(h|u|hx|k)?] or [(h|u|hx)?], with nothing
    after it: the first alternative that fits ends the match, so the group
    never holds more than one character. *)
Lemma last_group_one_char (i : nat) (ws : list string) (s : string)
      (caps groups : captures) (x : string) :
  ws = ["h"; "u"; "hx"; "k"] \/ ws = ["h"; "u"; "hx"] ->
  nth (Nat.pred i) caps None = None ->
  m true (Opt (Group i (SpecificationParser.words ws))) s caps (fun _ c => Some c) =
    Some groups ->
  nth (Nat.pred i) groups None = Some x -> String.length x = 1.
Proof.
  intros Hws Hnone H Hx. cbn [m] in H.
  destruct Hws as [-> | ->]; unfold SpecificationParser.words in H;
    rewrite m_words in H by (intros; by eexists);
    (destruct s as [|c s];
     [ cbn in H; injection H as <-; congruence |]);
    cbn [find ci_starts_with] in H;
    destruct (Ascii.eqb (PyStr.lower_char "h") (PyStr.lower_char c));
    destruct (Ascii.eqb (PyStr.lower_char "u") (PyStr.lower_char c));
    try destruct (Ascii.eqb (PyStr.lower_char "k") (PyStr.lower_char c));
    cbn [andb drop String.length] in H;
    rewrite ?Nat.sub_succ_l, ?Nat.sub_diag in H by lia;
    cbn [PyStr.take] in H; injection H as <-;
    first [ congruence | apply nth_set_group_eq in Hx as ->; reflexivity ].
Qed.

End LastGroup.

(** The groups of the first pattern that matches are those of a run of the
    matcher at some position of the text. *)
Lemma search_run (ic : bool) (p : Re.pattern) (s : string) (groups : Re.captures) :
  Re.search ic p s = Some groups -> exists rest, Re.match_ ic p rest = Some groups.
Proof.
  induction s as [|c s IH]; simpl.
  - destruct (Re.match_ ic p "") eqn:H; [|done]. intros [= <-]. by exists "".
  - destruct (Re.match_ ic p (String c s)) eqn:H; [|exact IH].
    intros [= <-]. by exists (String c s).
Qed.

Lemma first_match_run (ps : list Re.pattern) (text : string) (groups : Re.captures) :
  first_match ps text = Some groups ->
  exists p rest, In p ps /\ Re.match_ true p rest = Some groups.
Proof.
  induction ps as [|p ps IH]; [done|]. simpl.
  destruct (Re.search true p text) as [g|] eqn:Hs.
  - intros [= <-]. apply search_run in Hs as (rest & H). exists p, rest. split; [by left|done].
  - intros H. apply IH in H as (q & rest & Hin & H). exists q, rest. split; [by right|done].
Qed.

(** A pattern that ends with the optional group [i] of the variants. *)
Lemma variant_group_one_char (n i : nat) (rs : list Re.regex) (ws : list string)
      (rest : string) (groups : Re.captures) (x : string) :
  ws = ["h"; "u"; "hx"; "k"] \/ ws = ["h"; "u"; "hx"] ->
  has_group (Nat.pred i) (Re.seq rs) = false ->
  Re.match_ true
    (Re.Pattern (Re.seq (app rs [Re.Opt (Re.Group i (SpecificationParser.words ws))])) n)
    rest = Some groups ->
  nth (Nat.pred i) groups None = Some x -> String.length x = 1.
Proof.
  intros Hws Hfree H. unfold Re.match_ in H. cbn [Re.body Re.ngroups] in H.
  apply m_seq_last in H as (s' & caps' & M & H).
  apply (last_group_one_char i ws s' caps' groups x Hws); [|exact H].
  rewrite (matches_keeps_group _ _ _ _ _ _ _ M Hfree).
  unfold Re.no_groups. clear. generalize (Nat.pred i). induction n; intros [|j]; simpl; auto.
Qed.

Ltac variant_group i ws :=
  match goal with
  | |- Re.match_ _ (Re.Pattern (Re.seq ?l) ?n) _ = _ -> _ =>
      let rs := eval cbv [removelast] in (removelast l) in
      apply (variant_group_one_char n i rs ws); [tauto|reflexivity]
  end.

Lemma intel_cpu_variant_group (text : string) (groups : Re.captures) (x : string) :
  first_match intel_cpu_patterns text = Some groups ->
  nth 5 groups None = Some x -> String.length x = 1.
Proof.
  intros H Hx. apply first_match_run in H as (p & rest & [<-|[<-|[]]] & H).
  - revert H Hx. variant_group 6 ["h"; "u"; "hx"; "k"].
  - unfold Re.match_ in H. apply m_sound in H as (s' & caps' & M & [= <-]).
    rewrite (matches_keeps_group _ 5 _ _ _ _ _ M) in Hx; [done|reflexivity].
Qed.

Lemma amd_cpu_variant_group (text : string) (groups : Re.captures) (x : string) :
  first_match amd_cpu_patterns text = Some groups ->
  nth 4 groups None = Some x -> String.length x = 1.
Proof.
  intros H Hx. apply first_match_run in H as (p & rest & [<-|[<-|[]]] & H);
    revert H Hx; variant_group 5 ["h"; "u"; "hx"].
Qed.

Lemma next_group_cases (test : option string -> bool) (groups : Re.captures) :
  next_group test groups None = None \/
  exists x, In (Some x) groups /\ test (Some x) = true /\
            next_group test groups None = Some x.
Proof.
  unfold next_group. destruct (find test groups) as [[x|]|] eqn:H; [|by left..].
  apply find_some in H as [Hin Ht]. right. by exists x.
Qed.

Lemma digits_not_variant (xs : list string) (v : string) :
  forallb (fun x => negb (digits_only x)) xs = true ->
  digits_only v = true -> PyStr.mem v xs = false.
Proof.
  intros Hxs Hv. unfold PyStr.mem. apply not_true_is_false. intros H.
  apply existsb_exists in H as (w & Hw & Heq%String.eqb_eq). subst w.
  rewrite forallb_forall in Hxs. specialize (Hxs _ Hw). by rewrite Hv in Hxs.
Qed.

(** The variant written by the two CPU branches. *)
Lemma intel_cpu_variant (groups : Re.captures) (info : CPUInfo.t) :
  CPUInfo.variant info = None ->
  (forall x, In (Some x) groups -> PyStr.mem x ["h"; "u"; "hx"; "k"] = true ->
             String.length x = 1) ->
  In (CPUInfo.variant (intel_cpu groups info)) [None; Some "H"; Some "U"; Some "K"].
Proof.
  intros Hinfo Hshort. unfold intel_cpu. cbv zeta.
  destruct (next_group_cases (group_in ["h"; "u"; "hx"; "k"]) groups)
    as [-> | (x & Hin & Htest & ->)].
  - cbn [PyStr.truthy]. repeat case_match; simpl; rewrite Hinfo; by left.
  - specialize (Hshort x Hin Htest). cbn [group_in] in Htest. unfold PyStr.mem in Htest.
    apply existsb_exists in Htest as (w & Hw & Heq%String.eqb_eq). subst w.
    destruct Hw as [<-|[<-|[<-|[<-|[]]]]]; try discriminate Hshort;
      cbn [PyStr.truthy]; repeat case_match; simpl; tauto.
Qed.

Lemma amd_cpu_variant (text : string) (groups : Re.captures) (info : CPUInfo.t) :
  CPUInfo.variant info = None ->
  (forall x, In (Some x) groups -> PyStr.mem x ["h"; "u"; "hx"] = true ->
             String.length x = 1) ->
  In (CPUInfo.variant (amd_cpu text groups info)) [None; Some "H"; Some "U"].
Proof.
  intros Hinfo Hshort. unfold amd_cpu. cbv zeta.
  destruct (next_group_cases (group_in ["h"; "u"; "hx"]) groups)
    as [-> | (x & Hin & Htest & ->)].
  - cbn [PyStr.truthy]. repeat case_match; simpl; rewrite Hinfo; by left.
  - specialize (Hshort x Hin Htest). cbn [group_in] in Htest. unfold PyStr.mem in Htest.
    apply existsb_exists in Htest as (w & Hw & Heq%String.eqb_eq). subst w.
    destruct Hw as [<-|[<-|[<-|[]]]]; try discriminate Hshort;
      cbn [PyStr.truthy]; repeat case_match; simpl; tauto.
Qed.

(** X20. The variant of a CPU is absent, "H", "U" or "K". "HX" is never
    written, although both families of patterns and both lists of variants
    name it: in the last group the alternative h stands before hx and
    nothing follows the group, so the match ends after the h. *)
Theorem cpu_variant_is_never_hx (text : option string) (is_technical_detail : bool) :
  In (CPUInfo.variant (parse_cpu_from_text text is_technical_detail))
     [None; Some "H"; Some "U"; Some "K"].
Proof.
  unfold parse_cpu_from_text.
  destruct (negb (PyStr.truthy text)); [by left|]. cbv zeta.
  destruct (first_match intel_cpu_patterns _) as [groups|] eqn:Hi.
  - apply intel_cpu_variant; [reflexivity|]. intros x Hin Hmem.
    pose proof (intel_cpu_variant_group _ _ x Hi) as Hlast.
    apply intel_cpu_groups in Hi
      as (g1 & g2 & v3 & v4 & tail & -> & H1 & H2 & H3 & H4 & Hlen & Htail);
      [|apply no_upper_normalized].
    destruct Hin as [->|[->|[[= ->]|[[= ->]|Hin]]]].
    + destruct H1 as [?|[[= <-]|[]]]; done.
    + destruct H2 as [?|[[= <-]|[]]]; done.
    + destruct H3 as [<-|[<-|[<-|[<-|[<-|[]]]]]]; done.
    + by rewrite digits_not_variant in Hmem.
    + destruct Htail as [->|(v5 & g6 & -> & H5 & Hlen5)]; [done|].
      destruct Hin as [[= ->]|[->|[]]]; [by rewrite digits_not_variant in Hmem|].
      by apply Hlast.
  - destruct (first_match amd_cpu_patterns _) as [groups|] eqn:Ha; [|by left].
    assert (Hv : In (CPUInfo.variant
                       (amd_cpu (PyStr.strip (PyStr.lower (PyStr.str text))) groups
                          (CPUInfo.Make None None None None None
                             (Some (source_tag is_technical_detail))
                             (Some (confidence_tag is_technical_detail)))))
                    [None; Some "H"; Some "U"]); [|simpl in *; tauto].
    apply amd_cpu_variant; [reflexivity|]. intros x Hin Hmem.
    pose proof (amd_cpu_variant_group _ _ x Ha) as Hlast.
    apply amd_cpu_groups in Ha
      as (Hryzen & g1 & v3 & v4 & g5 & -> & H1 & H3 & H4 & Hlen);
      [|apply no_upper_normalized].
    destruct Hin as [->|[[= <-]|[[= ->]|[[= ->]|[->|[]]]]]].
    + destruct H1 as [?|[[= <-]|[]]]; done.
    + done.
    + destruct H3 as [<-|[<-|[<-|[<-|[]]]]]; done.
    + by rewrite digits_not_variant in Hmem.
    + by apply Hlast.
Qed.
